(** * A shallow embedding of the job-board backend (server.js)

    The server is an Express application over four Mongoose models
    (Reference, Visitor, Job, User).  Every handler is a short
    read-modify-write sequence against the document store, wrapped in a
    try/catch that turns a rejected store call into a status-500 response.

    The embedding keeps that shape: the store is explicit state, a store
    call is a computation that either resolves or rejects, and each handler
    is the monadic transcription of the JavaScript body.  Two variants of the
    visitor counter exist in the repository (one backed by the store, one by
    two process-level variables); both are embedded.

    What is taken from the libraries, as their documentation gives it:
    - [Model.findOne()] resolves to the first document of the collection in
      insertion order, or to null; [User.findOne({ username })] to the first
      user with that name;
    - [new Model(fields)] draws a fresh ObjectId; [doc.save()] inserts a new
      document and writes a known one back under its id; saving a user
      checks the required paths and the unique index on username;
    - [findByIdAndUpdate(id, update, { new: true })] and
      [findByIdAndDelete(id)] cast [id] to an ObjectId (rejecting when it
      does not cast), act on the document with that id if there is one, and
      resolve to the updated document, the deleted one, or null;
    - [bcrypt.hash] and [bcrypt.compare] are parameters.
    Store calls do not fail for reasons outside the model (connectivity),
    and requests are served one after the other; [racingReferences] is the
    one place that looks at two requests in flight at once.

    Numbers: the counters are JavaScript Numbers that hold integers; a
    count is the integer the Number holds, as a [Z].  Adding 1 gives the
    Number nearest to the sum ([Js.plus]): the sum itself up to 2^53, and
    above that the sum rounded to 53 significant bits, ties to even.
    [String(n)] is the shortest decimal spelling that reads back as the
    same Number ([Js.String_]): the decimal expansion up to 2^53.  Times
    are milliseconds since the epoch, as [Date.getTime] returns them.
    Request bodies are those of the interface: a job payload supplies any
    subset of the schema's paths with values of their types; credentials
    carry a username string and a password that is a string or is not one
    (missing, or of another type). *)

From Stdlib Require Import ZArith NArith List String Ascii Bool Lia.
Import ListNotations.

Open Scope Z_scope.

(** ** JavaScript strings and numbers *)

Module Js.

(** The character of a decimal digit [0 <= d <= 9]. *)
Definition digitChar (d : Z) : ascii := ascii_of_N (48 + Z.to_N d).

Definition isDigit (c : ascii) : bool :=
  let n := N_of_ascii c in (48 <=? n)%N && (n <=? 57)%N.

(** Decimal digits of a non-negative integer, most significant first,
    pushed in front of [acc]. *)
Fixpoint digitsOnto (fuel : nat) (n : Z) (acc : string) : string :=
  match fuel with
  | O => acc
  | S fuel' =>
      let acc' := String (digitChar (n mod 10)) acc in
      if n <? 10 then acc' else digitsOnto fuel' (n / 10) acc'
  end.

Definition digits (n : Z) : string :=
  digitsOnto (S (Z.to_nat (Z.log2 n))) n EmptyString.

(** The Number nearest to an integer: the integer itself below 2^53, and
    above that its 53 leading bits, rounded to nearest, ties to the even
    mantissa. *)
Definition toNumber (x : Z) : Z :=
  let a := Z.abs x in
  if a <? 2 ^ 53 then x
  else
    let e := Z.log2 a - 52 in
    let q := a / 2 ^ e in
    let r := a mod 2 ^ e in
    let half := 2 ^ (e - 1) in
    let q' :=
      if r <? half then q
      else if half <? r then q + 1
      else if Z.even q then q else q + 1 in
    Z.sgn x * (q' * 2 ^ e).

(** [a + b] on Numbers that hold integers. *)
Definition plus (a b : Z) : Z := toNumber (a + b).

Fixpoint fill (k : nat) (c : ascii) : string :=
  match k with
  | O => EmptyString
  | S k' => String c (fill k' c)
  end.

(** [String(n)] for a Number [n] that holds an integer.  The digits are
    those of the least number of significant digits [k] for which some
    [s * 10^(n - k)] reads back as the same Number (the nearest such [s],
    the even one on a tie); they are followed by zeros up to [n] digits,
    or written in exponent form when [n] exceeds 21. *)
Definition candidate (v : Z) (len k : nat) : option Z :=
  let scale := 10 ^ Z.of_nat (len - k) in
  let lo := v / scale in
  let hi := lo + 1 in
  let okLo := toNumber (lo * scale) =? v in
  let okHi := (hi <? 10 ^ Z.of_nat k) && (toNumber (hi * scale) =? v) in
  match okLo, okHi with
  | true, false => Some lo
  | false, true => Some hi
  | false, false => None
  | true, true =>
      let below := v - lo * scale in
      let above := hi * scale - v in
      if below <? above then Some lo
      else if above <? below then Some hi
      else if Z.even lo then Some lo else Some hi
  end.

Fixpoint shortestFrom (fuel : nat) (v : Z) (len k : nat)
  : option (Z * nat) :=
  match fuel with
  | O => None
  | S fuel' =>
      match candidate v len k with
      | Some s => Some (s, k)
      | None => shortestFrom fuel' v len (S k)
      end
  end.

(** The significant digits [s], their number [k] and the number of digits
    [n] before the decimal point. *)
Definition significand (v : Z) : Z * nat * nat :=
  let len := String.length (digits v) in
  if toNumber (10 ^ Z.of_nat len) =? v then (1, 1%nat, S len)
  else
    match shortestFrom len v len 1 with
    | Some (s, k) => (s, k, len)
    | None => (v, len, len)
    end.

Definition unsignedToString (v : Z) : string :=
  let '(s, k, n) := significand v in
  if Nat.leb n 21 then (digits s ++ fill (n - k) "0")%string
  else
    match digits s with
    | EmptyString => EmptyString
    | String d EmptyString =>
        (String d "e+" ++ digits (Z.of_nat n - 1))%string
    | String d rest =>
        (String d (String "." rest) ++ "e+" ++ digits (Z.of_nat n - 1))%string
    end.

Definition String_ (n : Z) : string :=
  if n <? 0 then String "-"%char (unsignedToString (- n))
  else unsignedToString n.

(** [s.padStart(targetLength, c)] with a one-character pad string: the
    string is never shortened. *)
Definition padStart (targetLength : nat) (c : ascii) (s : string) : string :=
  (fill (targetLength - String.length s) c ++ s)%string.

Fixpoint allDigits (s : string) : bool :=
  match s with
  | EmptyString => true
  | String c r => isDigit c && allDigits r
  end.

(** A fixed-width pattern is a list of character classes; a string matches
    it when it has one character per class, each in its class.  This is
    the anchored reading of a regular expression without repetition
    operators. *)
Fixpoint matchClasses (p : list (ascii -> bool)) (s : string) : bool :=
  match p, s with
  | [], EmptyString => true
  | cls :: p', String c s' => cls c && matchClasses p' s'
  | _, _ => false
  end.

End Js.

(** The pattern [\d{3}/\d{2}/\d{4}]. *)
Definition slash (c : ascii) : bool := Ascii.eqb c "/"%char.

Definition referencePattern : list (ascii -> bool) :=
  [Js.isDigit; Js.isDigit; Js.isDigit; slash;
   Js.isDigit; Js.isDigit; slash;
   Js.isDigit; Js.isDigit; Js.isDigit; Js.isDigit].


(** ** The document store

    Each Mongoose model owns one collection: documents in insertion order,
    each under the ObjectId the driver gave it when the document was
    constructed.  ObjectIds are 96-bit values; the driver never hands out the
    same one twice, which the model renders as a counter. *)

Definition ObjectId := N.

Module referenceSchema.
Record t := { count : Z }.
End referenceSchema.

Module visitorSchema.
Record t := { count : Z; lastUpdated : Z }.
End visitorSchema.

Module jobSchema.
(** Every path of the schema is optional.  The same record type serves as
    the client payload (the paths the request body supplies) and as the
    stored document. *)
Record t := {
  title : option string;
  description : option string;
  location : option string;
  datePosted : option Z;
  icon : option string
}.

Inductive path := Title | Description | Location | DatePosted | Icon.

Inductive value := VString (s : string) | VDate (ms : Z).

Definition get (p : path) (j : t) : option value :=
  match p with
  | Title => option_map VString (title j)
  | Description => option_map VString (description j)
  | Location => option_map VString (location j)
  | DatePosted => option_map VDate (datePosted j)
  | Icon => option_map VString (icon j)
  end.
End jobSchema.

Module userSchema.
Record t := { username : string; password : string }.
End userSchema.

Definition Collection (A : Type) := list (ObjectId * A).

Record Db := {
  objectIdCounter : ObjectId;
  References : Collection referenceSchema.t;
  Visitors : Collection visitorSchema.t;
  Jobs : Collection jobSchema.t;
  Users : Collection userSchema.t
}.

Definition emptyDb : Db :=
  {| objectIdCounter := 0%N; References := []; Visitors := [];
     Jobs := []; Users := [] |}.

(** A document in the hands of a handler: its id, whether it has been
    written to the store yet, and its current field values. *)
Record Document (A : Type) := {
  _id : ObjectId;
  isNew : bool;
  fields : A
}.
Arguments _id {A} _.
Arguments isNew {A} _.
Arguments fields {A} _.

Inductive Error :=
| CastError
| ValidationError
| DuplicateKeyError
| Thrown (message : string).

Inductive Outcome (A : Type) :=
| Resolved (a : A)
| Rejected (e : Error).
Arguments Resolved {A} _.
Arguments Rejected {A} _.

(** An awaited computation: runs against the store, leaves a store behind,
    and either resolves to a value or rejects. *)
Definition Async (A : Type) := Db -> Outcome A * Db.

Definition ret {A} (a : A) : Async A := fun db => (Resolved a, db).

Definition throw {A} (e : Error) : Async A := fun db => (Rejected e, db).

Definition bind {A B} (m : Async A) (k : A -> Async B) : Async B :=
  fun db =>
    match m db with
    | (Resolved a, db') => k a db'
    | (Rejected e, db') => (Rejected e, db')
    end.

(** [try { m } catch (error) { h error }]: what [m] wrote before it rejected
    stays written. *)
Definition tryCatch {A} (m : Async A) (h : Error -> Async A) : Async A :=
  fun db =>
    match m db with
    | (Resolved a, db') => (Resolved a, db')
    | (Rejected e, db') => h e db'
    end.

Notation "x <- m ;; k" := (bind m (fun x => k))
  (at level 61, m at next level, right associativity).

(** *** Collection primitives *)

Fixpoint lookupById {A} (oid : ObjectId) (c : Collection A) : option A :=
  match c with
  | [] => None
  | (i, a) :: c' => if N.eqb i oid then Some a else lookupById oid c'
  end.

(** Replace the fields of the first document stored under [oid]. *)
Fixpoint replaceById {A} (oid : ObjectId) (a : A) (c : Collection A)
  : Collection A :=
  match c with
  | [] => []
  | (i, x) :: c' =>
      if N.eqb i oid then (i, a) :: c' else (i, x) :: replaceById oid a c'
  end.

(** Remove the first document stored under [oid]. *)
Fixpoint deleteById {A} (oid : ObjectId) (c : Collection A) : Collection A :=
  match c with
  | [] => []
  | (i, x) :: c' =>
      if N.eqb i oid then c' else (i, x) :: deleteById oid c'
  end.

Definition asDocument {A} (e : ObjectId * A) : Document A :=
  {| _id := fst e; isNew := false; fields := snd e |}.

(** [new Model(fields)]: the driver draws a fresh ObjectId. *)
Definition construct {A} (a : A) : Async (Document A) :=
  fun db =>
    (Resolved {| _id := objectIdCounter db; isNew := true; fields := a |},
     {| objectIdCounter := N.succ (objectIdCounter db);
        References := References db; Visitors := Visitors db;
        Jobs := Jobs db; Users := Users db |}).

(** [doc.save()] on a collection: insert a new document at the end, or
    write the fields of a known one back under its id. *)
Definition saveInto {A} (d : Document A) (c : Collection A) : Collection A :=
  if isNew d then c ++ [(_id d, fields d)]
  else replaceById (_id d) (fields d) c.

Definition saved {A} (d : Document A) : Document A :=
  {| _id := _id d; isNew := false; fields := fields d |}.

(** A path parameter is cast to an ObjectId before the query runs: it must
    be a string of 24 hexadecimal digits. *)
Definition hexDigit (c : ascii) : option N :=
  let n := N_of_ascii c in
  if (48 <=? n)%N && (n <=? 57)%N then Some (n - 48)%N
  else if (97 <=? n)%N && (n <=? 102)%N then Some (n - 87)%N
  else if (65 <=? n)%N && (n <=? 70)%N then Some (n - 55)%N
  else None.

Fixpoint parseHex (s : string) (acc : N) : option N :=
  match s with
  | EmptyString => Some acc
  | String c r =>
      match hexDigit c with
      | Some d => parseHex r (16 * acc + d)%N
      | None => None
      end
  end.

Definition castObjectId (s : string) : option ObjectId :=
  if Nat.eqb (String.length s) 24 then parseHex s 0%N else None.

Module Reference.
Import referenceSchema.

Definition findOne : Async (option (Document t)) :=
  fun db => (Resolved (option_map asDocument (hd_error (References db))), db).

Definition save (d : Document t) : Async (Document t) :=
  fun db =>
    (Resolved (saved d),
     {| objectIdCounter := objectIdCounter db;
        References := saveInto d (References db);
        Visitors := Visitors db; Jobs := Jobs db; Users := Users db |}).
End Reference.

Module Visitor.
Import visitorSchema.

Definition findOne : Async (option (Document t)) :=
  fun db => (Resolved (option_map asDocument (hd_error (Visitors db))), db).

Definition save (d : Document t) : Async (Document t) :=
  fun db =>
    (Resolved (saved d),
     {| objectIdCounter := objectIdCounter db;
        References := References db;
        Visitors := saveInto d (Visitors db);
        Jobs := Jobs db; Users := Users db |}).
End Visitor.

Definition orElse {A} (x y : option A) : option A :=
  match x with
  | Some _ => x
  | None => y
  end.

Module Job.
Import jobSchema.

(** [new Job(body)]: the supplied paths, with [datePosted] defaulting to
    [Date.now()]. *)
Definition construct (now : Z) (body : t) : Async (Document t) :=
  construct {| title := title body;
               description := description body;
               location := location body;
               datePosted := orElse (datePosted body) (Some now);
               icon := icon body |}.

Definition save (d : Document t) : Async (Document t) :=
  fun db =>
    (Resolved (saved d),
     {| objectIdCounter := objectIdCounter db;
        References := References db; Visitors := Visitors db;
        Jobs := saveInto d (Jobs db);
        Users := Users db |}).

Definition find : Async (list (Document t)) :=
  fun db => (Resolved (map asDocument (Jobs db)), db).

(** The update document sets exactly the paths it supplies. *)
Definition applyUpdate (update old : t) : t :=
  {| title := orElse (title update) (title old);
     description := orElse (description update) (description old);
     location := orElse (location update) (location old);
     datePosted := orElse (datePosted update) (datePosted old);
     icon := orElse (icon update) (icon old) |}.

(** [Job.findByIdAndUpdate(id, update, { new: true })]: rejects when [id]
    does not cast, resolves to [null] when no document has that id, and
    otherwise to the document as it is after the update. *)
Definition findByIdAndUpdate (id : string) (update : t)
  : Async (option (Document t)) :=
  fun db =>
    match castObjectId id with
    | None => (Rejected CastError, db)
    | Some oid =>
        match lookupById oid (Jobs db) with
        | None => (Resolved None, db)
        | Some old =>
            let new := applyUpdate update old in
            (Resolved (Some {| _id := oid; isNew := false; fields := new |}),
             {| objectIdCounter := objectIdCounter db;
                References := References db; Visitors := Visitors db;
                Jobs := replaceById oid new (Jobs db);
                Users := Users db |})
        end
    end.

Definition findByIdAndDelete (id : string) : Async (option (Document t)) :=
  fun db =>
    match castObjectId id with
    | None => (Rejected CastError, db)
    | Some oid =>
        match lookupById oid (Jobs db) with
        | None => (Resolved None, db)
        | Some old =>
            (Resolved (Some {| _id := oid; isNew := false; fields := old |}),
             {| objectIdCounter := objectIdCounter db;
                References := References db; Visitors := Visitors db;
                Jobs := deleteById oid (Jobs db);
                Users := Users db |})
        end
    end.
End Job.

Module User.
Import userSchema.

(** [User.findOne({ username })]. *)
Definition findOne (name : string) : Async (option (Document t)) :=
  fun db =>
    (Resolved
       (option_map asDocument
          (find (fun e => String.eqb (username (snd e)) name) (Users db))),
     db).

Definition nonEmpty (s : string) : bool :=
  match s with
  | EmptyString => false
  | String _ _ => true
  end.

(** [newUser.save()]: both paths are required (an empty string does not
    count as present), and the unique index on [username] refuses a second
    document with a stored name. *)
Definition save (d : Document t) : Async (Document t) :=
  fun db =>
    if negb (nonEmpty (username (fields d)) && nonEmpty (password (fields d)))
    then (Rejected ValidationError, db)
    else if existsb (fun e => String.eqb (username (snd e))
                                         (username (fields d)))
                    (Users db)
    then (Rejected DuplicateKeyError, db)
    else
      (Resolved (saved d),
       {| objectIdCounter := objectIdCounter db;
          References := References db; Visitors := Visitors db;
          Jobs := Jobs db;
          Users := saveInto d (Users db) |}).
End User.

(** ** Requests and responses *)

#[local] Set Warnings "-register-all".

Inductive Json :=
| JNull
| JNumber (n : Z)
| JString (s : string)
| JObjectId (oid : ObjectId)
| JDate (ms : Z)
| JObject (members : list (string * Json))
| JArray (items : list Json).

Record Response := { status : Z; body : Json }.

(** [res.json(v)] and [res.status(code).json(v)]. *)
Definition json (v : Json) : Response := {| status := 200; body := v |}.
Definition statusJson (code : Z) (v : Json) : Response :=
  {| status := code; body := v |}.

Definition errorBody (message : string) : Json :=
  JObject [("error"%string, JString message)].

Definition messageBody (message : string) : Json :=
  JObject [("message"%string, JString message)].

Definition member {A} (name : string) (f : A -> Json) (v : option A)
  : list (string * Json) :=
  match v with
  | Some a => [(name, f a)]
  | None => []
  end.

(** The JSON form of a job document. *)
Definition jobJson (d : Document jobSchema.t) : Json :=
  let j := fields d in
  JObject
    ([("_id"%string, JObjectId (_id d))]
       ++ member "title" JString (jobSchema.title j)
       ++ member "description" JString (jobSchema.description j)
       ++ member "location" JString (jobSchema.location j)
       ++ member "datePosted" JDate (jobSchema.datePosted j)
       ++ member "icon" JString (jobSchema.icon j)
       ++ [("__v"%string, JNumber 0)]).

Definition nullable {A} (f : A -> Json) (v : option A) : Json :=
  match v with
  | Some a => f a
  | None => JNull
  end.

(** What a handler reads from outside the store while it runs.  Each field
    is one read in the source, so two reads of the clock within one request
    may differ. *)
Record Env := {
  dateNow : Z;          (* Date.now() *)
  currentTime : Z;      (* new Date().getTime() *)
  newDate : Z;          (* new Date(), when stored *)
  localeMonth : Z;      (* month of new Date() in the en-US locale, 1..12 *)
  fullYear : Z;         (* new Date().getFullYear() *)
  salt : string         (* the randomness bcrypt.hash draws *)
}.

(** An environment in which every clock read returns the same instant. *)
Definition atInstant (now month year : Z) (entropy : string) : Env :=
  {| dateNow := now; currentTime := now; newDate := now;
     localeMonth := month; fullYear := year; salt := entropy |}.

(** The body of a registration or login.  [password] is [None] when the
    field is missing or is not a string. *)
Record Credentials := { username : string; password : option string }.

Inductive Request :=
| POST_reference
| POST_jobs (body : jobSchema.t)
| GET_jobs
| PUT_jobs (id : string) (body : jobSchema.t)
| DELETE_jobs (id : string)
| POST_register (body : Credentials)
| POST_login (body : Credentials)
| GET_visitorCount.

(** ** The handlers *)

Definition formatReference (count month year : Z) : string :=
  let currentMonth := Js.padStart 2 "0" (Js.String_ month) in
  let currentYear := Js.String_ year in
  let formattedCount := Js.padStart 3 "0" (Js.String_ count) in
  (formattedCount ++ "/" ++ currentMonth ++ "/" ++ currentYear)%string.

Definition getNextReferenceNumber (env : Env) : Async string :=
  tryCatch
    (found <- Reference.findOne ;;
     reference <-
       match found with
       | None => construct {| referenceSchema.count := 1 |}
       | Some r =>
           ret {| _id := _id r; isNew := isNew r;
                  fields :=
                    {| referenceSchema.count :=
                         Js.plus (referenceSchema.count (fields r)) 1 |} |}
       end ;;
     reference <- Reference.save reference ;;
     ret (formatReference (referenceSchema.count (fields reference))
                          (localeMonth env) (fullYear env)))
    (fun _ => throw (Thrown "Could not generate reference number")).

Definition post_api_reference (env : Env) : Async Response :=
  tryCatch
    (referenceNumber <- getNextReferenceNumber env ;;
     ret (json (JObject [("reference_number"%string,
                          JString referenceNumber)])))
    (fun _ => ret (statusJson 500
                     (errorBody "Error generating reference number"))).

Definition post_api_jobs (env : Env) (body : jobSchema.t) : Async Response :=
  tryCatch
    (newJob <- Job.construct (dateNow env) body ;;
     savedJob <- Job.save newJob ;;
     ret (statusJson 201 (jobJson savedJob)))
    (fun _ => ret (statusJson 500 (errorBody "Error saving job"))).

Definition get_api_jobs : Async Response :=
  tryCatch
    (jobs <- Job.find ;;
     ret (json (JArray (map jobJson jobs))))
    (fun _ => ret (statusJson 500 (errorBody "Error fetching jobs"))).

Definition put_api_jobs (id : string) (body : jobSchema.t) : Async Response :=
  tryCatch
    (updatedJob <- Job.findByIdAndUpdate id body ;;
     ret (json (nullable jobJson updatedJob)))
    (fun _ => ret (statusJson 500 (errorBody "Error updating job"))).

Definition delete_api_jobs (id : string) : Async Response :=
  tryCatch
    (_ <- Job.findByIdAndDelete id ;;
     ret (json (messageBody "Job deleted")))
    (fun _ => ret (statusJson 500 (errorBody "Error deleting job"))).

Definition visitorCountBody (count : Z) : Json :=
  JObject [("visitorCount"%string, JNumber count)].

Definition get_api_visitorCount (env : Env) : Async Response :=
  tryCatch
    (found <- Visitor.findOne ;;
     visitorData <-
       match found with
       | None =>
           fresh <- construct {| visitorSchema.count := 905;
                                 visitorSchema.lastUpdated := dateNow env |} ;;
           Visitor.save fresh
       | Some v => ret v
       end ;;
     let lastIncrementTime := visitorSchema.lastUpdated (fields visitorData) in
     visitorData <-
       (if currentTime env - lastIncrementTime >=? 3600000 then
          Visitor.save
            {| _id := _id visitorData; isNew := isNew visitorData;
               fields :=
                 {| visitorSchema.count :=
                      Js.plus (visitorSchema.count (fields visitorData)) 1;
                    visitorSchema.lastUpdated := newDate env |} |}
        else ret visitorData) ;;
     ret (json (visitorCountBody (visitorSchema.count (fields visitorData)))))
    (fun _ => ret (statusJson 500 (errorBody "Internal server error"))).

Section Bcrypt.

(** The password hashing library: [bcrypt.hash(data, rounds)] with the
    salt it draws, and [bcrypt.compare(data, encrypted)]. *)
Variable bcrypt_hash : string -> nat -> string -> string.
Variable bcrypt_compare : string -> string -> bool.

(** The awaited calls: both reject when the data is not a string, with an
    error the handlers' catch clauses do not look at. *)
Definition await_hash (data : option string) (rounds : nat) (entropy : string)
  : Async string :=
  match data with
  | Some text => ret (bcrypt_hash text rounds entropy)
  | None => throw (Thrown "data and salt arguments required")
  end.

Definition await_compare (data : option string) (encrypted : string)
  : Async bool :=
  match data with
  | Some text => ret (bcrypt_compare text encrypted)
  | None => throw (Thrown "data and hash arguments required")
  end.

Definition post_api_register (env : Env) (body : Credentials)
  : Async Response :=
  tryCatch
    (hashedPassword <- await_hash (password body) 8 (salt env) ;;
     newUser <- construct {| userSchema.username := username body;
                             userSchema.password := hashedPassword |} ;;
     _ <- User.save newUser ;;
     ret (statusJson 201 (messageBody "User registered successfully")))
    (fun _ => ret (statusJson 500 (errorBody "Error registering user"))).

Definition loginBody (name : string) : Json :=
  JObject [("message"%string, JString "Login successful");
           ("user"%string, JObject [("username"%string, JString name)])].

Definition post_api_login (body : Credentials) : Async Response :=
  tryCatch
    (found <- User.findOne (username body) ;;
     match found with
     | None =>
         ret (statusJson 400 (errorBody "Invalid username or password"))
     | Some user =>
         isPasswordValid <-
           await_compare (password body)
                         (userSchema.password (fields user)) ;;
         if negb isPasswordValid then
           ret (statusJson 400 (errorBody "Invalid username or password"))
         else
           ret (json (loginBody (userSchema.username (fields user))))
     end)
    (fun _ => ret (statusJson 500 (errorBody "Error logging in"))).

(** The routing table. *)
Definition route (env : Env) (req : Request) : Async Response :=
  match req with
  | POST_reference => post_api_reference env
  | POST_jobs body => post_api_jobs env body
  | GET_jobs => get_api_jobs
  | PUT_jobs id body => put_api_jobs id body
  | DELETE_jobs id => delete_api_jobs id
  | POST_register body => post_api_register env body
  | POST_login body => post_api_login body
  | GET_visitorCount => get_api_visitorCount env
  end.

(** One request served against the store.  Every handler catches what it
    awaits; the second branch is Express's own answer to a handler that
    rejects. *)
Definition serve (env : Env) (req : Request) (db : Db) : Response * Db :=
  match route env req db with
  | (Resolved res, db') => (res, db')
  | (Rejected _, db') =>
      (statusJson 500 (errorBody "Internal Server Error"), db')
  end.

(** A run of requests, each with the environment it was served in; the
    responses come back in order. *)
Fixpoint serveAll (reqs : list (Env * Request)) (db : Db)
  : list Response * Db :=
  match reqs with
  | [] => ([], db)
  | (env, req) :: reqs' =>
      let (res, db') := serve env req db in
      let (rest, db'') := serveAll reqs' db' in
      (res :: rest, db'')
  end.

End Bcrypt.

(** ** The variant with the visitor counter in process memory

    The second source file keeps the visitor counter in two module-level
    variables instead of the store; its other handlers are the same. *)

Module InProcess.

Record Vars := { visitorCount : Z; lastIncrementTime : Z }.

(** The two [let] statements, run once when the process starts. *)
Definition start (now : Z) : Vars :=
  {| visitorCount := 905; lastIncrementTime := now |}.

Definition get_api_visitorCount (currentTime : Z) (v : Vars)
  : Response * Vars :=
  let v' :=
    if currentTime - lastIncrementTime v >=? 3600000 then
      {| visitorCount := Js.plus (visitorCount v) 1;
         lastIncrementTime := currentTime |}
    else v in
  (json (visitorCountBody (visitorCount v')), v').

End InProcess.

(** ** Vocabulary of the statements *)

(** The count the next call will hand out, read off the store. *)
Definition nextCount (db : Db) : Z :=
  match References db with
  | [] => 1
  | (_, r) :: _ => Js.plus (referenceSchema.count r) 1
  end.

(** The store a call leaves behind. *)
Definition afterReference (db : Db) : Db :=
  match References db with
  | [] =>
      {| objectIdCounter := N.succ (objectIdCounter db);
         References := [(objectIdCounter db, {| referenceSchema.count := 1 |})];
         Visitors := Visitors db; Jobs := Jobs db; Users := Users db |}
  | (oid, r) :: rest =>
      {| objectIdCounter := objectIdCounter db;
         References :=
           (oid, {| referenceSchema.count :=
                      Js.plus (referenceSchema.count r) 1 |})
             :: rest;
         Visitors := Visitors db; Jobs := Jobs db; Users := Users db |}
  end.

Definition referenceBody (count month year : Z) : Json :=
  JObject [("reference_number"%string,
            JString (formatReference count month year))].

(** The responses a run of reference requests should produce when the first
    of them hands out [count]. *)
Fixpoint referenceResponses (count : Z) (envs : list Env) : list Response :=
  match envs with
  | [] => []
  | env :: envs' =>
      json (referenceBody count (localeMonth env) (fullYear env))
        :: referenceResponses (count + 1) envs'
  end.

Definition referenceRequests (envs : list Env) : list (Env * Request) :=
  map (fun env => (env, POST_reference)) envs.

(** Reading a reference number back: the text before the first slash, and
    the number its decimal digits spell. *)
Fixpoint beforeSlash (s : string) : string :=
  match s with
  | EmptyString => EmptyString
  | String c r => if slash c then EmptyString else String c (beforeSlash r)
  end.

Fixpoint parseDigits (s : string) (acc : Z) : Z :=
  match s with
  | EmptyString => acc
  | String c r => parseDigits r (10 * acc + (Z.of_N (N_of_ascii c) - 48))
  end.

Definition countPortion (referenceNumber : string) : Z :=
  parseDigits (beforeSlash referenceNumber) 0.

(** The month and year portions the generator prints in an environment. *)
Definition MM (env : Env) : string :=
  Js.padStart 2 "0" (Js.String_ (localeMonth env)).

Definition YYYY (env : Env) : string := Js.String_ (fullYear env).

Definition referenceNumberBody (referenceNumber : string) : Json :=
  JObject [("reference_number"%string, JString referenceNumber)].

(** A stand-in for the hashing library, for running the handlers on concrete
    requests: it keeps the interface and the one property the handlers rely
    on (a password verifies against its own hash), nothing of the
    cryptography. *)
Definition stubHash (data : string) (rounds : nat) (entropy : string)
  : string := ("$2b$" ++ data)%string.

Definition stubCompare (data encrypted : string) : bool :=
  String.eqb encrypted ("$2b$" ++ data)%string.

Definition isReferencePost (req : Env * Request) : bool :=
  match snd req with
  | POST_reference => true
  | _ => false
  end.

(** How many requests of a run are POST /api/reference. *)
Definition referencePosts (reqs : list (Env * Request)) : Z :=
  Z.of_nat (List.length (filter isReferencePost reqs)).

(** The visitor record a read works on: the stored one, or the one it
    creates. *)
Definition visitorAtHand (env : Env) (db : Db) : visitorSchema.t :=
  match Visitors db with
  | [] => {| visitorSchema.count := 905;
             visitorSchema.lastUpdated := dateNow env |}
  | (_, v) :: _ => v
  end.

Definition hourPassed (env : Env) (v : visitorSchema.t) : bool :=
  currentTime env - visitorSchema.lastUpdated v >=? 3600000.

(** The record as the read leaves it. *)
Definition visitorAfter (env : Env) (v : visitorSchema.t) : visitorSchema.t :=
  if hourPassed env v then
    {| visitorSchema.count := Js.plus (visitorSchema.count v) 1;
       visitorSchema.lastUpdated := newDate env |}
  else v.

Definition visitorRequests (envs : list Env) : list (Env * Request) :=
  map (fun env => (env, GET_visitorCount)) envs.

(** The count a visitor-count response carries. *)
Definition visitorCountOf (res : Response) : option Z :=
  match body res with
  | JObject [(_, JNumber n)] => Some n
  | _ => None
  end.

(** Two reads of the in-process counter, one after the other. *)
Definition inProcessReads (t1 t2 : Z) (v : InProcess.Vars)
  : Response * Response :=
  let (r1, v1) := InProcess.get_api_visitorCount t1 v in
  let (r2, _) := InProcess.get_api_visitorCount t2 v1 in
  (r1, r2).

(** Whether a stored user carries the given name. *)
Definition named (name : string) (e : ObjectId * userSchema.t) : bool :=
  String.eqb (userSchema.username (snd e)) name.

Definition registrationError : Response :=
  statusJson 500 (errorBody "Error registering user").

Definition registrationSuccess : Response :=
  statusJson 201 (messageBody "User registered successfully").

Definition loginError : Response :=
  statusJson 400 (errorBody "Invalid username or password").

(** The ids stored in a collection, in order. *)
Definition ids {A} (c : Collection A) : list ObjectId := map fst c.

(** Ids in the job collection are distinct and were all handed out by the
    driver already. *)
Definition wfJobs (db : Db) : Prop :=
  NoDup (ids (Jobs db))
  /\ Forall (fun oid => (oid < objectIdCounter db)%N) (ids (Jobs db)).

(** An id the driver has handed out and that no stored job carries. *)
Definition retired (oid : ObjectId) (db : Db) : Prop :=
  (oid < objectIdCounter db)%N /\ ~ In oid (ids (Jobs db)).

(** The 24-digit hexadecimal spelling of an ObjectId, as it appears in a
    path parameter. *)
Definition hexChar (d : N) : ascii :=
  if (d <? 10)%N then ascii_of_N (48 + d) else ascii_of_N (87 + d).

Fixpoint hexOnto (width : nat) (n : N) (acc : string) : string :=
  match width with
  | O => acc
  | S width' => hexOnto width' (n / 16)%N (String (hexChar (n mod 16)%N) acc)
  end.

Definition toHexString (oid : ObjectId) : string := hexOnto 24 oid EmptyString.

(** The visitor record that corresponds to the two process-level
    variables. *)
Definition asVisitor (v : InProcess.Vars) : visitorSchema.t :=
  {| visitorSchema.count := InProcess.visitorCount v;
     visitorSchema.lastUpdated := InProcess.lastIncrementTime v |}.

(** ** The handlers over any store

    The handlers await ten store calls.  Here the calls are the fields of a
    record, so that a call may reject for reasons the collections do not
    show (a lost connection, a write conflict); the handlers' bodies are the
    ones above, word for word, and [mongoose] instantiates the record with
    the model of the document store. *)

Record Store := {
  Reference_findOne : Async (option (Document referenceSchema.t));
  Reference_save :
    Document referenceSchema.t -> Async (Document referenceSchema.t);
  Visitor_findOne : Async (option (Document visitorSchema.t));
  Visitor_save : Document visitorSchema.t -> Async (Document visitorSchema.t);
  Job_save : Document jobSchema.t -> Async (Document jobSchema.t);
  Job_find : Async (list (Document jobSchema.t));
  Job_findByIdAndUpdate :
    string -> jobSchema.t -> Async (option (Document jobSchema.t));
  Job_findByIdAndDelete : string -> Async (option (Document jobSchema.t));
  User_findOne : string -> Async (option (Document userSchema.t));
  User_save : Document userSchema.t -> Async (Document userSchema.t)
}.

Definition mongoose : Store :=
  {| Reference_findOne := Reference.findOne;
     Reference_save := Reference.save;
     Visitor_findOne := Visitor.findOne;
     Visitor_save := Visitor.save;
     Job_save := Job.save;
     Job_find := Job.find;
     Job_findByIdAndUpdate := Job.findByIdAndUpdate;
     Job_findByIdAndDelete := Job.findByIdAndDelete;
     User_findOne := User.findOne;
     User_save := User.save |}.

Module AnyStore.

Section Handlers.

Variable store : Store.
Variable bcrypt_hash : string -> nat -> string -> string.
Variable bcrypt_compare : string -> string -> bool.

Definition getNextReferenceNumber (env : Env) : Async string :=
  tryCatch
    (found <- Reference_findOne store ;;
     reference <-
       match found with
       | None => construct {| referenceSchema.count := 1 |}
       | Some r =>
           ret {| _id := _id r; isNew := isNew r;
                  fields :=
                    {| referenceSchema.count :=
                         Js.plus (referenceSchema.count (fields r)) 1 |} |}
       end ;;
     reference <- Reference_save store reference ;;
     ret (formatReference (referenceSchema.count (fields reference))
                          (localeMonth env) (fullYear env)))
    (fun _ => throw (Thrown "Could not generate reference number")).

Definition post_api_reference (env : Env) : Async Response :=
  tryCatch
    (referenceNumber <- getNextReferenceNumber env ;;
     ret (json (JObject [("reference_number"%string,
                          JString referenceNumber)])))
    (fun _ => ret (statusJson 500
                     (errorBody "Error generating reference number"))).

Definition post_api_jobs (env : Env) (body : jobSchema.t) : Async Response :=
  tryCatch
    (newJob <- Job.construct (dateNow env) body ;;
     savedJob <- Job_save store newJob ;;
     ret (statusJson 201 (jobJson savedJob)))
    (fun _ => ret (statusJson 500 (errorBody "Error saving job"))).

Definition get_api_jobs : Async Response :=
  tryCatch
    (jobs <- Job_find store ;;
     ret (json (JArray (map jobJson jobs))))
    (fun _ => ret (statusJson 500 (errorBody "Error fetching jobs"))).

Definition put_api_jobs (id : string) (body : jobSchema.t) : Async Response :=
  tryCatch
    (updatedJob <- Job_findByIdAndUpdate store id body ;;
     ret (json (nullable jobJson updatedJob)))
    (fun _ => ret (statusJson 500 (errorBody "Error updating job"))).

Definition delete_api_jobs (id : string) : Async Response :=
  tryCatch
    (_ <- Job_findByIdAndDelete store id ;;
     ret (json (messageBody "Job deleted")))
    (fun _ => ret (statusJson 500 (errorBody "Error deleting job"))).

Definition get_api_visitorCount (env : Env) : Async Response :=
  tryCatch
    (found <- Visitor_findOne store ;;
     visitorData <-
       match found with
       | None =>
           fresh <- construct {| visitorSchema.count := 905;
                                 visitorSchema.lastUpdated := dateNow env |} ;;
           Visitor_save store fresh
       | Some v => ret v
       end ;;
     let lastIncrementTime := visitorSchema.lastUpdated (fields visitorData) in
     visitorData <-
       (if currentTime env - lastIncrementTime >=? 3600000 then
          Visitor_save store
            {| _id := _id visitorData; isNew := isNew visitorData;
               fields :=
                 {| visitorSchema.count :=
                      Js.plus (visitorSchema.count (fields visitorData)) 1;
                    visitorSchema.lastUpdated := newDate env |} |}
        else ret visitorData) ;;
     ret (json (visitorCountBody (visitorSchema.count (fields visitorData)))))
    (fun _ => ret (statusJson 500 (errorBody "Internal server error"))).

Definition post_api_register (env : Env) (body : Credentials)
  : Async Response :=
  tryCatch
    (hashedPassword <- await_hash bcrypt_hash (password body) 8 (salt env) ;;
     newUser <- construct {| userSchema.username := username body;
                             userSchema.password := hashedPassword |} ;;
     _ <- User_save store newUser ;;
     ret (statusJson 201 (messageBody "User registered successfully")))
    (fun _ => ret (statusJson 500 (errorBody "Error registering user"))).

Definition post_api_login (body : Credentials) : Async Response :=
  tryCatch
    (found <- User_findOne store (username body) ;;
     match found with
     | None =>
         ret (statusJson 400 (errorBody "Invalid username or password"))
     | Some user =>
         isPasswordValid <-
           await_compare bcrypt_compare (password body)
                         (userSchema.password (fields user)) ;;
         if negb isPasswordValid then
           ret (statusJson 400 (errorBody "Invalid username or password"))
         else
           ret (json (loginBody (userSchema.username (fields user))))
     end)
    (fun _ => ret (statusJson 500 (errorBody "Error logging in"))).

Definition route (env : Env) (req : Request) : Async Response :=
  match req with
  | POST_reference => post_api_reference env
  | POST_jobs body => post_api_jobs env body
  | GET_jobs => get_api_jobs
  | PUT_jobs id body => put_api_jobs id body
  | DELETE_jobs id => delete_api_jobs id
  | POST_register body => post_api_register env body
  | POST_login body => post_api_login body
  | GET_visitorCount => get_api_visitorCount env
  end.

End Handlers.

End AnyStore.

(** The message of each route's catch clause. *)
Definition catchMessage (req : Request) : string :=
  match req with
  | POST_reference => "Error generating reference number"
  | POST_jobs _ => "Error saving job"
  | GET_jobs => "Error fetching jobs"
  | PUT_jobs _ _ => "Error updating job"
  | DELETE_jobs _ => "Error deleting job"
  | POST_register _ => "Error registering user"
  | POST_login _ => "Error logging in"
  | GET_visitorCount => "Internal server error"
  end.

(** Two stores for running the handlers when calls fail: one on which every
    call rejects, and one that reads as the document store does and rejects
    every write. *)
Definition unreachable : Store :=
  {| Reference_findOne := throw (Thrown "ECONNREFUSED");
     Reference_save := fun _ => throw (Thrown "ECONNREFUSED");
     Visitor_findOne := throw (Thrown "ECONNREFUSED");
     Visitor_save := fun _ => throw (Thrown "ECONNREFUSED");
     Job_save := fun _ => throw (Thrown "ECONNREFUSED");
     Job_find := throw (Thrown "ECONNREFUSED");
     Job_findByIdAndUpdate := fun _ _ => throw (Thrown "ECONNREFUSED");
     Job_findByIdAndDelete := fun _ => throw (Thrown "ECONNREFUSED");
     User_findOne := fun _ => throw (Thrown "ECONNREFUSED");
     User_save := fun _ => throw (Thrown "ECONNREFUSED") |}.

Definition readOnly : Store :=
  {| Reference_findOne := Reference.findOne;
     Reference_save := fun _ => throw (Thrown "not primary");
     Visitor_findOne := Visitor.findOne;
     Visitor_save := fun _ => throw (Thrown "not primary");
     Job_save := fun _ => throw (Thrown "not primary");
     Job_find := Job.find;
     Job_findByIdAndUpdate := fun _ _ => throw (Thrown "not primary");
     Job_findByIdAndDelete := fun _ => throw (Thrown "not primary");
     User_findOne := User.findOne;
     User_save := fun _ => throw (Thrown "not primary") |}.

(** The document the generator is about to save, and the store at that
    point, given what [findOne] resolved to. *)
Definition referenceToSave
           (found : option (Document referenceSchema.t)) (db : Db)
  : Document referenceSchema.t * Db :=
  match found with
  | None =>
      ({| _id := objectIdCounter db; isNew := true;
          fields := {| referenceSchema.count := 1 |} |},
       {| objectIdCounter := N.succ (objectIdCounter db);
          References := References db; Visitors := Visitors db;
          Jobs := Jobs db; Users := Users db |})
  | Some r =>
      ({| _id := _id r; isNew := isNew r;
          fields := {| referenceSchema.count :=
                         Js.plus (referenceSchema.count (fields r)) 1 |} |},
       db)
  end.

(** The names of the stored users, in order. *)
Definition usernames (db : Db) : list string :=
  map (fun e => userSchema.username (snd e)) (Users db).

(** The text after the first slash, and with it the month and year a
    reference number spells. *)
Fixpoint afterSlash (s : string) : string :=
  match s with
  | EmptyString => EmptyString
  | String c r => if slash c then r else afterSlash r
  end.

Definition monthPortion (referenceNumber : string) : Z :=
  parseDigits (beforeSlash (afterSlash referenceNumber)) 0.

Definition yearPortion (referenceNumber : string) : Z :=
  parseDigits (afterSlash (afterSlash referenceNumber)) 0.

(** The payload that supplies no path: the body [{}]. *)
Definition noPaths : jobSchema.t :=
  {| jobSchema.title := None; jobSchema.description := None;
     jobSchema.location := None; jobSchema.datePosted := None;
     jobSchema.icon := None |}.

(** A run of reads of the in-process counter, at the given clock readings. *)
Fixpoint inProcessRun (times : list Z) (v : InProcess.Vars)
  : list Response * InProcess.Vars :=
  match times with
  | [] => ([], v)
  | t :: times' =>
      let (res, v') := InProcess.get_api_visitorCount t v in
      let (rest, v'') := inProcessRun times' v' in
      (res :: rest, v'')
  end.

Definition isVisitorRead (req : Env * Request) : bool :=
  match snd req with
  | GET_visitorCount => true
  | _ => false
  end.

(** How many requests of a run are GET /api/visitorCount. *)
Definition visitorReads (reqs : list (Env * Request)) : Z :=
  Z.of_nat (List.length (filter isVisitorRead reqs)).

(** The clock of a request stays between [since] and [upTo], and its reset
    stamp is not earlier than its check. *)
Definition clockWithin (since upTo : Z) (env : Env) : Prop :=
  since <= dateNow env <= upTo
  /\ currentTime env <= newDate env <= upTo.

(** A response that is a visitor count between 905 and the bound that one
    increment per hour since [since] allows at time [upTo]. *)
Definition countWithinRate (since upTo : Z) (res : Response) : Prop :=
  exists count,
    res = json (visitorCountBody count)
    /\ 905 <= count
    /\ 3600000 * (count - 905) <= upTo - since.

(** A visitor record whose count is within what one increment per hour
    since [since] allows at its own stamp, the stamp being no later than
    [upTo], and within the integers a Number holds exactly. *)
Definition recordWithinRate (since upTo : Z) (v : visitorSchema.t) : Prop :=
  905 <= visitorSchema.count v
  /\ 3600000 * (visitorSchema.count v - 905)
     <= visitorSchema.lastUpdated v - since
  /\ visitorSchema.lastUpdated v <= upTo
  /\ visitorSchema.count v <= 2 ^ 53.

(** Whether a request is a PUT or DELETE whose path parameter casts to the
    given id. *)
Definition targets (oid : ObjectId) (req : Request) : bool :=
  match req with
  | PUT_jobs id _ | DELETE_jobs id =>
      match castObjectId id with
      | Some oid' => N.eqb oid' oid
      | None => false
      end
  | _ => false
  end.

(** A store that holds nothing but a reference counter record with the
    given count. *)
Definition counterAt (count : Z) : Db :=
  {| objectIdCounter := 1%N;
     References := [(0%N, {| referenceSchema.count := count |})];
     Visitors := []; Jobs := []; Users := [] |}.

(** Two reference requests in flight at once.  A handler runs until it
    awaits; when the second request arrives before the store has answered
    the first, both [findOne] calls are answered before either handler
    goes on to its [save]. *)
Definition racingReferences (envA envB : Env) : Async (string * string) :=
  foundA <- Reference.findOne ;;
  foundB <- Reference.findOne ;;
  referenceA <-
    match foundA with
    | None => construct {| referenceSchema.count := 1 |}
    | Some r =>
        ret {| _id := _id r; isNew := isNew r;
               fields := {| referenceSchema.count :=
                              Js.plus (referenceSchema.count (fields r)) 1 |} |}
    end ;;
  referenceA <- Reference.save referenceA ;;
  referenceB <-
    match foundB with
    | None => construct {| referenceSchema.count := 1 |}
    | Some r =>
        ret {| _id := _id r; isNew := isNew r;
               fields := {| referenceSchema.count :=
                              Js.plus (referenceSchema.count (fields r)) 1 |} |}
    end ;;
  referenceB <- Reference.save referenceB ;;
  ret (formatReference (referenceSchema.count (fields referenceA))
                       (localeMonth envA) (fullYear envA),
       formatReference (referenceSchema.count (fields referenceB))
                       (localeMonth envB) (fullYear envB)).

(** Reading a response body: the member of a JSON object under a name, the
    first one when the name occurs more than once. *)
Fixpoint lookupMember (name : string) (members : list (string * Json))
  : option Json :=
  match members with
  | [] => None
  | (key, v) :: rest =>
      if String.eqb key name then Some v else lookupMember name rest
  end.

Definition jsonMember (name : string) (v : Json) : option Json :=
  match v with
  | JObject members => lookupMember name members
  | _ => None
  end.

(** The name of a path of the job schema, as the schema declares it, and a
    path's value as JSON. *)
Definition pathName (p : jobSchema.path) : string :=
  match p with
  | jobSchema.Title => "title"
  | jobSchema.Description => "description"
  | jobSchema.Location => "location"
  | jobSchema.DatePosted => "datePosted"
  | jobSchema.Icon => "icon"
  end.

Definition valueJson (v : jobSchema.value) : Json :=
  match v with
  | jobSchema.VString s => JString s
  | jobSchema.VDate ms => JDate ms
  end.

(** * Properties *)

(** ** Decimal rendering and padding *)

Example String_905 : Js.String_ 905 = "905"%string.
Proof. reflexivity. Qed.

Example String_negative : Js.String_ (-12) = "-12"%string.
Proof. reflexivity. Qed.

Example String_at_limit :
  Js.String_ (2 ^ 53) = "9007199254740992"%string.
Proof. vm_compute. reflexivity. Qed.

Example String_above_limit :
  Js.String_ (2 ^ 63) = "9223372036854776000"%string.
Proof. vm_compute. reflexivity. Qed.

Example String_exponent : Js.String_ (10 ^ 21) = "1e+21"%string.
Proof. vm_compute. reflexivity. Qed.

Example String_exponent_digits :
  Js.String_ (2 ^ 70) = "1.1805916207174113e+21"%string.
Proof. vm_compute. reflexivity. Qed.

Example plus_below_limit : Js.plus (2 ^ 53 - 1) 1 = 2 ^ 53.
Proof. vm_compute. reflexivity. Qed.

Example plus_at_limit : Js.plus (2 ^ 53) 1 = 2 ^ 53.
Proof. vm_compute. reflexivity. Qed.

Example plus_above_limit : Js.plus (2 ^ 53 + 2) 1 = 2 ^ 53 + 4.
Proof. vm_compute. reflexivity. Qed.

Example padStart_pads : Js.padStart 3 "0" (Js.String_ 7) = "007"%string.
Proof. reflexivity. Qed.

Example padStart_keeps_long :
  Js.padStart 3 "0" (Js.String_ 1234) = "1234"%string.
Proof. reflexivity. Qed.

Example castObjectId_short : castObjectId "abc" = None.
Proof. reflexivity. Qed.

Example castObjectId_not_hex :
  castObjectId "zzzzzzzzzzzzzzzzzzzzzzzz" = None.
Proof. reflexivity. Qed.

Example castObjectId_hex :
  castObjectId "0000000000000000000000ff" = Some 255%N.
Proof. reflexivity. Qed.

Lemma digitChar_isDigit (d : Z) :
  0 <= d <= 9 -> Js.isDigit (Js.digitChar d) = true.
Proof.
  intros Hd.
  assert (Hcases : d = 0 \/ d = 1 \/ d = 2 \/ d = 3 \/ d = 4 \/
                   d = 5 \/ d = 6 \/ d = 7 \/ d = 8 \/ d = 9) by lia.
  repeat (destruct Hcases as [-> | Hcases]; [reflexivity |]).
  subst d; reflexivity.
Qed.

Lemma digitsOnto_allDigits (fuel : nat) :
  forall n acc,
    0 <= n -> Js.allDigits acc = true ->
    Js.allDigits (Js.digitsOnto fuel n acc) = true.
Proof.
  induction fuel as [| fuel IH]; intros n acc Hn Hacc; simpl.
  - exact Hacc.
  - assert (Hd : Js.allDigits (String (Js.digitChar (n mod 10)) acc) = true).
    { simpl. rewrite Hacc, digitChar_isDigit; [reflexivity |].
      pose proof (Z.mod_pos_bound n 10); lia. }
    destruct (n <? 10); [exact Hd |].
    apply IH; [apply Z.div_pos; lia | exact Hd].
Qed.

(** With enough fuel, a number in [10^k, 10^(k+1)) gets [k+1] digits (and so
    does a one-digit number, for [k = 0]). *)
Lemma digitsOnto_length (fuel : nat) :
  forall n acc (k : nat),
    (0 < fuel)%nat ->
    0 <= n < 10 ^ Z.of_nat fuel ->
    (k = O \/ 10 ^ Z.of_nat k <= n) ->
    n < 10 ^ Z.of_nat (S k) ->
    String.length (Js.digitsOnto fuel n acc) = (S k + String.length acc)%nat.
Proof.
  induction fuel as [| fuel IH]; intros n acc k Hpos Hfuel Hlow Hup.
  - lia.
  - simpl Js.digitsOnto.
    destruct (Z.ltb_spec n 10) as [Hsmall | Hbig].
    + destruct k as [| k].
      * reflexivity.
      * exfalso. destruct Hlow as [Hk | Hlow]; [discriminate |].
        assert (10 ^ 1 <= 10 ^ Z.of_nat (S k))
          by (apply Z.pow_le_mono_r; lia).
        lia.
    + destruct k as [| k].
      * exfalso. change (10 ^ Z.of_nat 1) with 10 in Hup. lia.
      * rewrite (IH (n / 10) _ k).
        -- simpl. lia.
        -- destruct fuel as [| fuel]; [simpl in Hfuel; lia | lia].
        -- split; [apply Z.div_pos; lia |].
           apply Z.div_lt_upper_bound; [lia |].
           rewrite Nat2Z.inj_succ, Z.pow_succ_r in Hfuel; lia.
        -- destruct Hlow as [Hk | Hlow]; [discriminate |].
           destruct k as [| k]; [left; reflexivity | right].
           apply Z.div_le_lower_bound; [lia |].
           rewrite (Nat2Z.inj_succ (S k)), Z.pow_succ_r in Hlow; lia.
        -- apply Z.div_lt_upper_bound; [lia |].
           rewrite (Nat2Z.inj_succ (S k)), Z.pow_succ_r in Hup; lia.
Qed.

Lemma digits_fuel (n : Z) :
  0 <= n -> n < 10 ^ Z.of_nat (S (Z.to_nat (Z.log2 n))).
Proof.
  intros Hn.
  rewrite Nat2Z.inj_succ, Z2Nat.id by apply Z.log2_nonneg.
  destruct (Z.eq_dec n 0) as [-> | Hnz].
  - reflexivity.
  - pose proof (Z.log2_spec n ltac:(lia)) as [_ Hlt].
    pose proof (Z.log2_nonneg n) as Hl.
    assert (2 ^ Z.succ (Z.log2 n) <= 10 ^ Z.succ (Z.log2 n))
      by (apply Z.pow_le_mono_l; lia).
    lia.
Qed.

Lemma digits_length (n : Z) (k : nat) :
  0 <= n ->
  (k = O \/ 10 ^ Z.of_nat k <= n) ->
  n < 10 ^ Z.of_nat (S k) ->
  String.length (Js.digits n) = S k.
Proof.
  intros Hn Hlow Hup. unfold Js.digits.
  rewrite (digitsOnto_length _ n EmptyString k).
  - simpl String.length. lia.
  - lia.
  - split; [exact Hn | apply digits_fuel; exact Hn].
  - exact Hlow.
  - exact Hup.
Qed.

Lemma digits_allDigits (n : Z) :
  0 <= n -> Js.allDigits (Js.digits n) = true.
Proof.
  intros Hn. apply digitsOnto_allDigits; [exact Hn | reflexivity].
Qed.



Lemma append_length (s t : string) :
  String.length (s ++ t)%string = (String.length s + String.length t)%nat.
Proof.
  induction s as [| c s IH]; simpl; [reflexivity | now rewrite IH].
Qed.

Lemma fill_length (k : nat) (c : ascii) : String.length (Js.fill k c) = k.
Proof.
  induction k as [| k IH]; simpl; [reflexivity | now rewrite IH].
Qed.

Lemma padStart_length (target : nat) (c : ascii) (s : string) :
  String.length (Js.padStart target c s) = Nat.max target (String.length s).
Proof.
  unfold Js.padStart. rewrite append_length, fill_length. lia.
Qed.

Lemma allDigits_append (s t : string) :
  Js.allDigits (s ++ t)%string = Js.allDigits s && Js.allDigits t.
Proof.
  induction s as [| c s IH]; simpl; [reflexivity |].
  now rewrite IH, andb_assoc.
Qed.

Lemma fill_zero_allDigits (k : nat) : Js.allDigits (Js.fill k "0") = true.
Proof.
  induction k as [| k IH]; simpl; [reflexivity | exact IH].
Qed.

Lemma padStart_allDigits (target : nat) (s : string) :
  Js.allDigits s = true -> Js.allDigits (Js.padStart target "0" s) = true.
Proof.
  intros Hs. unfold Js.padStart.
  now rewrite allDigits_append, fill_zero_allDigits, Hs.
Qed.

Lemma digitsOnto_grows (fuel : nat) :
  forall n acc,
    (String.length acc <= String.length (Js.digitsOnto fuel n acc))%nat.
Proof.
  induction fuel as [| fuel IH]; intros n acc; simpl; [lia |].
  destruct (n <? 10); simpl; [lia |].
  specialize (IH (n / 10) (String (Js.digitChar (n mod 10)) acc)).
  simpl in IH. lia.
Qed.

Lemma digitsOnto_length_ge (fuel : nat) :
  forall n acc (k : nat),
    (0 < fuel)%nat ->
    0 <= n < 10 ^ Z.of_nat fuel ->
    10 ^ Z.of_nat k <= n ->
    (S k + String.length acc <= String.length (Js.digitsOnto fuel n acc))%nat.
Proof.
  induction fuel as [| fuel IH]; intros n acc k Hpos Hfuel Hlow; [lia |].
  simpl Js.digitsOnto.
  destruct (Z.ltb_spec n 10) as [Hsmall | Hbig].
  - destruct k as [| k]; [simpl; lia |].
    assert (10 ^ 1 <= 10 ^ Z.of_nat (S k)) by (apply Z.pow_le_mono_r; lia).
    lia.
  - destruct k as [| k].
    + pose proof (digitsOnto_grows fuel (n / 10)
                    (String (Js.digitChar (n mod 10)) acc)) as Hg.
      simpl in Hg. lia.
    + assert (Hstep : (S k + String.length
                               (String (Js.digitChar (n mod 10)) acc)
                       <= String.length
                            (Js.digitsOnto fuel (n / 10)
                               (String (Js.digitChar (n mod 10)) acc)))%nat).
      { apply IH.
        - destruct fuel as [| fuel]; [simpl in Hfuel; lia | lia].
        - split; [apply Z.div_pos; lia |].
          apply Z.div_lt_upper_bound; [lia |].
          rewrite Nat2Z.inj_succ, Z.pow_succ_r in Hfuel; lia.
        - apply Z.div_le_lower_bound; [lia |].
          rewrite Nat2Z.inj_succ, Z.pow_succ_r in Hlow; lia. }
      simpl in Hstep. lia.
Qed.

Lemma digits_length_ge (n : Z) (k : nat) :
  10 ^ Z.of_nat k <= n -> (S k <= String.length (Js.digits n))%nat.
Proof.
  intros Hlow.
  assert (Hn : 0 <= n) by (pose proof (Z.pow_pos_nonneg 10 (Z.of_nat k)); lia).
  pose proof (digitsOnto_length_ge (S (Z.to_nat (Z.log2 n))) n EmptyString k
                ltac:(lia) (conj Hn (digits_fuel n Hn)) Hlow) as H.
  change (String.length EmptyString) with 0%nat in H.
  unfold Js.digits. lia.
Qed.

(** *** Numbers *)

(** [lia] with the value of 2^53 in hand. *)
Ltac lia53 := change (2 ^ 53) with 9007199254740992 in *; lia.

Lemma toNumber_small (x : Z) : Z.abs x < 2 ^ 53 -> Js.toNumber x = x.
Proof.
  intros Hx. unfold Js.toNumber.
  destruct (Z.ltb_spec (Z.abs x) (2 ^ 53)); [reflexivity | lia].
Qed.

Lemma toNumber_exact (x : Z) : Z.abs x <= 2 ^ 53 -> Js.toNumber x = x.
Proof.
  intros Hx.
  destruct (Z.eq_dec x (2 ^ 53)) as [-> | Htop]; [reflexivity |].
  destruct (Z.eq_dec x (- 2 ^ 53)) as [-> | Hbottom]; [reflexivity |].
  apply toNumber_small. lia.
Qed.

(** Rounding never takes a number from 2^53 up to below 2^53. *)
Lemma toNumber_large (x : Z) : 2 ^ 53 <= x -> 2 ^ 53 <= Js.toNumber x.
Proof.
  intros Hx. unfold Js.toNumber.
  assert (Habs : Z.abs x = x) by lia. rewrite Habs.
  destruct (Z.ltb_spec x (2 ^ 53)); [lia |].
  assert (Hsgn : Z.sgn x = 1) by (apply Z.sgn_pos; lia). rewrite Hsgn.
  set (e := Z.log2 x - 52).
  assert (Hlog : 53 <= Z.log2 x)
    by (change 53 with (Z.log2 (2 ^ 53)); apply Z.log2_le_mono; lia).
  assert (He : 1 <= e) by (unfold e; lia).
  assert (Hpos : 0 < 2 ^ e) by (apply Z.pow_pos_nonneg; lia).
  assert (Hsplit : 2 ^ Z.log2 x = 2 ^ 52 * 2 ^ e)
    by (rewrite <- Z.pow_add_r by lia; f_equal; unfold e; lia).
  pose proof (Z.log2_spec x ltac:(lia)) as [Hlow _].
  assert (Hq : 2 ^ 52 <= x / 2 ^ e)
    by (apply Z.div_le_lower_bound; lia).
  assert (Hbig : 2 ^ 53 <= 2 ^ 52 * 2 ^ e).
  { rewrite <- Hsplit. apply Z.pow_le_mono_r; lia. }
  set (q := x / 2 ^ e) in *.
  assert (Hround :
           q <= (if x mod 2 ^ e <? 2 ^ (e - 1) then q
                 else if 2 ^ (e - 1) <? x mod 2 ^ e then q + 1
                      else if Z.even q then q else q + 1)).
  { destruct (x mod 2 ^ e <? 2 ^ (e - 1)); [lia |].
    destruct (2 ^ (e - 1) <? x mod 2 ^ e); [lia |].
    destruct (Z.even q); lia. }
  nia.
Qed.

(** A number above a Number below 2^53 does not round down to it. *)
Lemma toNumber_above (v x : Z) :
  0 <= v < 2 ^ 53 -> v < x -> Js.toNumber x <> v.
Proof.
  intros Hv Hx.
  destruct (Z_lt_le_dec x (2 ^ 53)) as [Hsmall | Hlarge].
  - rewrite toNumber_small by lia. lia.
  - pose proof (toNumber_large x Hlarge). lia.
Qed.

Lemma plus_one_exact (n : Z) :
  - 2 ^ 53 <= n + 1 <= 2 ^ 53 -> Js.plus n 1 = n + 1.
Proof.
  intros Hn. unfold Js.plus. apply toNumber_exact. lia.
Qed.

(** Up to 2^53 adding 1 moves a count by 0 or 1 and never past 2^53. *)
Lemma plus_one_bounds (n : Z) :
  - 2 ^ 53 <= n + 1 -> n <= 2 ^ 53 ->
  n <= Js.plus n 1 <= n + 1 /\ Js.plus n 1 <= 2 ^ 53.
Proof.
  intros Hlow Hn.
  destruct (Z.eq_dec n (2 ^ 53)) as [-> | Hne].
  - vm_compute. repeat split; discriminate.
  - rewrite plus_one_exact by lia. lia.
Qed.

(** *** Decimal expansions of multiples of powers of ten *)

(** From 0 to 2^53 adding 1 is exact until 2^53 is reached and stays
    there afterwards. *)
Lemma plus_one_saturates (n : Z) :
  0 <= n <= 2 ^ 53 -> Js.plus n 1 = Z.min (n + 1) (2 ^ 53).
Proof.
  intros Hn.
  destruct (Z.eq_dec n (2 ^ 53)) as [-> | Hne]; [reflexivity |].
  rewrite plus_one_exact by lia53. lia53.
Qed.

Lemma string_app_assoc (s t u : string) :
  ((s ++ t) ++ u)%string = (s ++ t ++ u)%string.
Proof.
  induction s as [| c s IH]; simpl; [reflexivity | now rewrite IH].
Qed.

Lemma string_app_empty (s : string) : (s ++ "")%string = s.
Proof.
  induction s as [| c s IH]; simpl; [reflexivity | now rewrite IH].
Qed.

Lemma digitsOnto_acc (fuel : nat) :
  forall n acc,
    Js.digitsOnto fuel n acc
    = (Js.digitsOnto fuel n EmptyString ++ acc)%string.
Proof.
  induction fuel as [| fuel IH]; intros n acc; simpl; [reflexivity |].
  destruct (n <? 10); [reflexivity |].
  rewrite IH, (IH _ (String _ EmptyString)), string_app_assoc. reflexivity.
Qed.

Lemma digitsOnto_enough (fuel1 : nat) :
  forall fuel2 n acc,
    (0 < fuel1)%nat -> (0 < fuel2)%nat ->
    0 <= n < 10 ^ Z.of_nat fuel1 -> n < 10 ^ Z.of_nat fuel2 ->
    Js.digitsOnto fuel1 n acc = Js.digitsOnto fuel2 n acc.
Proof.
  induction fuel1 as [| fuel1 IH]; intros fuel2 n acc H1 H2 Hn1 Hn2; [lia |].
  destruct fuel2 as [| fuel2]; [lia |]. simpl.
  destruct (Z.ltb_spec n 10) as [Hsmall | Hbig]; [reflexivity |].
  rewrite Nat2Z.inj_succ, Z.pow_succ_r in Hn1, Hn2 by lia.
  assert (Hdiv1 : n / 10 < 10 ^ Z.of_nat fuel1)
    by (apply Z.div_lt_upper_bound; lia).
  assert (Hdiv2 : n / 10 < 10 ^ Z.of_nat fuel2)
    by (apply Z.div_lt_upper_bound; lia).
  assert (Hdiv0 : 1 <= n / 10) by (apply Z.div_le_lower_bound; lia).
  apply IH.
  - destruct fuel1; [simpl in Hdiv1; lia | lia].
  - destruct fuel2; [simpl in Hdiv2; lia | lia].
  - lia.
  - exact Hdiv2.
Qed.

Lemma digits_lt_pow (n : Z) :
  0 <= n -> n < 10 ^ Z.of_nat (String.length (Js.digits n)).
Proof.
  intros Hn.
  destruct (Z_lt_le_dec n (10 ^ Z.of_nat (String.length (Js.digits n))))
    as [Hlt | Hge]; [exact Hlt |].
  pose proof (digits_length_ge n _ Hge). lia.
Qed.

Lemma digitsOnto_length_le (fuel : nat) :
  forall n acc (k : nat),
    0 <= n < 10 ^ Z.of_nat (S k) ->
    (String.length (Js.digitsOnto fuel n acc)
     <= S k + String.length acc)%nat.
Proof.
  induction fuel as [| fuel IH]; intros n acc k Hn; simpl; [lia |].
  destruct (Z.ltb_spec n 10) as [Hsmall | Hbig]; [simpl; lia |].
  destruct k as [| k]; [change (10 ^ Z.of_nat 1) with 10 in Hn; lia |].
  assert (Hdiv : 0 <= n / 10 < 10 ^ Z.of_nat (S k)).
  { split; [apply Z.div_pos; lia |].
    apply Z.div_lt_upper_bound; [lia |].
    rewrite (Nat2Z.inj_succ (S k)), Z.pow_succ_r in Hn; lia. }
  pose proof (IH (n / 10) (String (Js.digitChar (n mod 10)) acc) k Hdiv) as H.
  simpl in H. lia.
Qed.

Lemma digits_length_le (n : Z) (k : nat) :
  0 <= n < 10 ^ Z.of_nat (S k) -> (String.length (Js.digits n) <= S k)%nat.
Proof.
  intros Hn.
  pose proof (digitsOnto_length_le (S (Z.to_nat (Z.log2 n))) n EmptyString k Hn)
    as H.
  change (String.length EmptyString) with 0%nat in H.
  unfold Js.digits. lia.
Qed.

Lemma fill_snoc (k : nat) (c : ascii) :
  (Js.fill k c ++ String c EmptyString)%string = Js.fill (S k) c.
Proof.
  induction k as [| k IH]; simpl; [reflexivity |].
  simpl in IH. now rewrite IH.
Qed.

Lemma digitsOnto_step (fuel : nat) (n : Z) (acc : string) :
  Js.digitsOnto (S fuel) n acc
  = if n <? 10 then String (Js.digitChar (n mod 10)) acc
    else Js.digitsOnto fuel (n / 10) (String (Js.digitChar (n mod 10)) acc).
Proof. reflexivity. Qed.

Lemma digits_mul10 (t : Z) :
  0 < t -> Js.digits (t * 10) = (Js.digits t ++ "0")%string.
Proof.
  intros Ht. unfold Js.digits at 1.
  pose proof (digits_fuel (t * 10) ltac:(lia)) as Hfuel.
  set (fuel := Z.to_nat (Z.log2 (t * 10))) in *.
  rewrite digitsOnto_step.
  destruct (Z.ltb_spec (t * 10) 10); [lia |].
  rewrite Z.mod_mul, Z.div_mul by lia.
  change (Js.digitChar 0) with "0"%char.
  rewrite Nat2Z.inj_succ, Z.pow_succ_r in Hfuel by lia.
  assert (Hpos : (0 < fuel)%nat).
  { destruct fuel; [simpl in Hfuel; lia | lia]. }
  rewrite digitsOnto_acc. f_equal.
  unfold Js.digits. apply digitsOnto_enough; try lia.
  apply digits_fuel. lia.
Qed.

Lemma digits_mul_pow10 (s : Z) (m : nat) :
  0 < s ->
  Js.digits (s * 10 ^ Z.of_nat m) = (Js.digits s ++ Js.fill m "0")%string.
Proof.
  intros Hs. induction m as [| m IH].
  - simpl. rewrite Z.mul_1_r, string_app_empty. reflexivity.
  - rewrite Nat2Z.inj_succ, Z.pow_succ_r by lia.
    replace (s * (10 * 10 ^ Z.of_nat m)) with (s * 10 ^ Z.of_nat m * 10)
      by lia.
    assert (Hpow : 0 < 10 ^ Z.of_nat m) by (apply Z.pow_pos_nonneg; lia).
    rewrite digits_mul10 by nia.
    rewrite IH, string_app_assoc, fill_snoc. reflexivity.
Qed.

(** *** Numbers up to 2^53 print as their decimal expansion *)

Lemma candidate_small (v : Z) (len k : nat) (s : Z) :
  0 <= v < 2 ^ 53 ->
  Js.candidate v len k = Some s ->
  s * 10 ^ Z.of_nat (len - k) = v.
Proof.
  intros Hv. unfold Js.candidate.
  set (scale := 10 ^ Z.of_nat (len - k)).
  assert (Hscale : 0 < scale) by (apply Z.pow_pos_nonneg; lia).
  pose proof (Z.mul_div_le v scale Hscale) as Hlo.
  pose proof (Z.mul_succ_div_gt v scale Hscale) as Hhi.
  assert (Hlo0 : 0 <= v / scale) by (apply Z.div_pos; lia).
  assert (HokHi : (Js.toNumber ((v / scale + 1) * scale) =? v) = false).
  { apply Z.eqb_neq. apply toNumber_above; [exact Hv | lia]. }
  rewrite HokHi, andb_false_r.
  rewrite (toNumber_small (v / scale * scale)) by nia.
  destruct (Z.eqb_spec (v / scale * scale) v) as [Heq | Hne];
    [| discriminate].
  intros Hsome. injection Hsome as <-. exact Heq.
Qed.

Lemma shortestFrom_small (fuel : nat) (v : Z) (len : nat) :
  forall k s k',
    0 <= v < 2 ^ 53 ->
    Js.shortestFrom fuel v len k = Some (s, k') ->
    s * 10 ^ Z.of_nat (len - k') = v.
Proof.
  induction fuel as [| fuel IH]; intros k s k' Hv; simpl; [discriminate |].
  destruct (Js.candidate v len k) as [c |] eqn:Hc.
  - intros Hsome. injection Hsome as <- <-.
    exact (candidate_small v len k c Hv Hc).
  - apply IH. exact Hv.
Qed.

Lemma unsignedToString_small (v : Z) :
  0 <= v < 2 ^ 53 -> Js.unsignedToString v = Js.digits v.
Proof.
  intros Hv.
  destruct (Z.eq_dec v 0) as [-> | Hnz]; [reflexivity |].
  unfold Js.unsignedToString, Js.significand.
  set (len := String.length (Js.digits v)).
  pose proof (digits_lt_pow v ltac:(lia)) as Hlen. fold len in Hlen.
  assert (Hshort : (len <= 16)%nat).
  { apply (digits_length_le v 15). change (Z.of_nat 16) with 16. lia. }
  destruct (Z.eqb_spec (Js.toNumber (10 ^ Z.of_nat len)) v) as [Heq | _].
  { exfalso. exact (toNumber_above v _ Hv Hlen Heq). }
  destruct (Js.shortestFrom len v len 1) as [[s k] |] eqn:Hfound.
  - pose proof (shortestFrom_small _ _ _ _ _ _ Hv Hfound) as Hs.
    destruct (Nat.leb_spec len 21) as [_ | Hlong]; [| lia].
    assert (Hpow : 0 < 10 ^ Z.of_nat (len - k))
      by (apply Z.pow_pos_nonneg; lia).
    rewrite <- digits_mul_pow10 by nia. now rewrite Hs.
  - destruct (Nat.leb_spec len 21) as [_ | Hlong]; [| lia].
    rewrite Nat.sub_diag. apply string_app_empty.
Qed.

Lemma String_nonneg (n : Z) :
  0 <= n <= 2 ^ 53 -> Js.String_ n = Js.digits n.
Proof.
  intros Hn. unfold Js.String_.
  destruct (Z.ltb_spec n 0); [lia |].
  destruct (Z.eq_dec n (2 ^ 53)) as [-> | Hne]; [reflexivity |].
  apply unsignedToString_small. lia.
Qed.

(** ** Fixed-width patterns *)

Lemma matchClasses_app (p1 p2 : list (ascii -> bool)) :
  forall s1 s2,
    List.length p1 = String.length s1 ->
    Js.matchClasses (p1 ++ p2) (s1 ++ s2)%string
    = Js.matchClasses p1 s1 && Js.matchClasses p2 s2.
Proof.
  induction p1 as [| cls p1 IH]; intros [| c s1] s2 Hlen;
    simpl in *; try discriminate.
  - reflexivity.
  - rewrite IH by congruence. now rewrite andb_assoc.
Qed.

Lemma matchClasses_digits (k : nat) :
  forall s,
    Js.matchClasses (repeat Js.isDigit k) s
    = Nat.eqb (String.length s) k && Js.allDigits s.
Proof.
  induction k as [| k IH]; intros [| c s]; simpl; try reflexivity.
  rewrite IH.
  now rewrite andb_comm, <- andb_assoc, (andb_comm (Js.allDigits s)).
Qed.

Lemma isDigit_not_slash (c : ascii) : Js.isDigit c = true -> slash c = false.
Proof.
  intros Hc. unfold slash.
  destruct (Ascii.eqb_spec c "/"%char) as [-> | _];
    [discriminate | reflexivity].
Qed.

(** A count portion of four or more digits puts a digit where the pattern
    wants its first slash. *)
Lemma long_count_no_match (s rest : string) :
  (4 <= String.length s)%nat ->
  Js.allDigits s = true ->
  Js.matchClasses referencePattern (s ++ rest)%string = false.
Proof.
  intros Hlen Hdig.
  destruct s as [| a [| b [| c [| d s]]]]; simpl in Hlen; try lia.
  simpl in Hdig. repeat rewrite andb_true_iff in Hdig.
  destruct Hdig as (Ha & Hb & Hc & Hd & _).
  simpl. rewrite (isDigit_not_slash d Hd).
  now rewrite !andb_false_r.
Qed.

Lemma referencePattern_shape :
  referencePattern
  = repeat Js.isDigit 3 ++ [slash] ++ repeat Js.isDigit 2 ++ [slash]
      ++ repeat Js.isDigit 4.
Proof. reflexivity. Qed.

Lemma slash_match (s : string) (p : list (ascii -> bool)) :
  Js.matchClasses ([slash] ++ p) ("/" ++ s)%string = Js.matchClasses p s.
Proof. reflexivity. Qed.

(** The formatted reference matches the pattern exactly when the count has
    at most three digits. *)
Lemma formatReference_matches (count month year : Z) :
  0 <= count <= 2 ^ 53 -> 1 <= month <= 12 -> 1000 <= year <= 9999 ->
  Js.matchClasses referencePattern (formatReference count month year)
  = (count <=? 999).
Proof.
  intros Hc Hm Hy. unfold formatReference.
  rewrite !String_nonneg by lia53.
  destruct (Z.leb_spec count 999) as [Hle | Hgt].
  - rewrite referencePattern_shape.
    assert (Hl3 : String.length (Js.padStart 3 "0" (Js.digits count)) = 3%nat).
    { rewrite padStart_length.
      destruct (Z_lt_le_dec count 10);
        [rewrite (digits_length count 0) by (simpl; lia); reflexivity |].
      destruct (Z_lt_le_dec count 100);
        [rewrite (digits_length count 1) by (simpl; lia); reflexivity |].
      rewrite (digits_length count 2) by (simpl; lia); reflexivity. }
    assert (Hl2 : String.length (Js.padStart 2 "0" (Js.digits month)) = 2%nat).
    { rewrite padStart_length.
      destruct (Z_lt_le_dec month 10);
        [rewrite (digits_length month 0) by (simpl; lia); reflexivity |].
      rewrite (digits_length month 1) by (simpl; lia); reflexivity. }
    assert (Hl4 : String.length (Js.digits year) = 4%nat)
      by (apply (digits_length year 3); simpl; lia).
    rewrite matchClasses_app by (rewrite Hl3; reflexivity).
    rewrite slash_match.
    rewrite matchClasses_app by (rewrite Hl2; reflexivity).
    rewrite slash_match.
    rewrite !matchClasses_digits, Hl3, Hl2, Hl4.
    rewrite !padStart_allDigits, digits_allDigits
      by (try apply digits_allDigits; lia).
    reflexivity.
  - apply long_count_no_match.
    + rewrite padStart_length.
      pose proof (digits_length_ge count 3 ltac:(simpl; lia)). lia.
    + apply padStart_allDigits, digits_allDigits; lia.
Qed.

(** ** The reference-number generator *)



Lemma getNextReferenceNumber_run (env : Env) (db : Db) :
  getNextReferenceNumber env db
  = (Resolved (formatReference (nextCount db) (localeMonth env) (fullYear env)),
     afterReference db).
Proof.
  unfold getNextReferenceNumber, tryCatch, bind, Reference.findOne,
    Reference.save, construct, ret, nextCount, afterReference, saveInto.
  destruct (References db) as [| [oid r] rest] eqn:Hrefs; simpl.
  - rewrite Hrefs. reflexivity.
  - rewrite Hrefs. simpl. rewrite N.eqb_refl. reflexivity.
Qed.


Lemma post_api_reference_run (env : Env) (db : Db) :
  post_api_reference env db
  = (Resolved (json (referenceBody (nextCount db)
                       (localeMonth env) (fullYear env))),
     afterReference db).
Proof.
  unfold post_api_reference, tryCatch, bind.
  rewrite getNextReferenceNumber_run. reflexivity.
Qed.

Lemma nextCount_afterReference (db : Db) :
  nextCount (afterReference db) = Js.plus (nextCount db) 1.
Proof.
  unfold nextCount, afterReference.
  destruct (References db) as [| [oid r] rest]; reflexivity.
Qed.

Lemma nextCount_afterReference_exact (db : Db) :
  - 2 ^ 53 <= nextCount db + 1 <= 2 ^ 53 ->
  nextCount (afterReference db) = nextCount db + 1.
Proof.
  intros Hc. rewrite nextCount_afterReference. apply plus_one_exact, Hc.
Qed.

Section ReferenceRuns.

Variable bcrypt_hash : string -> nat -> string -> string.
Variable bcrypt_compare : string -> string -> bool.

Let run := serveAll bcrypt_hash bcrypt_compare.

Lemma serve_reference (env : Env) (db : Db) :
  serve bcrypt_hash bcrypt_compare env POST_reference db
  = (json (referenceBody (nextCount db) (localeMonth env) (fullYear env)),
     afterReference db).
Proof.
  unfold serve, route. rewrite post_api_reference_run. reflexivity.
Qed.

Lemma serveAll_reference (envs : list Env) :
  forall db,
    - 2 ^ 53 <= nextCount db ->
    nextCount db + Z.of_nat (List.length envs) <= 2 ^ 53 ->
    fst (run (referenceRequests envs) db)
    = referenceResponses (nextCount db) envs.
Proof.
  induction envs as [| env envs IH]; intros db Hlow Hup; [reflexivity |].
  unfold run in *. simpl.
  rewrite serve_reference.
  cbn [List.length] in Hup. rewrite Nat2Z.inj_succ in Hup.
  assert (Hnext : nextCount (afterReference db) = nextCount db + 1)
    by (apply nextCount_afterReference_exact; lia).
  specialize (IH (afterReference db)).
  rewrite Hnext in IH. specialize (IH ltac:(lia) ltac:(lia)).
  destruct (serveAll _ _ (referenceRequests envs)
              (afterReference db)) as [rest db''].
  simpl in *. rewrite IH. reflexivity.
Qed.

End ReferenceRuns.

(** *** Reading the count back out of a reference number *)

Lemma beforeSlash_digits (s rest : string) :
  Js.allDigits s = true ->
  beforeSlash (s ++ String "/" rest)%string = s.
Proof.
  induction s as [| c s IH]; simpl; intros Hs.
  - reflexivity.
  - apply andb_true_iff in Hs as [Hc Hs].
    rewrite (isDigit_not_slash c Hc), IH by exact Hs. reflexivity.
Qed.

Lemma parseDigits_app (s t : string) :
  forall acc,
    parseDigits (s ++ t)%string acc = parseDigits t (parseDigits s acc).
Proof.
  induction s as [| c s IH]; intros acc; simpl; [reflexivity | apply IH].
Qed.

Lemma parseDigits_fill_zero (k : nat) : parseDigits (Js.fill k "0") 0 = 0.
Proof.
  induction k as [| k IH]; simpl; [reflexivity | exact IH].
Qed.

Lemma digitChar_value (d : Z) :
  0 <= d <= 9 -> Z.of_N (N_of_ascii (Js.digitChar d)) - 48 = d.
Proof.
  intros Hd. unfold Js.digitChar.
  rewrite N_ascii_embedding by lia. lia.
Qed.

Lemma parseDigits_digitsOnto (fuel : nat) :
  forall n acc,
    (0 < fuel)%nat ->
    0 <= n < 10 ^ Z.of_nat fuel ->
    parseDigits (Js.digitsOnto fuel n acc) 0 = parseDigits acc n.
Proof.
  induction fuel as [| fuel IH]; intros n acc Hpos Hn; [lia |].
  simpl Js.digitsOnto.
  pose proof (Z.mod_pos_bound n 10 ltac:(lia)) as Hmod.
  destruct (Z.ltb_spec n 10) as [Hsmall | Hbig].
  - cbn [parseDigits]. rewrite digitChar_value by lia.
    rewrite Z.mod_small by lia. f_equal.
  - rewrite IH.
    + cbn [parseDigits]. rewrite digitChar_value by lia.
      f_equal. pose proof (Z.div_mod n 10 ltac:(lia)). lia.
    + destruct fuel as [| fuel]; [simpl in Hn; lia | lia].
    + split; [apply Z.div_pos; lia |].
      apply Z.div_lt_upper_bound; [lia |].
      rewrite Nat2Z.inj_succ, Z.pow_succ_r in Hn; lia.
Qed.

Lemma parseDigits_digits (n : Z) : 0 <= n -> parseDigits (Js.digits n) 0 = n.
Proof.
  intros Hn. unfold Js.digits.
  rewrite parseDigits_digitsOnto; [reflexivity | lia |].
  split; [exact Hn | apply digits_fuel; exact Hn].
Qed.

Lemma countPortion_formatReference (count month year : Z) :
  0 <= count <= 2 ^ 53 ->
  countPortion (formatReference count month year) = count.
Proof.
  intros Hc. unfold countPortion, formatReference.
  rewrite String_nonneg by exact Hc.
  change ("/" ++ ?r)%string with (String "/" r).
  rewrite beforeSlash_digits
    by (apply padStart_allDigits, digits_allDigits; lia).
  unfold Js.padStart.
  rewrite parseDigits_app, parseDigits_fill_zero.
  apply parseDigits_digits; lia.
Qed.

(** C1, as the code has it.  While the counts stay within the integers a
    Number holds exactly (up to 2^53), calls to the reference-number
    generator served one after another hand out counts that go up by exactly
    1, starting from 1 when no counter record exists: (a) the first call on
    a store without a record returns count 1; (b) of two consecutive calls,
    the second returns the count of the first plus 1; (c) a run of
    POST /api/reference requests is answered with consecutive counts; (d)
    from the fresh store, two consecutive requests are answered 001/MM/YYYY
    and 002/MM/YYYY. *)
Theorem reference_count_sequence
  (bcrypt_hash : string -> nat -> string -> string)
  (bcrypt_compare : string -> string -> bool) :
  (forall env db,
      References db = [] ->
      exists ref db',
        getNextReferenceNumber env db = (Resolved ref, db')
        /\ countPortion ref = 1)
  /\ (forall env1 env2 db,
         0 <= nextCount db < 2 ^ 53 ->
         exists ref1 db1 ref2 db2,
           getNextReferenceNumber env1 db = (Resolved ref1, db1)
           /\ getNextReferenceNumber env2 db1 = (Resolved ref2, db2)
           /\ countPortion ref1 = nextCount db
           /\ countPortion ref2 = countPortion ref1 + 1)
  /\ (forall envs db,
         - 2 ^ 53 <= nextCount db ->
         nextCount db + Z.of_nat (List.length envs) <= 2 ^ 53 ->
         fst (serveAll bcrypt_hash bcrypt_compare
                (referenceRequests envs) db)
         = referenceResponses (nextCount db) envs)
  /\ nextCount emptyDb = 1
  /\ (forall env1 env2,
         fst (serveAll bcrypt_hash bcrypt_compare
                [(env1, POST_reference); (env2, POST_reference)] emptyDb)
         = [{| status := 200;
               body := JObject
                 [("reference_number"%string,
                   JString ("001/" ++ MM env1 ++ "/" ++ YYYY env1)%string)] |};
            {| status := 200;
               body := JObject
                 [("reference_number"%string,
                   JString ("002/" ++ MM env2 ++ "/" ++ YYYY env2)%string)]
            |}]).
Proof.
  split; [| split; [| split; [| split]]].
  - intros env db Hrefs.
    eexists; eexists; split; [apply getNextReferenceNumber_run |].
    unfold nextCount. rewrite Hrefs.
    apply countPortion_formatReference. lia53.
  - intros env1 env2 db Hc.
    do 4 eexists.
    split; [apply getNextReferenceNumber_run |].
    split; [apply getNextReferenceNumber_run |].
    rewrite nextCount_afterReference_exact by lia53.
    rewrite !countPortion_formatReference by lia53. split; reflexivity.
  - intros envs db Hlow Hup.
    apply (serveAll_reference bcrypt_hash bcrypt_compare envs db Hlow Hup).
  - reflexivity.
  - intros env1 env2.
    apply (serveAll_reference bcrypt_hash bcrypt_compare [env1; env2] emptyDb);
      vm_compute; discriminate.
Qed.

(** C1 as stated fails at the top of the exact range: adding 1 to the
    Number 2^53 gives 2^53 again, so on a store whose record holds
    2^53 - 1 the second of two consecutive requests repeats the number of
    the first. *)
Lemma reference_count_sequence_counterexample :
  fst (serveAll stubHash stubCompare
         [(atInstant 1793664000000 11 2026 "", POST_reference);
          (atInstant 1793664000000 11 2026 "", POST_reference)]
         (counterAt (2 ^ 53 - 1)))
  = [{| status := 200;
        body := JObject [("reference_number"%string,
                          JString "9007199254740992/11/2026")] |};
     {| status := 200;
        body := JObject [("reference_number"%string,
                          JString "9007199254740992/11/2026")] |}].
Proof. vm_compute. reflexivity. Qed.

(** C5, as the code has it.  With a month from 1 to 12, a four-digit year
    and a new count from 0 to 2^53, the generator returns count/MM/YYYY
    where the count portion is the new count in decimal, padded on the left
    with zeros to at least three digits; the string matches
    \d{3}/\d{2}/\d{4} exactly when the new count is at most 999.  The
    padding never shortens, so a count of 1000 or more is printed with all
    its digits. *)
Theorem reference_format (env : Env) (db : Db) :
  1 <= localeMonth env <= 12 ->
  1000 <= fullYear env <= 9999 ->
  0 <= nextCount db <= 2 ^ 53 ->
  exists ref db',
    getNextReferenceNumber env db = (Resolved ref, db')
    /\ ref = (Js.padStart 3 "0" (Js.digits (nextCount db))
                ++ "/" ++ Js.padStart 2 "0" (Js.digits (localeMonth env))
                ++ "/" ++ Js.digits (fullYear env))%string
    /\ countPortion ref = nextCount db
    /\ (3 <= String.length (Js.padStart 3 "0" (Js.digits (nextCount db))))%nat
    /\ (Js.matchClasses referencePattern ref = true <-> nextCount db <= 999).
Proof.
  intros Hm Hy Hc.
  eexists; eexists; split; [apply getNextReferenceNumber_run |].
  split.
  { unfold formatReference.
    rewrite !String_nonneg by lia53. reflexivity. }
  split; [apply countPortion_formatReference; exact Hc |].
  split; [rewrite padStart_length; lia |].
  rewrite formatReference_matches by assumption.
  apply Z.leb_le.
Qed.

Lemma reference_format_witness :
  exists ref db',
    getNextReferenceNumber (atInstant 1793664000000 11 2026 "") emptyDb
    = (Resolved ref, db')
    /\ ref = (Js.padStart 3 "0" (Js.digits (nextCount emptyDb))
                ++ "/" ++ Js.padStart 2 "0"
                            (Js.digits
                               (localeMonth
                                  (atInstant 1793664000000 11 2026 "")))
                ++ "/" ++ Js.digits
                            (fullYear
                               (atInstant 1793664000000 11 2026 "")))%string
    /\ countPortion ref = nextCount emptyDb
    /\ (3 <= String.length
               (Js.padStart 3 "0" (Js.digits (nextCount emptyDb))))%nat
    /\ (Js.matchClasses referencePattern ref = true
        <-> nextCount emptyDb <= 999).
Proof.
  apply (reference_format (atInstant 1793664000000 11 2026 "") emptyDb);
    vm_compute; split; discriminate.
Defined.

(** C5 as stated fails once the counter has reached 999: the thousandth
    request after a fresh start is answered with a four-digit count. *)
Lemma reference_format_counterexample :
  fst (getNextReferenceNumber (atInstant 1793664000000 11 2026 "")
         (snd (serveAll stubHash stubCompare
                 (referenceRequests
                    (repeat (atInstant 1793664000000 11 2026 "") 999))
                 emptyDb)))
  = Resolved "1000/11/2026"%string
  /\ Js.matchClasses referencePattern "1000/11/2026" = false.
Proof. split; vm_compute; reflexivity. Qed.

(** ** What each request may touch *)

Ltac unfold_handlers :=
  unfold serve, route, post_api_reference, getNextReferenceNumber,
    post_api_jobs, get_api_jobs, put_api_jobs, delete_api_jobs,
    post_api_register, post_api_login, get_api_visitorCount,
    await_hash, await_compare, tryCatch, bind, ret, throw,
    Reference.findOne, Reference.save, Visitor.findOne, Visitor.save,
    Job.construct, Job.save, Job.find, Job.findByIdAndUpdate,
    Job.findByIdAndDelete, User.findOne, User.save, construct.

(** Case analysis on the innermost scrutinee first. *)
Ltac split_cases :=
  repeat (match goal with
          | |- context [match ?x with _ => _ end] =>
              lazymatch x with
              | context [match _ with _ => _ end] => fail
              | _ => destruct x eqn:?
              end
          end; simpl).

Section Frames.

Variable bcrypt_hash : string -> nat -> string -> string.
Variable bcrypt_compare : string -> string -> bool.

Let srv := serve bcrypt_hash bcrypt_compare.
Let run := serveAll bcrypt_hash bcrypt_compare.

(** Only POST /api/reference writes to the reference collection. *)
Lemma serve_keeps_References (env : Env) (req : Request) (db : Db) :
  req <> POST_reference ->
  References (snd (srv env req db)) = References db.
Proof.
  intros Hreq. unfold srv.
  destruct req; try congruence; unfold_handlers; simpl;
    split_cases; reflexivity.
Qed.

(** Only the job routes write to the job collection. *)
Lemma serve_keeps_Jobs (env : Env) (req : Request) (db : Db) :
  match req with
  | POST_jobs _ | PUT_jobs _ _ | DELETE_jobs _ => False
  | _ => True
  end ->
  Jobs (snd (srv env req db)) = Jobs db.
Proof.
  intros Hreq. unfold srv.
  destruct req; try contradiction; unfold_handlers; simpl;
    split_cases; reflexivity.
Qed.

(** The ObjectId counter never goes back. *)
Lemma serve_counter_mono (env : Env) (req : Request) (db : Db) :
  (objectIdCounter db <= objectIdCounter (snd (srv env req db)))%N.
Proof.
  unfold srv.
  destruct req; unfold_handlers; simpl; split_cases; simpl; lia.
Qed.

End Frames.

(** ** The reference counter record *)

Section ReferenceCounter.

Variable bcrypt_hash : string -> nat -> string -> string.
Variable bcrypt_compare : string -> string -> bool.

Let srv := serve bcrypt_hash bcrypt_compare.
Let run := serveAll bcrypt_hash bcrypt_compare.

Lemma serveAll_cons (env : Env) (req : Request) reqs (db : Db) :
  run ((env, req) :: reqs) db
  = (fst (srv env req db) :: fst (run reqs (snd (srv env req db))),
     snd (run reqs (snd (srv env req db)))).
Proof.
  unfold run, srv. simpl.
  destruct (serve _ _ env req db) as [res db']. simpl.
  destruct (serveAll _ _ reqs db') as [rest db'']. reflexivity.
Qed.

Lemma referencePosts_cons (env : Env) (req : Request) reqs :
  referencePosts ((env, req) :: reqs)
  = (if isReferencePost (env, req) then 1 else 0) + referencePosts reqs.
Proof.
  unfold referencePosts. simpl filter.
  destruct (isReferencePost (env, req)); simpl List.length; lia.
Qed.

Lemma referencePosts_nonneg reqs : 0 <= referencePosts reqs.
Proof. unfold referencePosts. lia. Qed.

Lemma serve_References (env : Env) (req : Request) (db : Db) :
  References (snd (srv env req db))
  = if isReferencePost (env, req) then References (afterReference db)
    else References db.
Proof.
  destruct req; try (apply serve_keeps_References; discriminate).
  unfold srv. rewrite serve_reference. reflexivity.
Qed.

(** Once the record is there, a run adds the number of reference requests
    to its count, up to 2^53, and leaves it in place. *)
Lemma run_on_existing_record reqs :
  forall db oid c,
    1 <= c <= 2 ^ 53 ->
    References db = [(oid, {| referenceSchema.count := c |})] ->
    References (snd (run reqs db))
    = [(oid, {| referenceSchema.count :=
                  Z.min (c + referencePosts reqs) (2 ^ 53) |})].
Proof.
  induction reqs as [| [env req] reqs IH]; intros db oid c Hc Hrefs.
  - simpl. rewrite Hrefs. unfold referencePosts. simpl.
    do 3 f_equal. lia53.
  - rewrite serveAll_cons, referencePosts_cons. simpl snd.
    pose proof (serve_References env req db) as Hstep.
    pose proof (referencePosts_nonneg reqs) as Hnn.
    destruct (isReferencePost (env, req)).
    + rewrite (IH _ oid (Z.min (c + 1) (2 ^ 53))).
      * do 3 f_equal. lia53.
      * lia53.
      * rewrite Hstep. unfold afterReference. rewrite Hrefs.
        cbn [referenceSchema.count References].
        rewrite plus_one_saturates by lia53. reflexivity.
    + rewrite (IH _ oid c Hc) by (rewrite Hstep; exact Hrefs).
      do 3 f_equal.
Qed.

Lemma run_from_no_record reqs :
  forall db,
    References db = [] ->
    (referencePosts reqs = 0 /\ References (snd (run reqs db)) = [])
    \/ (1 <= referencePosts reqs
        /\ exists oid,
            References (snd (run reqs db))
            = [(oid, {| referenceSchema.count :=
                          Z.min (referencePosts reqs) (2 ^ 53) |})]).
Proof.
  induction reqs as [| [env req] reqs IH]; intros db Hrefs.
  - left. split; [reflexivity | exact Hrefs].
  - rewrite serveAll_cons, referencePosts_cons. simpl snd.
    pose proof (serve_References env req db) as Hstep.
    pose proof (referencePosts_nonneg reqs) as Hnn.
    destruct (isReferencePost (env, req)).
    + right. split; [lia |].
      exists (objectIdCounter db).
      apply run_on_existing_record; [lia53 |].
      rewrite Hstep. unfold afterReference. rewrite Hrefs. reflexivity.
    + rewrite Z.add_0_l. apply IH. rewrite Hstep. exact Hrefs.
Qed.

End ReferenceCounter.

(** C7, as the code has it, for requests served one after another.  (a)
    After any run of requests from the fresh store, the reference
    collection is empty if the run held no reference request, and otherwise
    holds exactly one document, whose count is the number of reference
    requests served, or 2^53 once that many have been served; the count is
    at least 1.  (b) A single request of any kind, on any store: a request
    other than POST /api/reference leaves the collection as it is;
    POST /api/reference creates the record with count 1 when the collection
    is empty and otherwise replaces the count of the record it finds, which
    stays in place together with the rest of the collection; the new count
    is the old one plus exactly 1 when that sum is within -2^53 .. 2^53,
    and is not below the old one when the old one is within 0 .. 2^53. *)
Theorem reference_counter_invariant
  (bcrypt_hash : string -> nat -> string -> string)
  (bcrypt_compare : string -> string -> bool) :
  (forall reqs,
      (referencePosts reqs = 0
       /\ References (snd (serveAll bcrypt_hash bcrypt_compare reqs emptyDb))
          = [])
      \/ (1 <= referencePosts reqs
          /\ exists oid count,
              References
                (snd (serveAll bcrypt_hash bcrypt_compare reqs emptyDb))
              = [(oid, {| referenceSchema.count := count |})]
              /\ count = Z.min (referencePosts reqs) (2 ^ 53)
              /\ 1 <= count))
  /\ (forall env req db,
         (req <> POST_reference ->
          References (snd (serve bcrypt_hash bcrypt_compare env req db))
          = References db)
         /\ (req = POST_reference ->
             match References db with
             | [] =>
                 exists oid,
                   References
                     (snd (serve bcrypt_hash bcrypt_compare env req db))
                   = [(oid, {| referenceSchema.count := 1 |})]
             | (oid, r) :: rest =>
                 exists count,
                   References
                     (snd (serve bcrypt_hash bcrypt_compare env req db))
                   = (oid, {| referenceSchema.count := count |}) :: rest
                   /\ (- 2 ^ 53 <= referenceSchema.count r + 1 <= 2 ^ 53 ->
                       count = referenceSchema.count r + 1)
                   /\ (0 <= referenceSchema.count r <= 2 ^ 53 ->
                       referenceSchema.count r <= count)
             end)).
Proof.
  split.
  - intros reqs.
    destruct (run_from_no_record bcrypt_hash bcrypt_compare reqs emptyDb
                eq_refl) as [[Hnone Hrefs] | [Hsome [oid Hrefs]]].
    + left. split; assumption.
    + right. split; [exact Hsome |].
      exists oid, (Z.min (referencePosts reqs) (2 ^ 53)).
      split; [exact Hrefs |]. split; [reflexivity | lia53].
  - intros env req db. split.
    + apply serve_keeps_References.
    + intros ->. rewrite serve_reference. simpl snd. unfold afterReference.
      destruct (References db) as [| [oid r] rest]; simpl.
      * eexists; reflexivity.
      * eexists. split; [reflexivity |]. split.
        -- apply plus_one_exact.
        -- intros Hc. rewrite plus_one_saturates by exact Hc. lia53.
Qed.

(** C7 as stated fails in two ways.  Two requests in flight at once on the
    fresh store both find no record, both create one, and leave two
    documents behind, both numbered 001.  And a record that holds 2^53 is
    left with the same count by a further request. *)
Lemma reference_counter_invariant_counterexample :
  (let env := atInstant 1793664000000 11 2026 "" in
   fst (racingReferences env env emptyDb)
   = Resolved ("001/11/2026"%string, "001/11/2026"%string)
   /\ References (snd (racingReferences env env emptyDb))
      = [(0%N, {| referenceSchema.count := 1 |});
         (1%N, {| referenceSchema.count := 1 |})])
  /\ References
       (snd (serve stubHash stubCompare (atInstant 1793664000000 11 2026 "")
               POST_reference (counterAt (2 ^ 53))))
     = [(0%N, {| referenceSchema.count := 2 ^ 53 |})].
Proof. split; [split |]; vm_compute; reflexivity. Qed.

Example reference_counter_run :
  References
    (snd (serveAll stubHash stubCompare
            [(atInstant 0 11 2026 "", POST_reference);
             (atInstant 1 11 2026 "", GET_jobs);
             (atInstant 2 11 2026 "", GET_visitorCount);
             (atInstant 3 11 2026 "", POST_reference)]
            emptyDb))
  = [(0%N, {| referenceSchema.count := 2 |})].
Proof. reflexivity. Qed.

Example reference_run :
  fst (serveAll stubHash stubCompare
         (referenceRequests
            [atInstant 0 11 2026 ""; atInstant 1 12 2026 "";
             atInstant 2 1 2027 ""])
         emptyDb)
  = [json (referenceNumberBody "001/11/2026");
     json (referenceNumberBody "002/12/2026");
     json (referenceNumberBody "003/01/2027")].
Proof. reflexivity. Qed.

(** ** The visitor counter *)

Lemma replaceById_head {A} (oid : ObjectId) (a b : A) (c : Collection A) :
  replaceById oid a ((oid, b) :: c) = (oid, a) :: c.
Proof. simpl. now rewrite N.eqb_refl. Qed.

Lemma get_api_visitorCount_run (env : Env) (db : Db) :
  exists db',
    get_api_visitorCount env db
    = (Resolved
         (json (visitorCountBody
                  (visitorSchema.count
                     (visitorAfter env (visitorAtHand env db))))),
       db')
    /\ References db' = References db
    /\ Jobs db' = Jobs db
    /\ Users db' = Users db
    /\ match Visitors db with
       | [] =>
           Visitors db'
           = [(objectIdCounter db, visitorAfter env (visitorAtHand env db))]
       | (oid, v) :: rest =>
           Visitors db' = (oid, visitorAfter env v) :: rest
           /\ (hourPassed env v = false -> db' = db)
       end.
Proof.
  unfold get_api_visitorCount, visitorAfter, visitorAtHand, hourPassed,
    tryCatch, bind, ret, Visitor.findOne, Visitor.save, construct, saveInto.
  destruct (Visitors db) as [| [oid v] rest] eqn:Hv; simpl.
  - rewrite Hv. simpl.
    destruct (currentTime env - dateNow env >=? 3600000); simpl.
    + eexists; repeat split. simpl. now rewrite N.eqb_refl.
    + eexists; repeat split.
  - destruct (currentTime env - visitorSchema.lastUpdated v >=? 3600000);
      simpl.
    + eexists; repeat split; simpl.
      * rewrite Hv. apply replaceById_head.
      * discriminate.
    + exists db; repeat split. exact Hv.
Qed.

Lemma hourPassed_true (env : Env) (v : visitorSchema.t) :
  hourPassed env v = true
  <-> currentTime env - visitorSchema.lastUpdated v >= 3600000.
Proof.
  unfold hourPassed.
  destruct (Z.geb_spec (currentTime env - visitorSchema.lastUpdated v) 3600000);
    split; intros; try lia; try reflexivity; discriminate.
Qed.

Lemma hourPassed_false (env : Env) (v : visitorSchema.t) :
  hourPassed env v = false
  <-> currentTime env - visitorSchema.lastUpdated v < 3600000.
Proof.
  unfold hourPassed.
  destruct (Z.geb_spec (currentTime env - visitorSchema.lastUpdated v) 3600000);
    split; intros; try lia; try reflexivity; discriminate.
Qed.

(** C2, as the code has it.  A visitor-count read always answers 200 with
    { visitorCount: c }, c being the count of the record the store holds
    afterwards.  When no record exists, one is created with count 905 and
    lastUpdated set to the clock; if less than an hour (3 600 000 ms)
    separates the check from that stamp, that is the record stored and 905
    is returned, and otherwise 906 is stored and returned.  When a record
    exists and the check is at least 3 600 000 ms after its lastUpdated,
    lastUpdated is reset to the clock, the count is replaced, the record is
    saved and the new count is returned; the new count is the old one plus
    exactly 1 when that sum is within -2^53 .. 2^53.  When the check is less
    than 3 600 000 ms after lastUpdated, the store is left exactly as it was
    and the stored count is returned. *)
Theorem visitor_read (env : Env) (db : Db) :
  exists res db',
    get_api_visitorCount env db = (Resolved res, db')
    /\ status res = 200
    /\ (exists oid v rest,
           Visitors db' = (oid, v) :: rest
           /\ body res
              = JObject [("visitorCount"%string,
                          JNumber (visitorSchema.count v))])
    /\ (Visitors db = [] ->
        currentTime env - dateNow env < 3600000 ->
        Visitors db'
        = [(objectIdCounter db,
            {| visitorSchema.count := 905;
               visitorSchema.lastUpdated := dateNow env |})]
        /\ body res = JObject [("visitorCount"%string, JNumber 905)])
    /\ (Visitors db = [] ->
        currentTime env - dateNow env >= 3600000 ->
        Visitors db'
        = [(objectIdCounter db,
            {| visitorSchema.count := 906;
               visitorSchema.lastUpdated := newDate env |})]
        /\ body res = JObject [("visitorCount"%string, JNumber 906)])
    /\ (forall oid v rest,
           Visitors db = (oid, v) :: rest ->
           currentTime env - visitorSchema.lastUpdated v >= 3600000 ->
           exists count,
             Visitors db'
             = (oid, {| visitorSchema.count := count;
                        visitorSchema.lastUpdated := newDate env |}) :: rest
             /\ body res = JObject [("visitorCount"%string, JNumber count)]
             /\ (- 2 ^ 53 <= visitorSchema.count v + 1 <= 2 ^ 53 ->
                 count = visitorSchema.count v + 1))
    /\ (forall oid v rest,
           Visitors db = (oid, v) :: rest ->
           currentTime env - visitorSchema.lastUpdated v < 3600000 ->
           db' = db
           /\ body res
              = JObject [("visitorCount"%string,
                          JNumber (visitorSchema.count v))]).
Proof.
  destruct (get_api_visitorCount_run env db)
    as (db' & Hrun & _ & _ & _ & Hvis).
  eexists; exists db'. split; [exact Hrun |].
  split; [reflexivity |].
  unfold visitorAtHand in *. simpl body.
  destruct (Visitors db) as [| [oid v] rest] eqn:Hv.
  - split; [do 3 eexists; split; [exact Hvis | reflexivity] |].
    split; [| split; [| split]]; try discriminate.
    + intros _ Hlt. unfold visitorAfter in *.
      rewrite (proj2 (hourPassed_false env _)) in * by (simpl; lia).
      split; [exact Hvis | reflexivity].
    + intros _ Hge. unfold visitorAfter in *.
      rewrite (proj2 (hourPassed_true env _)) in * by (simpl; lia).
      split; [exact Hvis | reflexivity].
  - destruct Hvis as [Hvis Hsame].
    split; [do 3 eexists; split; [exact Hvis | reflexivity] |].
    split; [| split; [| split]]; try discriminate.
    + intros oid' v' rest' Heq Hge. injection Heq as <- <- <-.
      unfold visitorAfter in *.
      rewrite (proj2 (hourPassed_true env v)) in * by lia.
      eexists. split; [exact Hvis |]. split; [reflexivity |].
      apply plus_one_exact.
    + intros oid' v' rest' Heq Hlt. injection Heq as <- <- <-.
      unfold visitorAfter in *.
      pose proof (proj2 (hourPassed_false env v) Hlt) as Hf.
      rewrite Hf in *. split; [apply Hsame; reflexivity | reflexivity].
Qed.

(** C2 as stated fails at the top of the exact range: a record that holds
    2^53, read an hour after its stamp, is stamped again and saved, but the
    count stored and returned is 2^53 still. *)
Lemma visitor_read_counterexample :
  get_api_visitorCount (atInstant 3600000 1 1970 "")
    {| objectIdCounter := 1%N; References := [];
       Visitors := [(0%N, {| visitorSchema.count := 2 ^ 53;
                             visitorSchema.lastUpdated := 0 |})];
       Jobs := []; Users := [] |}
  = (Resolved {| status := 200;
                 body := JObject [("visitorCount"%string,
                                   JNumber (2 ^ 53))] |},
     {| objectIdCounter := 1%N; References := [];
        Visitors := [(0%N, {| visitorSchema.count := 2 ^ 53;
                              visitorSchema.lastUpdated := 3600000 |})];
        Jobs := []; Users := [] |}).
Proof. vm_compute. reflexivity. Qed.

(** Beyond 2^53 a Number moves in steps of 2: a record that holds
    2^53 + 2, read an hour after its stamp, is left with 2^53 + 4. *)
Example visitor_count_beyond_exact_range :
  fst (get_api_visitorCount (atInstant 3600000 1 1970 "")
         {| objectIdCounter := 1%N; References := [];
            Visitors := [(0%N, {| visitorSchema.count := 2 ^ 53 + 2;
                                  visitorSchema.lastUpdated := 0 |})];
            Jobs := []; Users := [] |})
  = Resolved {| status := 200;
                body := JObject [("visitorCount"%string,
                                  JNumber (2 ^ 53 + 4))] |}.
Proof. vm_compute. reflexivity. Qed.

Lemma visitor_two_reads_run (env1 env2 : Env) (db : Db) :
  exists db1 db2,
    get_api_visitorCount env1 db
    = (Resolved
         (json (visitorCountBody
                  (visitorSchema.count
                     (visitorAfter env1 (visitorAtHand env1 db))))),
       db1)
    /\ get_api_visitorCount env2 db1
       = (Resolved
            (json (visitorCountBody
                     (visitorSchema.count
                        (visitorAfter env2
                           (visitorAfter env1 (visitorAtHand env1 db)))))),
          db2).
Proof.
  destruct (get_api_visitorCount_run env1 db)
    as (db1 & Hrun1 & _ & _ & _ & Hvis1).
  destruct (get_api_visitorCount_run env2 db1)
    as (db2 & Hrun2 & _).
  exists db1, db2. split; [exact Hrun1 |].
  rewrite Hrun2. repeat f_equal.
  unfold visitorAtHand at 1.
  destruct (Visitors db) as [| [oid v] rest] eqn:Hv.
  - rewrite Hvis1. reflexivity.
  - destruct Hvis1 as [-> _]. unfold visitorAtHand. rewrite Hv. reflexivity.
Qed.

(** C6, as the code has it.  The hourly test compares the clock with the
    stored lastUpdated, not with the previous read.  With L the lastUpdated
    of the record the first read works on (the stored one, or the stamp of
    the one it creates): if the first read finds the hour passed, a second
    read made less than an hour after the first's reset returns the same
    count; if neither read is an hour after L, both return the same count;
    if only the second is an hour after L, it returns one more than the
    first, however close together the two reads are.  With a clock that does
    not run backwards (L no later than the first read's check, and that no
    later than its reset), a second read made at least an hour after the
    first returns exactly one more than the first.  "One more" is exact
    when the first count plus 1 is within -2^53 .. 2^53.  The same holds for
    the variant that keeps the counter in process memory, where L is
    lastIncrementTime and the reset stamp is the first read's own time. *)
Theorem visitor_two_reads (env1 env2 : Env) (db : Db) :
  (exists c1 c2 db1 db2,
      get_api_visitorCount env1 db
      = (Resolved {| status := 200;
                     body := JObject [("visitorCount"%string, JNumber c1)] |},
         db1)
      /\ get_api_visitorCount env2 db1
         = (Resolved {| status := 200;
                        body := JObject [("visitorCount"%string,
                                          JNumber c2)] |},
            db2)
      /\ (currentTime env1
            - visitorSchema.lastUpdated (visitorAtHand env1 db) >= 3600000 ->
          currentTime env2 - newDate env1 < 3600000 ->
          c2 = c1)
      /\ (currentTime env1
            - visitorSchema.lastUpdated (visitorAtHand env1 db) < 3600000 ->
          currentTime env2
            - visitorSchema.lastUpdated (visitorAtHand env1 db) < 3600000 ->
          c2 = c1)
      /\ (currentTime env1
            - visitorSchema.lastUpdated (visitorAtHand env1 db) < 3600000 ->
          currentTime env2
            - visitorSchema.lastUpdated (visitorAtHand env1 db) >= 3600000 ->
          - 2 ^ 53 <= c1 + 1 <= 2 ^ 53 ->
          c2 = c1 + 1)
      /\ (visitorSchema.lastUpdated (visitorAtHand env1 db)
            <= currentTime env1 <= newDate env1 ->
          currentTime env2 - newDate env1 >= 3600000 ->
          - 2 ^ 53 <= c1 + 1 <= 2 ^ 53 ->
          c2 = c1 + 1))
  /\ (forall t1 t2 v,
         exists c1 c2,
           inProcessReads t1 t2 v
           = ({| status := 200;
                 body := JObject [("visitorCount"%string, JNumber c1)] |},
              {| status := 200;
                 body := JObject [("visitorCount"%string, JNumber c2)] |})
           /\ (t1 - InProcess.lastIncrementTime v >= 3600000 ->
               t2 - t1 < 3600000 -> c2 = c1)
           /\ (t1 - InProcess.lastIncrementTime v < 3600000 ->
               t2 - InProcess.lastIncrementTime v < 3600000 -> c2 = c1)
           /\ (t1 - InProcess.lastIncrementTime v < 3600000 ->
               t2 - InProcess.lastIncrementTime v >= 3600000 ->
               - 2 ^ 53 <= c1 + 1 <= 2 ^ 53 ->
               c2 = c1 + 1)
           /\ (InProcess.lastIncrementTime v <= t1 ->
               t2 - t1 >= 3600000 ->
               - 2 ^ 53 <= c1 + 1 <= 2 ^ 53 ->
               c2 = c1 + 1)).
Proof.
  split.
  - destruct (visitor_two_reads_run env1 env2 db) as (db1 & db2 & H1 & H2).
    do 2 eexists. exists db1, db2.
    split; [exact H1 |]. split; [exact H2 |].
    set (v := visitorAtHand env1 db). clearbody v. clear H1 H2.
    unfold visitorAfter, hourPassed.
    destruct (Z.geb_spec (currentTime env1 - visitorSchema.lastUpdated v)
                3600000) as [Hopen1 | Hshut1]; cbn [visitorSchema.lastUpdated
                                                     visitorSchema.count].
    + destruct (Z.geb_spec (currentTime env2 - newDate env1) 3600000);
        cbn [visitorSchema.count]; repeat split; intros;
        try lia; apply plus_one_exact; assumption.
    + destruct (Z.geb_spec (currentTime env2 - visitorSchema.lastUpdated v)
                  3600000);
        cbn [visitorSchema.count]; repeat split; intros;
        try lia; apply plus_one_exact; assumption.
  - intros t1 t2 v.
    unfold inProcessReads, InProcess.get_api_visitorCount.
    do 2 eexists. split; [reflexivity |].
    destruct (Z.geb_spec (t1 - InProcess.lastIncrementTime v) 3600000);
      cbn [InProcess.lastIncrementTime InProcess.visitorCount].
    + destruct (Z.geb_spec (t2 - t1) 3600000);
        cbn [InProcess.visitorCount]; repeat split; intros;
        try lia; apply plus_one_exact; assumption.
    + destruct (Z.geb_spec (t2 - InProcess.lastIncrementTime v) 3600000);
        cbn [InProcess.visitorCount]; repeat split; intros;
        try lia; apply plus_one_exact; assumption.
Qed.

(** C6 as stated fails: a record stamped at time 0 and read at 3 599 999 ms
    and again one millisecond later answers 905 and then 906, whether the
    second read follows the first or starts from the same state.  The
    in-process variant, started at time 0, does the same. *)
Lemma visitor_two_reads_counterexample :
  map visitorCountOf
    (fst (serveAll stubHash stubCompare
            (visitorRequests
               [atInstant 0 1 1970 ""; atInstant 3599999 1 1970 "";
                atInstant 3600000 1 1970 ""])
            emptyDb))
  = [Some 905; Some 905; Some 906]
  /\ 3600000 - 3599999 < 3600000
  /\ map visitorCountOf
       (fst (serveAll stubHash stubCompare
               (visitorRequests [atInstant 3600000 1 1970 ""])
               (snd (serveAll stubHash stubCompare
                       (visitorRequests [atInstant 0 1 1970 ""]) emptyDb))))
     = [Some 906]
  /\ inProcessReads 3599999 3600000 (InProcess.start 0)
     = ({| status := 200;
           body := JObject [("visitorCount"%string, JNumber 905)] |},
        {| status := 200;
           body := JObject [("visitorCount"%string, JNumber 906)] |}).
Proof. repeat split. Qed.

Example visitor_read_run :
  serveAll stubHash stubCompare
    (visitorRequests [atInstant 1000 1 1970 ""; atInstant 3601000 1 1970 ""])
    emptyDb
  = ([json (visitorCountBody 905); json (visitorCountBody 906)],
     {| objectIdCounter := 1%N; References := [];
        Visitors := [(0%N, {| visitorSchema.count := 906;
                              visitorSchema.lastUpdated := 3601000 |})];
        Jobs := []; Users := [] |}).
Proof. reflexivity. Qed.

(** ** Registration and login *)

Lemma find_app_last {A} (f : A -> bool) (l : list A) (x : A) :
  existsb f l = false -> f x = true -> find f (l ++ [x]) = Some x.
Proof.
  induction l as [| a l IH]; simpl; intros Hnone Hx.
  - now rewrite Hx.
  - apply orb_false_iff in Hnone as [Ha Hl]. rewrite Ha. now apply IH.
Qed.

Lemma find_existsb {A} (f : A -> bool) (l : list A) :
  find f l = None <-> existsb f l = false.
Proof.
  induction l as [| a l IH]; simpl; [tauto |].
  destruct (f a); simpl; [split; discriminate | exact IH].
Qed.

Lemma existsb_app_last {A} (f : A -> bool) (l : list A) (x : A) :
  f x = true -> existsb f (l ++ [x]) = true.
Proof.
  intros Hx. rewrite existsb_app. simpl. rewrite Hx.
  now rewrite orb_true_r.
Qed.

Section Credentials.

Variable bcrypt_hash : string -> nat -> string -> string.
Variable bcrypt_compare : string -> string -> bool.

Let register := post_api_register bcrypt_hash.
Let login := post_api_login bcrypt_compare.

(** What a registration does: [bcrypt.hash] rejects a password that is not
    a string, and [save] can go three ways. *)
Lemma post_api_register_run (env : Env) (body : Credentials) (db : Db) :
  exists db',
    match password body with
    | Some text =>
        let user := {| userSchema.username := username body;
                       userSchema.password :=
                         bcrypt_hash text 8%nat (salt env) |} in
        if User.nonEmpty (userSchema.username user)
           && User.nonEmpty (userSchema.password user)
           && negb (existsb (named (username body)) (Users db))
        then register env body db
             = (Resolved registrationSuccess, db')
             /\ Users db' = Users db ++ [(objectIdCounter db, user)]
        else register env body db = (Resolved registrationError, db')
             /\ Users db' = Users db
    | None =>
        register env body db = (Resolved registrationError, db')
        /\ Users db' = Users db
    end
    /\ Visitors db' = Visitors db /\ Jobs db' = Jobs db
    /\ References db' = References db.
Proof.
  unfold register, post_api_register, await_hash,
    tryCatch, bind, ret, throw, construct, User.save, saveInto, named.
  destruct (password body) as [text |]; simpl.
  - destruct (User.nonEmpty (username body)
              && User.nonEmpty (bcrypt_hash text 8%nat (salt env)));
      simpl.
    + destruct (existsb _ (Users db)); simpl;
        eexists; (split; [split; reflexivity | repeat split]).
    + eexists; (split; [split; reflexivity | repeat split]).
  - eexists; (split; [split; reflexivity | repeat split]).
Qed.

Lemma named_refl (oid : ObjectId) (u : userSchema.t) :
  named (userSchema.username u) (oid, u) = true.
Proof. unfold named. simpl. apply String.eqb_refl. Qed.

(** What a login does: [bcrypt.compare] is reached only for a stored name,
    and rejects a password that is not a string. *)
Lemma post_api_login_run (body : Credentials) (db : Db) :
  login body db
  = (Resolved
       match find (named (username body)) (Users db) with
       | None => loginError
       | Some (_, user) =>
           match password body with
           | Some text =>
               if bcrypt_compare text (userSchema.password user)
               then json (loginBody (userSchema.username user))
               else loginError
           | None => statusJson 500 (errorBody "Error logging in")
           end
       end,
     db).
Proof.
  unfold login, post_api_login, await_compare, tryCatch, bind, ret, throw,
    User.findOne, named.
  destruct (find _ (Users db)) as [[oid user] |]; simpl; [| reflexivity].
  destruct (password body) as [text |]; simpl; [| reflexivity].
  destruct (bcrypt_compare _ _); reflexivity.
Qed.

End Credentials.

(** C3, as the code has it.  (a) Registering a name some stored user already
    carries is refused: the response is status 500 with the generic body
    error: Error registering user, and the user collection is unchanged.
    (b) Of two registrations of the same name, one after the other, the
    second is answered that way whenever the first succeeded.  (c) A
    registration with a non-empty name that no stored user carries (and a
    non-empty hash) succeeds with status 201 and appends the user.  The
    register route has no status-400 path: its only failure answer is the
    catch clause's 500. *)
Theorem duplicate_registration
  (bcrypt_hash : string -> nat -> string -> string) :
  (forall env body db,
      existsb (named (username body)) (Users db) = true ->
      exists db',
        post_api_register bcrypt_hash env body db
        = (Resolved (statusJson 500 (errorBody "Error registering user")), db')
        /\ Users db' = Users db)
  /\ (forall env1 env2 body1 body2 db,
         username body1 = username body2 ->
         exists res1 db1 res2 db2,
           post_api_register bcrypt_hash env1 body1 db = (Resolved res1, db1)
           /\ post_api_register bcrypt_hash env2 body2 db1
              = (Resolved res2, db2)
           /\ (status res1 = 201 ->
               res2 = statusJson 500 (errorBody "Error registering user")
               /\ Users db2 = Users db1))
  /\ (forall env body text db,
         password body = Some text ->
         User.nonEmpty (username body) = true ->
         User.nonEmpty (bcrypt_hash text 8%nat (salt env)) = true ->
         existsb (named (username body)) (Users db) = false ->
         exists db',
           post_api_register bcrypt_hash env body db
           = (Resolved (statusJson 201
                          (messageBody "User registered successfully")), db')
           /\ Users db'
              = Users db
                  ++ [(objectIdCounter db,
                       {| userSchema.username := username body;
                          userSchema.password :=
                            bcrypt_hash text 8%nat (salt env) |})]).
Proof.
  split; [| split].
  - intros env body db Htaken.
    destruct (post_api_register_run bcrypt_hash env body db)
      as (db' & Hrun & _).
    exists db'.
    destruct (password body) as [text |]; [| exact Hrun].
    simpl in Hrun. rewrite Htaken, andb_false_r in Hrun. exact Hrun.
  - intros env1 env2 body1 body2 db Hname.
    destruct (post_api_register_run bcrypt_hash env1 body1 db)
      as (db1 & Hrun1 & _).
    destruct (post_api_register_run bcrypt_hash env2 body2 db1)
      as (db2 & Hrun2 & _).
    assert (Hfirst :
             exists res1,
               post_api_register bcrypt_hash env1 body1 db
               = (Resolved res1, db1)
               /\ (status res1 = 201 ->
                   existsb (named (username body2)) (Users db1) = true)).
    { destruct (password body1) as [text1 |]; simpl in Hrun1.
      - destruct (User.nonEmpty (username body1)
                  && User.nonEmpty (bcrypt_hash text1 8%nat (salt env1))
                  && negb (existsb (named (username body1)) (Users db)));
          destruct Hrun1 as [Hrun1 Husers1];
          eexists; (split; [exact Hrun1 |]).
        + intros _. rewrite Husers1, <- Hname. apply existsb_app_last.
          unfold named. simpl. apply String.eqb_refl.
        + simpl. discriminate.
      - destruct Hrun1 as [Hrun1 _].
        eexists; (split; [exact Hrun1 |]). simpl. discriminate. }
    destruct Hfirst as (res1 & Hres1 & Htaken).
    assert (Hsecond :
             exists res2,
               post_api_register bcrypt_hash env2 body2 db1
               = (Resolved res2, db2)
               /\ (existsb (named (username body2)) (Users db1) = true ->
                   res2 = statusJson 500 (errorBody "Error registering user")
                   /\ Users db2 = Users db1)).
    { destruct (password body2) as [text2 |]; simpl in Hrun2.
      - destruct (existsb (named (username body2)) (Users db1)).
        + rewrite andb_false_r in Hrun2. destruct Hrun2 as [Hrun2 Husers2].
          eexists; (split; [exact Hrun2 |]).
          intros _. split; [reflexivity | exact Husers2].
        + destruct (User.nonEmpty (username body2)
                    && User.nonEmpty (bcrypt_hash text2 8%nat (salt env2))
                    && negb false);
            destruct Hrun2 as [Hrun2 _];
            eexists; (split; [exact Hrun2 |]); discriminate.
      - destruct Hrun2 as [Hrun2 Husers2].
        eexists; (split; [exact Hrun2 |]).
        intros _. split; [reflexivity | exact Husers2]. }
    destruct Hsecond as (res2 & Hres2 & Hrefused).
    exists res1, db1, res2, db2.
    split; [exact Hres1 |]. split; [exact Hres2 |].
    intros H201. apply Hrefused, Htaken, H201.
  - intros env body text db Hpass Hname Hhash Hfree.
    destruct (post_api_register_run bcrypt_hash env body db)
      as (db' & Hrun & _).
    rewrite Hpass in Hrun.
    simpl in Hrun. rewrite Hname, Hhash, Hfree in Hrun.
    exists db'. exact Hrun.
Qed.

(** C3 as stated fails on the status: the second registration of a name is
    answered 500, not 400. *)
Lemma duplicate_registration_counterexample :
  fst (serveAll stubHash stubCompare
         [(atInstant 0 1 1970 "salt1",
           POST_register {| username := "alice";
                            password := Some "secret"%string |});
          (atInstant 1 1 1970 "salt2",
           POST_register {| username := "alice";
                            password := Some "other"%string |})]
         emptyDb)
  = [statusJson 201 (messageBody "User registered successfully");
     statusJson 500 (errorBody "Error registering user")]
  /\ (500 =? 400) = false.
Proof. split; reflexivity. Qed.

(** C4, where the code departs from it.  On one store, a login naming no
    stored user is answered 400 with error: Invalid username or password,
    whatever else its body holds, while a login naming a stored user whose
    body carries no string password is answered 500 with error: Error
    logging in: [bcrypt.compare] rejects and the catch clause answers.  The
    two responses tell a registered name from an unregistered one. *)
Theorem login_missing_password
  (bcrypt_compare : string -> string -> bool)
  (db : Db) (unknown registered : Credentials)
  (oid : ObjectId) (user : userSchema.t) :
  find (named (username unknown)) (Users db) = None ->
  find (named (username registered)) (Users db) = Some (oid, user) ->
  password registered = None ->
  post_api_login bcrypt_compare unknown db
  = (Resolved {| status := 400;
                 body := JObject [("error"%string,
                                   JString "Invalid username or password")] |},
     db)
  /\ post_api_login bcrypt_compare registered db
     = (Resolved {| status := 500;
                    body := JObject [("error"%string,
                                      JString "Error logging in")] |},
        db).
Proof.
  intros Hnone Hsome Hmissing.
  rewrite !post_api_login_run, Hnone, Hsome, Hmissing. split; reflexivity.
Qed.

Lemma login_missing_password_witness :
  let db :=
    snd (post_api_register stubHash (atInstant 0 1 1970 "salt1")
           {| username := "alice"; password := Some "secret"%string |}
           emptyDb) in
  post_api_login stubCompare {| username := "bob"; password := None |} db
  = (Resolved {| status := 400;
                 body := JObject [("error"%string,
                                   JString "Invalid username or password")] |},
     db)
  /\ post_api_login stubCompare {| username := "alice"; password := None |} db
     = (Resolved {| status := 500;
                    body := JObject [("error"%string,
                                      JString "Error logging in")] |},
        db).
Proof.
  exact (login_missing_password stubCompare
           (snd (post_api_register stubHash (atInstant 0 1 1970 "salt1")
                   {| username := "alice"; password := Some "secret"%string |}
                   emptyDb))
           {| username := "bob"; password := None |}
           {| username := "alice"; password := None |}
           0%N
           {| userSchema.username := "alice";
              userSchema.password := "$2b$secret" |}
           eq_refl eq_refl eq_refl).
Defined.

Section Login.

Variable bcrypt_hash : string -> nat -> string -> string.
Variable bcrypt_compare : string -> string -> bool.

(** What the handlers rely on: a password verifies against its own hash,
    whatever salt was drawn. *)
Hypothesis compare_hash :
  forall data rounds entropy,
    bcrypt_compare data (bcrypt_hash data rounds entropy) = true.

(** X17.  Logins whose body carries a string password.  (a) On one store, a
    login naming no stored user and a login naming a stored user with a
    password that does not verify get the same response, status 400 with
    error: Invalid username or password, and neither changes the store. (b)
    A login naming a stored user with a password that verifies gets status
    200 with a body of exactly two members, the message and user: { username
    }, the name being the one in the request; no token or session is part of
    it. (c) After a successful registration, a login with the same
    credentials succeeds in that way. *)
Theorem login_responses :
  (forall db unknown wrong text oid user,
      find (named (username unknown)) (Users db) = None ->
      find (named (username wrong)) (Users db) = Some (oid, user) ->
      password wrong = Some text ->
      bcrypt_compare text (userSchema.password user) = false ->
      post_api_login bcrypt_compare unknown db
      = (Resolved
           {| status := 400;
              body := JObject [("error"%string,
                                JString "Invalid username or password")] |},
         db)
      /\ post_api_login bcrypt_compare wrong db
         = post_api_login bcrypt_compare unknown db)
  /\ (forall db body text oid user,
         find (named (username body)) (Users db) = Some (oid, user) ->
         password body = Some text ->
         bcrypt_compare text (userSchema.password user) = true ->
         post_api_login bcrypt_compare body db
         = (Resolved
              {| status := 200;
                 body :=
                   JObject
                     [("message"%string, JString "Login successful");
                      ("user"%string,
                       JObject [("username"%string,
                                 JString (username body))])] |},
            db))
  /\ (forall env body db db',
         post_api_register bcrypt_hash env body db
         = (Resolved
              {| status := 201;
                 body := JObject [("message"%string,
                                   JString "User registered successfully")] |},
            db') ->
         post_api_login bcrypt_compare body db'
         = (Resolved
              {| status := 200;
                 body :=
                   JObject
                     [("message"%string, JString "Login successful");
                      ("user"%string,
                       JObject [("username"%string,
                                 JString (username body))])] |},
            db')).
Proof.
  split; [| split].
  - intros db unknown wrong text oid user Hnone Hsome Hpass Hbad.
    rewrite !post_api_login_run, Hnone, Hsome, Hpass, Hbad.
    split; reflexivity.
  - intros db body text oid user Hsome Hpass Hgood.
    rewrite post_api_login_run, Hsome, Hpass, Hgood.
    apply find_some in Hsome as [_ Hname].
    unfold named in Hname. simpl in Hname.
    apply String.eqb_eq in Hname. rewrite Hname. reflexivity.
  - intros env body db db' Hreg.
    destruct (post_api_register_run bcrypt_hash env body db)
      as (db1 & Hrun & _).
    destruct (password body) as [text |] eqn:Hpass;
      [| destruct Hrun as [Hrun _]; rewrite Hrun in Hreg; discriminate].
    simpl in Hrun.
    destruct (User.nonEmpty (username body)
              && User.nonEmpty (bcrypt_hash text 8 (salt env))
              && negb (existsb (named (username body)) (Users db))) eqn:Hok.
    + destruct Hrun as [Hrun Husers].
      rewrite Hrun in Hreg. injection Hreg as <-.
      apply andb_true_iff in Hok as [_ Hfree].
      apply negb_true_iff in Hfree.
      rewrite post_api_login_run, Husers.
      rewrite (find_app_last _ _ _ Hfree) by apply named_refl.
      rewrite Hpass. simpl. rewrite compare_hash. reflexivity.
    + destruct Hrun as [Hrun _]. rewrite Hrun in Hreg. discriminate.
Qed.

End Login.

Lemma login_responses_witness :
  (forall data rounds entropy,
      stubCompare data (stubHash data rounds entropy) = true)
  /\ post_api_login stubCompare
       {| username := "alice"; password := Some "secret"%string |}
       (snd (post_api_register stubHash (atInstant 0 1 1970 "salt1")
               {| username := "alice"; password := Some "secret"%string |}
               emptyDb))
     = (Resolved
          {| status := 200;
             body :=
               JObject
                 [("message"%string, JString "Login successful");
                  ("user"%string,
                   JObject [("username"%string, JString "alice")])] |},
        snd (post_api_register stubHash (atInstant 0 1 1970 "salt1")
               {| username := "alice"; password := Some "secret"%string |}
               emptyDb))
  /\ post_api_login stubCompare
       {| username := "alice"; password := Some "guess"%string |}
       (snd (post_api_register stubHash (atInstant 0 1 1970 "salt1")
               {| username := "alice"; password := Some "secret"%string |}
               emptyDb))
     = post_api_login stubCompare
         {| username := "bob"; password := Some "guess"%string |}
         (snd (post_api_register stubHash (atInstant 0 1 1970 "salt1")
                 {| username := "alice"; password := Some "secret"%string |}
                 emptyDb)).
Proof.
  assert (Hstub : forall data rounds entropy,
             stubCompare data (stubHash data rounds entropy) = true)
    by (intros; apply String.eqb_refl).
  split; [exact Hstub |].
  destruct (login_responses stubHash stubCompare Hstub) as (Hsame & _ & Hin).
  split.
  - exact (Hin (atInstant 0 1 1970 "salt1")
                {| username := "alice"; password := Some "secret"%string |}
                emptyDb _ eq_refl).
  - exact (proj2 (Hsame (snd (post_api_register stubHash
                                 (atInstant 0 1 1970 "salt1")
                                 {| username := "alice";
                                    password := Some "secret"%string |}
                                 emptyDb))
                      {| username := "bob";
                         password := Some "guess"%string |}
                      {| username := "alice";
                         password := Some "guess"%string |}
                      "guess"%string 0%N
                      {| userSchema.username := "alice";
                         userSchema.password := "$2b$secret" |}
                      eq_refl eq_refl eq_refl eq_refl)).
Defined.

(** ** Collections *)

Lemma lookupById_None {A} (oid : ObjectId) (c : Collection A) :
  lookupById oid c = None <-> ~ In oid (ids c).
Proof.
  induction c as [| [i a] c IH]; simpl.
  - tauto.
  - destruct (N.eqb_spec i oid) as [-> | Hne].
    + split; [discriminate | intros H; exfalso; apply H; now left].
    + rewrite IH. split; [intros H [Heq | Hin]; [congruence | tauto] | tauto].
Qed.

(** A successful lookup splits the collection around the first document
    with that id; replacing and deleting act on that document alone. *)
Lemma lookupById_split {A} (oid : ObjectId) (old : A) (c : Collection A) :
  lookupById oid c = Some old ->
  exists before after,
    c = before ++ (oid, old) :: after
    /\ ~ In oid (ids before)
    /\ (forall new, replaceById oid new c = before ++ (oid, new) :: after)
    /\ deleteById oid c = before ++ after.
Proof.
  induction c as [| [i a] c IH]; simpl; [discriminate |].
  destruct (N.eqb_spec i oid) as [-> | Hne]; intros Hfound.
  - injection Hfound as ->. exists [], c. repeat split. intros [].
  - destruct (IH Hfound) as (before & after & -> & Hnot & Hrep & Hdel).
    exists ((i, a) :: before), after. simpl. repeat split.
    + intros [Heq | Hin]; [congruence | tauto].
    + intros new. now rewrite Hrep.
    + now rewrite Hdel.
Qed.

Lemma ids_app {A} (c d : Collection A) : ids (c ++ d) = ids c ++ ids d.
Proof. apply map_app. Qed.

Lemma ids_replaceById {A} (oid : ObjectId) (a : A) (c : Collection A) :
  ids (replaceById oid a c) = ids c.
Proof.
  induction c as [| [i x] c IH]; simpl; [reflexivity |].
  destruct (N.eqb i oid); simpl; [reflexivity | now rewrite IH].
Qed.

Lemma In_ids_deleteById {A} (oid i : ObjectId) (c : Collection A) :
  In i (ids (deleteById oid c)) -> In i (ids c).
Proof.
  induction c as [| [j x] c IH]; simpl; [tauto |].
  destruct (N.eqb j oid); simpl; tauto.
Qed.

Lemma NoDup_deleteById {A} (oid : ObjectId) (c : Collection A) :
  NoDup (ids c) -> NoDup (ids (deleteById oid c)).
Proof.
  induction c as [| [j x] c IH]; simpl; intros Hnd; [exact Hnd |].
  inversion Hnd as [| ? ? Hnotin Hnd']; subst.
  destruct (N.eqb j oid); simpl; [exact Hnd' |].
  constructor; [| now apply IH].
  intros Hin. apply Hnotin. now apply In_ids_deleteById in Hin.
Qed.

Lemma deleteById_removes {A} (oid : ObjectId) (c : Collection A) :
  NoDup (ids c) -> ~ In oid (ids (deleteById oid c)).
Proof.
  induction c as [| [j x] c IH]; simpl; intros Hnd; [tauto |].
  inversion Hnd as [| ? ? Hnotin Hnd']; subst.
  destruct (N.eqb_spec j oid) as [-> | Hne]; simpl.
  - exact Hnotin.
  - intros [Heq | Hin]; [congruence | now apply IH in Hin].
Qed.

Lemma lookupById_other {A} (oid oid' : ObjectId) (a : A) (c : Collection A) :
  oid' <> oid ->
  lookupById oid' (replaceById oid a c) = lookupById oid' c.
Proof.
  intros Hne. induction c as [| [j x] c IH]; simpl; [reflexivity |].
  destruct (N.eqb_spec j oid) as [-> | Hj]; simpl.
  - destruct (N.eqb_spec oid oid'); [congruence | reflexivity].
  - now rewrite IH.
Qed.

(** ** The job routes *)

Lemma lookupById_app_found {A} (oid : ObjectId) (a : A)
      (before after : Collection A) :
  ~ In oid (ids before) ->
  lookupById oid (before ++ (oid, a) :: after) = Some a.
Proof.
  induction before as [| [j x] before IH]; simpl; intros Hnot.
  - now rewrite N.eqb_refl.
  - destruct (N.eqb_spec j oid) as [-> | Hne]; [tauto |].
    apply IH. tauto.
Qed.

Lemma post_api_jobs_run (env : Env) (body : jobSchema.t) (db : Db) :
  post_api_jobs env body db
  = (Resolved
       (statusJson 201
          (jobJson
             {| _id := objectIdCounter db; isNew := false;
                fields :=
                  {| jobSchema.title := jobSchema.title body;
                     jobSchema.description := jobSchema.description body;
                     jobSchema.location := jobSchema.location body;
                     jobSchema.datePosted :=
                       orElse (jobSchema.datePosted body) (Some (dateNow env));
                     jobSchema.icon := jobSchema.icon body |} |})),
     {| objectIdCounter := N.succ (objectIdCounter db);
        References := References db; Visitors := Visitors db;
        Jobs :=
          Jobs db
            ++ [(objectIdCounter db,
                 {| jobSchema.title := jobSchema.title body;
                    jobSchema.description := jobSchema.description body;
                    jobSchema.location := jobSchema.location body;
                    jobSchema.datePosted :=
                      orElse (jobSchema.datePosted body) (Some (dateNow env));
                    jobSchema.icon := jobSchema.icon body |})];
        Users := Users db |}).
Proof. reflexivity. Qed.

Lemma get_api_jobs_run (db : Db) :
  get_api_jobs db
  = (Resolved (json (JArray (map jobJson (map asDocument (Jobs db))))), db).
Proof. reflexivity. Qed.

Lemma put_api_jobs_run (id : string) (body : jobSchema.t) (db : Db) :
  put_api_jobs id body db
  = match castObjectId id with
    | None => (Resolved (statusJson 500 (errorBody "Error updating job")), db)
    | Some oid =>
        match lookupById oid (Jobs db) with
        | None => (Resolved (json JNull), db)
        | Some old =>
            (Resolved
               (json (jobJson {| _id := oid; isNew := false;
                                 fields := Job.applyUpdate body old |})),
             {| objectIdCounter := objectIdCounter db;
                References := References db; Visitors := Visitors db;
                Jobs := replaceById oid (Job.applyUpdate body old) (Jobs db);
                Users := Users db |})
        end
    end.
Proof.
  unfold put_api_jobs, tryCatch, bind, ret, Job.findByIdAndUpdate.
  destruct (castObjectId id) as [oid |]; [| reflexivity].
  destruct (lookupById oid (Jobs db)); reflexivity.
Qed.

Lemma delete_api_jobs_run (id : string) (db : Db) :
  delete_api_jobs id db
  = match castObjectId id with
    | None => (Resolved (statusJson 500 (errorBody "Error deleting job")), db)
    | Some oid =>
        match lookupById oid (Jobs db) with
        | None => (Resolved (json (messageBody "Job deleted")), db)
        | Some _ =>
            (Resolved (json (messageBody "Job deleted")),
             {| objectIdCounter := objectIdCounter db;
                References := References db; Visitors := Visitors db;
                Jobs := deleteById oid (Jobs db);
                Users := Users db |})
        end
    end.
Proof.
  unfold delete_api_jobs, tryCatch, bind, ret, Job.findByIdAndDelete.
  destruct (castObjectId id) as [oid |]; [| reflexivity].
  destruct (lookupById oid (Jobs db)); reflexivity.
Qed.

Lemma applyUpdate_supplied (body old : jobSchema.t) (p : jobSchema.path)
      (v : jobSchema.value) :
  jobSchema.get p body = Some v ->
  jobSchema.get p (Job.applyUpdate body old) = Some v.
Proof.
  destruct body as [t d l dp i], p; simpl;
    [destruct t | destruct d | destruct l | destruct dp | destruct i];
    simpl; intros H; (exact H || discriminate).
Qed.

Lemma applyUpdate_unsupplied (body old : jobSchema.t) (p : jobSchema.path) :
  jobSchema.get p body = None ->
  jobSchema.get p (Job.applyUpdate body old) = jobSchema.get p old.
Proof.
  destruct body as [t d l dp i], p; simpl;
    [destruct t | destruct d | destruct l | destruct dp | destruct i];
    simpl; intros H; (reflexivity || discriminate).
Qed.

(** What a job document's JSON holds: its id under _id, and under the name
    of each path the value of that path, or nothing when the document has
    none. *)
Lemma jobJson_members (d : Document jobSchema.t) :
  jsonMember "_id" (jobJson d) = Some (JObjectId (_id d))
  /\ forall p,
      jsonMember (pathName p) (jobJson d)
      = option_map valueJson (jobSchema.get p (fields d)).
Proof.
  destruct d as [oid new [title description location datePosted icon]].
  split; [reflexivity |].
  intros p.
  destruct p, title, description, location, datePosted, icon; reflexivity.
Qed.

(** C8.  A PUT on the identifier of a stored job answers 200 with the
    updated document: the body carries the job's id under _id and, under
    the name of each path, the value the stored document now has.  In that
    document every path the payload supplies has the payload's value and
    every other path keeps the stored value, and so it is in the body; the
    job collection differs from the old one at that document only, and the
    other collections and the id counter are untouched. *)
Theorem update_changes_only_supplied
  (id : string) (payload : jobSchema.t) (db : Db)
  (oid : ObjectId) (old : jobSchema.t) :
  castObjectId id = Some oid ->
  lookupById oid (Jobs db) = Some old ->
  exists res new db' before after,
    put_api_jobs id payload db = (Resolved res, db')
    /\ status res = 200
    /\ jsonMember "_id" (body res) = Some (JObjectId oid)
    /\ (forall p,
           jsonMember (pathName p) (body res)
           = option_map valueJson (jobSchema.get p new))
    /\ (forall p v, jobSchema.get p payload = Some v ->
                    jobSchema.get p new = Some v
                    /\ jsonMember (pathName p) (body res)
                       = Some (valueJson v))
    /\ (forall p, jobSchema.get p payload = None ->
                  jobSchema.get p new = jobSchema.get p old
                  /\ jsonMember (pathName p) (body res)
                     = option_map valueJson (jobSchema.get p old))
    /\ Jobs db = before ++ (oid, old) :: after
    /\ Jobs db' = before ++ (oid, new) :: after
    /\ lookupById oid (Jobs db') = Some new
    /\ (forall oid', oid' <> oid ->
                     lookupById oid' (Jobs db') = lookupById oid' (Jobs db))
    /\ References db' = References db
    /\ Visitors db' = Visitors db
    /\ Users db' = Users db
    /\ objectIdCounter db' = objectIdCounter db.
Proof.
  intros Hcast Hfound.
  destruct (lookupById_split oid old (Jobs db) Hfound)
    as (before & after & Hjobs & Hnot & Hrep & _).
  destruct (jobJson_members {| _id := oid; isNew := false;
                               fields := Job.applyUpdate payload old |})
    as [Hid Hpaths].
  eexists. exists (Job.applyUpdate payload old). eexists. exists before, after.
  split; [rewrite put_api_jobs_run, Hcast, Hfound; reflexivity |].
  split; [reflexivity |].
  split; [exact Hid |].
  split; [exact Hpaths |].
  split.
  { intros p v Hsup.
    pose proof (applyUpdate_supplied payload old p v Hsup) as Hnew.
    split; [exact Hnew |].
    rewrite Hpaths. cbn [fields]. rewrite Hnew. reflexivity. }
  split.
  { intros p Hnone.
    pose proof (applyUpdate_unsupplied payload old p Hnone) as Hnew.
    split; [exact Hnew |].
    rewrite Hpaths. cbn [fields]. rewrite Hnew. reflexivity. }
  split; [exact Hjobs |].
  cbn [Jobs]. split; [apply Hrep |].
  split; [rewrite Hrep; apply lookupById_app_found; exact Hnot |].
  split; [intros oid' Hne; apply lookupById_other; exact Hne |].
  repeat split.
Qed.

Lemma update_changes_only_supplied_witness :
  castObjectId "000000000000000000000000" = Some 0%N
  /\ lookupById 0%N
       (Jobs (snd (post_api_jobs (atInstant 1000 1 1970 "")
                     {| jobSchema.title := Some "Engineer"%string;
                        jobSchema.description := None;
                        jobSchema.location := Some "Pune"%string;
                        jobSchema.datePosted := None;
                        jobSchema.icon := None |} emptyDb)))
     = Some {| jobSchema.title := Some "Engineer"%string;
               jobSchema.description := None;
               jobSchema.location := Some "Pune"%string;
               jobSchema.datePosted := Some 1000;
               jobSchema.icon := None |}
  /\ exists res db',
      put_api_jobs "000000000000000000000000"
        {| jobSchema.title := None; jobSchema.description := None;
           jobSchema.location := Some "Remote"%string;
           jobSchema.datePosted := None; jobSchema.icon := None |}
        (snd (post_api_jobs (atInstant 1000 1 1970 "")
                {| jobSchema.title := Some "Engineer"%string;
                   jobSchema.description := None;
                   jobSchema.location := Some "Pune"%string;
                   jobSchema.datePosted := None;
                   jobSchema.icon := None |} emptyDb))
      = (Resolved res, db')
      /\ jsonMember "location" (body res) = Some (JString "Remote")
      /\ jsonMember "title" (body res) = Some (JString "Engineer")
      /\ jsonMember "datePosted" (body res) = Some (JDate 1000)
      /\ jsonMember "icon" (body res) = None.
Proof.
  split; [reflexivity |]. split; [reflexivity |].
  destruct (update_changes_only_supplied
              "000000000000000000000000"
              {| jobSchema.title := None; jobSchema.description := None;
                 jobSchema.location := Some "Remote"%string;
                 jobSchema.datePosted := None; jobSchema.icon := None |}
              (snd (post_api_jobs (atInstant 1000 1 1970 "")
                      {| jobSchema.title := Some "Engineer"%string;
                         jobSchema.description := None;
                         jobSchema.location := Some "Pune"%string;
                         jobSchema.datePosted := None;
                         jobSchema.icon := None |} emptyDb))
              0%N
              {| jobSchema.title := Some "Engineer"%string;
                 jobSchema.description := None;
                 jobSchema.location := Some "Pune"%string;
                 jobSchema.datePosted := Some 1000;
                 jobSchema.icon := None |}
              eq_refl eq_refl)
    as (res & new & db' & before & after & Hrun & _ & _ & _ & Hsup & Hkeep
        & _).
  exists res, db'. split; [exact Hrun |].
  split; [exact (proj2 (Hsup jobSchema.Location _ eq_refl)) |].
  split; [exact (proj2 (Hkeep jobSchema.Title eq_refl)) |].
  split; [exact (proj2 (Hkeep jobSchema.DatePosted eq_refl)) |].
  exact (proj2 (Hkeep jobSchema.Icon eq_refl)).
Defined.

(** C10, as the code has it.  When the path parameter casts to an ObjectId
    (24 hexadecimal digits) that no stored job carries, PUT answers 200 with
    a null body and DELETE answers 200 with message: Job deleted; neither
    changes the store.  When the path parameter does not cast, the query
    rejects and each route answers 500 with its generic error, again without
    changing the store. *)
Theorem missing_job_requests (id : string) (body : jobSchema.t) (db : Db) :
  (forall oid,
      castObjectId id = Some oid ->
      lookupById oid (Jobs db) = None ->
      put_api_jobs id body db
      = (Resolved {| status := 200; body := JNull |}, db)
      /\ delete_api_jobs id db
         = (Resolved {| status := 200;
                        body := JObject [("message"%string,
                                          JString "Job deleted")] |}, db))
  /\ (castObjectId id = None ->
      put_api_jobs id body db
      = (Resolved {| status := 500;
                     body := JObject [("error"%string,
                                       JString "Error updating job")] |}, db)
      /\ delete_api_jobs id db
         = (Resolved {| status := 500;
                        body := JObject [("error"%string,
                                          JString "Error deleting job")] |},
            db)).
Proof.
  rewrite put_api_jobs_run, delete_api_jobs_run. split.
  - intros oid Hcast Hnone. rewrite Hcast, Hnone. split; reflexivity.
  - intros Hcast. rewrite Hcast. split; reflexivity.
Qed.

Lemma missing_job_requests_witness :
  castObjectId "65f1c0ffee0123456789abcd" = Some 31550248529917454977124117453%N
  /\ lookupById 31550248529917454977124117453%N (Jobs emptyDb) = None
  /\ put_api_jobs "65f1c0ffee0123456789abcd"
       {| jobSchema.title := Some "Engineer"%string;
          jobSchema.description := None; jobSchema.location := None;
          jobSchema.datePosted := None; jobSchema.icon := None |} emptyDb
     = (Resolved {| status := 200; body := JNull |}, emptyDb)
  /\ delete_api_jobs "65f1c0ffee0123456789abcd" emptyDb
     = (Resolved {| status := 200;
                    body := JObject [("message"%string,
                                      JString "Job deleted")] |}, emptyDb).
Proof.
  split; [reflexivity |]. split; [reflexivity |].
  apply (proj1 (missing_job_requests "65f1c0ffee0123456789abcd" _ emptyDb)
           31550248529917454977124117453%N); reflexivity.
Defined.

(** C10 as stated fails for an identifier that is not an ObjectId: the
    query rejects and the catch clause answers 500, although no job record
    matches (the store holds none). *)
Lemma missing_job_requests_counterexample :
  Jobs emptyDb = []
  /\ put_api_jobs "abc"
       {| jobSchema.title := Some "Engineer"%string;
          jobSchema.description := None; jobSchema.location := None;
          jobSchema.datePosted := None; jobSchema.icon := None |} emptyDb
     = (Resolved {| status := 500;
                    body := JObject [("error"%string,
                                      JString "Error updating job")] |},
        emptyDb)
  /\ delete_api_jobs "abc" emptyDb
     = (Resolved {| status := 500;
                    body := JObject [("error"%string,
                                      JString "Error deleting job")] |},
        emptyDb).
Proof. repeat split. Qed.

(** *** Ids over a run of requests *)

Section JobIds.

Variable bcrypt_hash : string -> nat -> string -> string.
Variable bcrypt_compare : string -> string -> bool.

Let srv := serve bcrypt_hash bcrypt_compare.
Let run := serveAll bcrypt_hash bcrypt_compare.

Lemma serve_post_jobs (env : Env) (body : jobSchema.t) (db : Db) :
  srv env (POST_jobs body) db
  = (fst (srv env (POST_jobs body) db),
     {| objectIdCounter := N.succ (objectIdCounter db);
        References := References db; Visitors := Visitors db;
        Jobs :=
          Jobs db
            ++ [(objectIdCounter db,
                 {| jobSchema.title := jobSchema.title body;
                    jobSchema.description := jobSchema.description body;
                    jobSchema.location := jobSchema.location body;
                    jobSchema.datePosted :=
                      orElse (jobSchema.datePosted body) (Some (dateNow env));
                    jobSchema.icon := jobSchema.icon body |})];
        Users := Users db |}).
Proof. reflexivity. Qed.

Lemma serve_put_jobs (env : Env) id (body : jobSchema.t) (db : Db) :
  ids (Jobs (snd (srv env (PUT_jobs id body) db))) = ids (Jobs db)
  /\ objectIdCounter (snd (srv env (PUT_jobs id body) db))
     = objectIdCounter db.
Proof.
  unfold srv, serve, route. rewrite put_api_jobs_run.
  destruct (castObjectId id) as [oid |]; [| split; reflexivity].
  destruct (lookupById oid (Jobs db)); simpl; [| split; reflexivity].
  split; [apply ids_replaceById | reflexivity].
Qed.

Lemma serve_delete_jobs (env : Env) id (db : Db) :
  (Jobs (snd (srv env (DELETE_jobs id) db)) = Jobs db
   \/ exists oid, castObjectId id = Some oid
                  /\ Jobs (snd (srv env (DELETE_jobs id) db))
                     = deleteById oid (Jobs db))
  /\ objectIdCounter (snd (srv env (DELETE_jobs id) db))
     = objectIdCounter db.
Proof.
  unfold srv, serve, route. rewrite delete_api_jobs_run.
  destruct (castObjectId id) as [oid |]; [| split; [left |]; reflexivity].
  destruct (lookupById oid (Jobs db)); simpl;
    [| split; [left |]; reflexivity].
  split; [right; exists oid; split; reflexivity | reflexivity].
Qed.

Lemma Forall_lt_mono (l : list ObjectId) (a b : ObjectId) :
  (a <= b)%N ->
  Forall (fun oid => (oid < a)%N) l -> Forall (fun oid => (oid < b)%N) l.
Proof.
  intros Hab. apply Forall_impl. intros oid Hlt. lia.
Qed.

Lemma serve_wfJobs (env : Env) (req : Request) (db : Db) :
  wfJobs db -> wfJobs (snd (srv env req db)).
Proof.
  intros [Hnd Hlt].
  assert (Hother :
           Jobs (snd (srv env req db)) = Jobs db ->
           wfJobs (snd (srv env req db))).
  { intros Hsame. unfold wfJobs. rewrite Hsame. split; [exact Hnd |].
    apply (Forall_lt_mono _ (objectIdCounter db)); [| exact Hlt].
    apply serve_counter_mono. }
  destruct req;
    try (apply Hother; apply serve_keeps_Jobs; exact I).
  - rewrite serve_post_jobs. unfold wfJobs. simpl.
    rewrite ids_app. simpl. split.
    + apply NoDup_app; [exact Hnd | repeat constructor; intros [] |].
      intros oid Hin [<- | []].
      rewrite Forall_forall in Hlt. specialize (Hlt _ Hin). lia.
    + apply Forall_app. split.
      * apply (Forall_lt_mono _ (objectIdCounter db)); [lia | exact Hlt].
      * repeat constructor. lia.
  - destruct (serve_put_jobs env id body0 db) as [Hids Hctr].
    unfold wfJobs. rewrite Hids, Hctr. split; assumption.
  - destruct (serve_delete_jobs env id db) as [[Hsame | (oid & _ & Hdel)] Hctr].
    + apply Hother. exact Hsame.
    + unfold wfJobs. rewrite Hdel, Hctr. split.
      * apply NoDup_deleteById. exact Hnd.
      * rewrite Forall_forall in *. intros i Hin.
        apply Hlt. now apply In_ids_deleteById in Hin.
Qed.

Lemma serve_retired (oid : ObjectId) (env : Env) (req : Request) (db : Db) :
  retired oid db -> retired oid (snd (srv env req db)).
Proof.
  intros [Hlt Hnot].
  assert (Hother :
           Jobs (snd (srv env req db)) = Jobs db ->
           retired oid (snd (srv env req db))).
  { intros Hsame. unfold retired. rewrite Hsame. split; [| exact Hnot].
    pose proof (serve_counter_mono bcrypt_hash bcrypt_compare env req db).
    unfold srv. lia. }
  destruct req;
    try (apply Hother; apply serve_keeps_Jobs; exact I).
  - rewrite serve_post_jobs. unfold retired. simpl.
    rewrite ids_app. simpl. split; [lia |].
    rewrite in_app_iff. simpl. intros [Hin | [Heq | []]]; [tauto | lia].
  - destruct (serve_put_jobs env id body0 db) as [Hids Hctr].
    unfold retired. rewrite Hids, Hctr. split; assumption.
  - destruct (serve_delete_jobs env id db) as [[Hsame | (o & _ & Hdel)] Hctr].
    + apply Hother. exact Hsame.
    + unfold retired. rewrite Hdel, Hctr. split; [exact Hlt |].
      intros Hin. apply Hnot. now apply In_ids_deleteById in Hin.
Qed.

Lemma serveAll_snd_cons (env : Env) (req : Request) reqs (db : Db) :
  snd (run ((env, req) :: reqs) db)
  = snd (run reqs (snd (srv env req db))).
Proof.
  unfold run, srv.
  rewrite (serveAll_cons bcrypt_hash bcrypt_compare). reflexivity.
Qed.

Lemma serveAll_wfJobs reqs :
  forall db, wfJobs db -> wfJobs (snd (run reqs db)).
Proof.
  induction reqs as [| [env req] reqs IH]; intros db Hwf; [exact Hwf |].
  rewrite serveAll_snd_cons. apply IH, serve_wfJobs, Hwf.
Qed.

Lemma serveAll_retired (oid : ObjectId) reqs :
  forall db, retired oid db -> retired oid (snd (run reqs db)).
Proof.
  induction reqs as [| [env req] reqs IH]; intros db Hret; [exact Hret |].
  rewrite serveAll_snd_cons. apply IH, serve_retired, Hret.
Qed.

Lemma wfJobs_emptyDb : wfJobs emptyDb.
Proof. split; constructor. Qed.

(** Deleting by the id of a stored job retires the id. *)
Lemma delete_retires (env : Env) id (oid : ObjectId) (db : Db) :
  wfJobs db -> castObjectId id = Some oid ->
  (oid < objectIdCounter db)%N ->
  retired oid (snd (srv env (DELETE_jobs id) db)).
Proof.
  intros [Hnd Hlt] Hcast Hissued.
  unfold srv, serve, route. rewrite delete_api_jobs_run, Hcast.
  destruct (lookupById oid (Jobs db)) eqn:Hfound; simpl.
  - split; [exact Hissued | apply deleteById_removes; exact Hnd].
  - split; [exact Hissued | apply lookupById_None; exact Hfound].
Qed.

Lemma serveAll_counter_mono reqs :
  forall db, (objectIdCounter db <= objectIdCounter (snd (run reqs db)))%N.
Proof.
  induction reqs as [| [env req] reqs IH]; intros db; [simpl; lia |].
  rewrite serveAll_snd_cons.
  pose proof (serve_counter_mono bcrypt_hash bcrypt_compare env req db).
  specialize (IH (snd (srv env req db))). unfold srv in *. lia.
Qed.

End JobIds.

(** C9.  On any store reached from the fresh one: POST /api/jobs answers
    201 with the created document, which is stored under its id; its
    datePosted is the payload's when it supplies one and the creation time
    otherwise, the other paths being those of the payload, and the body
    carries the id under _id and every path under its name; a listing made
    next contains that body as an item; and once a DELETE on its
    identifier has been served, whatever requests were served in between
    and whatever requests follow, the id is stored no more and no later
    listing, whose items carry the ids of the stored jobs, has an item with
    that id. *)
Theorem job_lifecycle
  (bcrypt_hash : string -> nat -> string -> string)
  (bcrypt_compare : string -> string -> bool)
  (history : list (Env * Request)) (env : Env) (payload : jobSchema.t) :
  exists res created db1,
    serve bcrypt_hash bcrypt_compare env (POST_jobs payload)
      (snd (serveAll bcrypt_hash bcrypt_compare history emptyDb))
    = (res, db1)
    /\ status res = 201
    /\ jsonMember "_id" (body res) = Some (JObjectId (_id created))
    /\ (forall p,
           jsonMember (pathName p) (body res)
           = option_map valueJson (jobSchema.get p (fields created)))
    /\ lookupById (_id created) (Jobs db1) = Some (fields created)
    /\ jobSchema.datePosted (fields created)
       = Some match jobSchema.datePosted payload with
              | Some supplied => supplied
              | None => dateNow env
              end
    /\ jobSchema.title (fields created) = jobSchema.title payload
    /\ jobSchema.description (fields created) = jobSchema.description payload
    /\ jobSchema.location (fields created) = jobSchema.location payload
    /\ jobSchema.icon (fields created) = jobSchema.icon payload
    /\ (forall envl,
           exists items,
             fst (serve bcrypt_hash bcrypt_compare envl GET_jobs db1)
             = {| status := 200; body := JArray items |}
             /\ In (body res) items)
    /\ (forall between id envd later envl,
           castObjectId id = Some (_id created) ->
           let deleted :=
             serve bcrypt_hash bcrypt_compare envd (DELETE_jobs id)
               (snd (serveAll bcrypt_hash bcrypt_compare between db1)) in
           let db3 :=
             snd (serveAll bcrypt_hash bcrypt_compare later (snd deleted)) in
           fst deleted
           = {| status := 200;
                body := JObject [("message"%string,
                                  JString "Job deleted")] |}
           /\ lookupById (_id created) (Jobs db3) = None
           /\ exists items,
               fst (serve bcrypt_hash bcrypt_compare envl GET_jobs db3)
               = {| status := 200; body := JArray items |}
               /\ map (jsonMember "_id") items
                  = map (fun oid => Some (JObjectId oid)) (ids (Jobs db3))
               /\ ~ In (Some (JObjectId (_id created)))
                       (map (jsonMember "_id") items)).
Proof.
  set (db := snd (serveAll bcrypt_hash bcrypt_compare history emptyDb)).
  assert (Hwf : wfJobs db)
    by (apply serveAll_wfJobs, wfJobs_emptyDb).
  rewrite (serve_post_jobs bcrypt_hash bcrypt_compare env payload db).
  set (created :=
         {| _id := objectIdCounter db; isNew := false;
            fields :=
              {| jobSchema.title := jobSchema.title payload;
                 jobSchema.description := jobSchema.description payload;
                 jobSchema.location := jobSchema.location payload;
                 jobSchema.datePosted :=
                   orElse (jobSchema.datePosted payload)
                          (Some (dateNow env));
                 jobSchema.icon := jobSchema.icon payload |} |}).
  assert (Hres : fst (serve bcrypt_hash bcrypt_compare env
                        (POST_jobs payload) db)
                 = statusJson 201 (jobJson created)) by reflexivity.
  destruct (jobJson_members created) as [Hid Hpaths].
  eexists. exists created. eexists. split; [reflexivity |].
  rewrite Hres. cbn [status body statusJson].
  split; [reflexivity |].
  split; [exact Hid |].
  split; [exact Hpaths |].
  cbn [fields _id created jobSchema.datePosted jobSchema.title
         jobSchema.description jobSchema.location jobSchema.icon Jobs].
  split.
  { apply lookupById_app_found. destruct Hwf as [_ Hlt].
    intros Hin. rewrite Forall_forall in Hlt. specialize (Hlt _ Hin). lia. }
  split; [destruct (jobSchema.datePosted payload); reflexivity |].
  do 4 (split; [reflexivity |]).
  split.
  - intros envl. eexists. split; [reflexivity |].
    cbn [Jobs]. rewrite map_app, map_app. apply in_or_app. right.
    left. reflexivity.
  - intros between id envd later envl Hcast. cbv zeta.
    match goal with
    | |- context [serveAll _ _ between ?d] => set (db1 := d)
    end.
    assert (Hwf1 : wfJobs db1)
      by (apply (serve_wfJobs bcrypt_hash bcrypt_compare env
                   (POST_jobs payload) db Hwf)).
    set (db2 := snd (serveAll bcrypt_hash bcrypt_compare between db1)).
    assert (Hwf2 : wfJobs db2) by (apply serveAll_wfJobs, Hwf1).
    assert (Hissued : (objectIdCounter db < objectIdCounter db2)%N).
    { pose proof (serveAll_counter_mono bcrypt_hash bcrypt_compare between db1)
        as Hmono.
      fold db2 in Hmono. subst db1. simpl in Hmono. lia. }
    split.
    + unfold serve, route. rewrite delete_api_jobs_run, Hcast.
      destruct (lookupById (objectIdCounter db) (Jobs db2)); reflexivity.
    + pose proof (delete_retires bcrypt_hash bcrypt_compare envd id
                    (objectIdCounter db) db2 Hwf2 Hcast Hissued) as Hret.
      apply (serveAll_retired bcrypt_hash bcrypt_compare _ later) in Hret.
      destruct Hret as [_ Hnot].
      split; [apply lookupById_None; exact Hnot |].
      eexists. split; [reflexivity |].
      assert (Hids :
               forall jobs : Collection jobSchema.t,
                 map (jsonMember "_id") (map jobJson (map asDocument jobs))
                 = map (fun oid => Some (JObjectId oid)) (ids jobs)).
      { intros jobs. unfold ids. rewrite !map_map. apply map_ext.
        intros [oid j]. apply jobJson_members. }
      split; [apply Hids |].
      rewrite Hids. intros Hin.
      apply in_map_iff in Hin as (oid & Heq & Hin).
      injection Heq as ->. exact (Hnot Hin).
Qed.

Example job_lifecycle_run :
  fst (serveAll stubHash stubCompare
         [(atInstant 1000 1 1970 "",
           POST_jobs {| jobSchema.title := Some "Engineer"%string;
                        jobSchema.description := None;
                        jobSchema.location := Some "Pune"%string;
                        jobSchema.datePosted := None;
                        jobSchema.icon := None |});
          (atInstant 2000 1 1970 "", GET_jobs);
          (atInstant 3000 1 1970 "",
           DELETE_jobs "000000000000000000000000");
          (atInstant 4000 1 1970 "", GET_jobs)]
         emptyDb)
  = [statusJson 201
       (JObject [("_id"%string, JObjectId 0%N);
                 ("title"%string, JString "Engineer");
                 ("location"%string, JString "Pune");
                 ("datePosted"%string, JDate 1000);
                 ("__v"%string, JNumber 0)]);
     json (JArray
             [JObject [("_id"%string, JObjectId 0%N);
                       ("title"%string, JString "Engineer");
                       ("location"%string, JString "Pune");
                       ("datePosted"%string, JDate 1000);
                       ("__v"%string, JNumber 0)]]);
     json (messageBody "Job deleted");
     json (JArray [])].
Proof. reflexivity. Qed.

(** ** Identifiers as strings *)

Lemma hexDigit_hexChar (d : N) : (d < 16)%N -> hexDigit (hexChar d) = Some d.
Proof.
  intros Hd.
  assert (Hcases : (d = 0 \/ d = 1 \/ d = 2 \/ d = 3 \/ d = 4 \/ d = 5
                    \/ d = 6 \/ d = 7 \/ d = 8 \/ d = 9 \/ d = 10 \/ d = 11
                    \/ d = 12 \/ d = 13 \/ d = 14 \/ d = 15)%N) by lia.
  repeat (destruct Hcases as [-> | Hcases]; [reflexivity |]).
  subst d; reflexivity.
Qed.

Lemma hexOnto_length (width : nat) :
  forall n acc,
    String.length (hexOnto width n acc) = (width + String.length acc)%nat.
Proof.
  induction width as [| width IH]; intros n acc; simpl; [reflexivity |].
  rewrite IH. simpl. lia.
Qed.

Lemma parseHex_hexOnto (width : nat) :
  forall n acc a,
    (n < 16 ^ N.of_nat width)%N ->
    parseHex (hexOnto width n acc) a
    = parseHex acc (a * 16 ^ N.of_nat width + n)%N.
Proof.
  induction width as [| width IH]; intros n acc a Hn.
  - simpl in *. f_equal. lia.
  - cbn [hexOnto].
    assert (Hpow : (16 ^ N.of_nat (S width) = 16 * 16 ^ N.of_nat width)%N)
      by (rewrite Nat2N.inj_succ, N.pow_succ_r'; reflexivity).
    rewrite Hpow in *.
    rewrite IH by (apply N.Div0.div_lt_upper_bound; exact Hn).
    cbn [parseHex].
    rewrite hexDigit_hexChar by (apply N.mod_lt; discriminate).
    f_equal. pose proof (N.div_mod n 16 ltac:(discriminate)). lia.
Qed.

(** Every 96-bit ObjectId is reachable through a path parameter. *)
Lemma castObjectId_toHexString (oid : ObjectId) :
  (oid < 2 ^ 96)%N -> castObjectId (toHexString oid) = Some oid.
Proof.
  intros Hoid. unfold castObjectId, toHexString.
  rewrite hexOnto_length. simpl Nat.eqb.
  rewrite parseHex_hexOnto by (simpl N.of_nat; exact Hoid).
  simpl. reflexivity.
Qed.

(** ** Every handler answers *)

Lemma route_resolves
      (bcrypt_hash : string -> nat -> string -> string)
      (bcrypt_compare : string -> string -> bool)
      (env : Env) (req : Request) (db : Db) :
  exists res db',
    route bcrypt_hash bcrypt_compare env req db = (Resolved res, db').
Proof.
  destruct req.
  - cbn [route]. rewrite post_api_reference_run. eauto.
  - cbn [route]. rewrite post_api_jobs_run. eauto.
  - cbn [route]. rewrite get_api_jobs_run. eauto.
  - cbn [route]. rewrite put_api_jobs_run.
    destruct (castObjectId id); [destruct (lookupById _ _) |]; eauto.
  - cbn [route]. rewrite delete_api_jobs_run.
    destruct (castObjectId id); [destruct (lookupById _ _) |]; eauto.
  - cbn [route].
    destruct (post_api_register_run bcrypt_hash env body0 db)
      as (db' & Hrun & _).
    destruct (password body0); cbv zeta in Hrun;
      [destruct (_ && _) in Hrun |]; destruct Hrun as [-> _]; eauto.
  - cbn [route]. rewrite post_api_login_run. eauto.
  - cbn [route].
    destruct (get_api_visitorCount_run env db) as (db' & -> & _). eauto.
Qed.

(** ** The two visitor counters agree

    The in-process variant answers as the store-backed one does on a store
    that already holds the corresponding record, when all clock reads of the
    request return the same instant. *)
Lemma visitor_variants_agree
      (now month year : Z) (entropy : string)
      (v : InProcess.Vars) (db : Db) (oid : ObjectId) rest :
  Visitors db = (oid, asVisitor v) :: rest ->
  exists db',
    get_api_visitorCount (atInstant now month year entropy) db
    = (Resolved (fst (InProcess.get_api_visitorCount now v)), db')
    /\ Visitors db'
       = (oid, asVisitor (snd (InProcess.get_api_visitorCount now v))) :: rest.
Proof.
  intros Hv.
  destruct (get_api_visitorCount_run (atInstant now month year entropy) db)
    as (db' & Hrun & _ & _ & _ & Hvis).
  rewrite Hv in Hvis. destruct Hvis as [Hvis _].
  exists db'. rewrite Hrun, Hvis.
  unfold visitorAtHand, visitorAfter, hourPassed, asVisitor,
    InProcess.get_api_visitorCount. rewrite Hv. simpl.
  destruct (now - InProcess.lastIncrementTime v >=? 3600000);
    simpl; split; reflexivity.
Qed.

(** * Further properties *)

(** ** When store calls reject *)

Ltac unfold_any_handlers :=
  unfold AnyStore.route, AnyStore.post_api_reference,
    AnyStore.getNextReferenceNumber, AnyStore.post_api_jobs,
    AnyStore.get_api_jobs, AnyStore.put_api_jobs, AnyStore.delete_api_jobs,
    AnyStore.post_api_register, AnyStore.post_api_login,
    AnyStore.get_api_visitorCount, Job.construct,
    tryCatch, bind, ret, throw, construct.

(** On the model of the document store these are the handlers of the first
    part. *)
Lemma AnyStore_route_mongoose
      (bcrypt_hash : string -> nat -> string -> string)
      (bcrypt_compare : string -> string -> bool)
      (env : Env) (req : Request) :
  AnyStore.route mongoose bcrypt_hash bcrypt_compare env req
  = route bcrypt_hash bcrypt_compare env req.
Proof. destruct req; reflexivity. Qed.

(** X1.  Whatever the store calls do, resolve or reject, every route
    resolves to a response: no rejection of an awaited call escapes a
    handler.  The response has status 200, 201, 400 or 500; a 500 carries
    exactly the generic message of the route's catch clause, whatever the
    error was, and a 400 comes from the login route only, with its one
    credentials message. *)
Theorem handlers_catch_everything
  (store : Store)
  (bcrypt_hash : string -> nat -> string -> string)
  (bcrypt_compare : string -> string -> bool)
  (env : Env) (req : Request) (db : Db) :
  exists res db',
    AnyStore.route store bcrypt_hash bcrypt_compare env req db
    = (Resolved res, db')
    /\ (status res = 200 \/ status res = 201
        \/ status res = 400 \/ status res = 500)
    /\ (status res = 500 ->
        res = statusJson 500 (errorBody (catchMessage req)))
    /\ (status res = 400 ->
        (exists body, req = POST_login body)
        /\ res = statusJson 400 (errorBody "Invalid username or password")).
Proof.
  destruct req; unfold_any_handlers; simpl; split_cases;
    do 2 eexists; (split; [reflexivity |]); simpl;
    (split; [tauto |]); split; intros Hst;
    try discriminate; try reflexivity;
    try (split; [eexists; reflexivity | reflexivity]).
Qed.

(** X2.  The reference generator over any store.  If [findOne] rejects, or
    it resolves and [save] rejects, the generator rejects with the one
    error Could not generate reference number, whatever the cause, the
    route answers 500 with Error generating reference number, and the store
    is as the rejected call left it.  Conversely a 200 answer means that
    [save] resolved, and the number in it is formatted from the count of the
    document [save] resolved to: no number is handed out without a
    successful write. *)
Theorem reference_number_needs_a_write
  (store : Store) (env : Env) (db : Db) :
  (forall e db1,
      Reference_findOne store db = (Rejected e, db1) ->
      AnyStore.getNextReferenceNumber store env db
      = (Rejected (Thrown "Could not generate reference number"), db1)
      /\ AnyStore.post_api_reference store env db
         = (Resolved (statusJson 500
                        (errorBody "Error generating reference number")),
            db1))
  /\ (forall found db1 e db2,
         Reference_findOne store db = (Resolved found, db1) ->
         Reference_save store (fst (referenceToSave found db1))
                        (snd (referenceToSave found db1))
         = (Rejected e, db2) ->
         AnyStore.getNextReferenceNumber store env db
         = (Rejected (Thrown "Could not generate reference number"), db2)
         /\ AnyStore.post_api_reference store env db
            = (Resolved (statusJson 500
                           (errorBody "Error generating reference number")),
               db2))
  /\ (forall res db',
         AnyStore.post_api_reference store env db = (Resolved res, db') ->
         status res = 200 ->
         exists found db1 written,
           Reference_findOne store db = (Resolved found, db1)
           /\ Reference_save store (fst (referenceToSave found db1))
                             (snd (referenceToSave found db1))
              = (Resolved written, db')
           /\ res = json (referenceNumberBody
                            (formatReference
                               (referenceSchema.count (fields written))
                               (localeMonth env) (fullYear env)))).
Proof.
  split; [| split].
  - intros e db1 Hfind.
    unfold AnyStore.post_api_reference, AnyStore.getNextReferenceNumber,
      tryCatch, bind, throw, ret.
    rewrite Hfind. split; reflexivity.
  - intros found db1 e db2 Hfind Hsave.
    unfold AnyStore.post_api_reference, AnyStore.getNextReferenceNumber,
      tryCatch, bind, throw, ret, construct.
    rewrite Hfind.
    destruct found as [r |]; simpl in Hsave |- *; rewrite Hsave;
      split; reflexivity.
  - intros res db' Hrun Hok.
    unfold AnyStore.post_api_reference, AnyStore.getNextReferenceNumber,
      tryCatch, bind, throw, ret, construct in Hrun.
    destruct (Reference_findOne store db) as [[found | e] db1] eqn:Hfind;
      [| injection Hrun as <- <-; discriminate].
    exists found, db1.
    destruct found as [r |]; simpl in *.
    + destruct (Reference_save store _ db1) as [[written | e] db2] eqn:Hsave;
        injection Hrun as <- <-; [| discriminate].
      exists written. repeat split.
    + destruct (Reference_save store _ _) as [[written | e] db2] eqn:Hsave;
        injection Hrun as <- <-; [| discriminate].
      exists written. repeat split.
Qed.

Lemma reference_number_needs_a_write_witness :
  AnyStore.post_api_reference unreachable (atInstant 0 11 2026 "") emptyDb
  = (Resolved (statusJson 500 (errorBody "Error generating reference number")),
     emptyDb)
  /\ AnyStore.getNextReferenceNumber readOnly (atInstant 0 11 2026 "") emptyDb
     = (Rejected (Thrown "Could not generate reference number"),
        {| objectIdCounter := 1%N; References := []; Visitors := [];
           Jobs := []; Users := [] |}).
Proof.
  destruct (reference_number_needs_a_write unreachable
              (atInstant 0 11 2026 "") emptyDb) as (Hfind & _ & _).
  destruct (reference_number_needs_a_write readOnly
              (atInstant 0 11 2026 "") emptyDb) as (_ & Hsave & _).
  split.
  - exact (proj2 (Hfind (Thrown "ECONNREFUSED") emptyDb eq_refl)).
  - exact (proj1 (Hsave None emptyDb (Thrown "not primary") _
                    eq_refl eq_refl)).
Defined.

(** ** What the routes leave alone *)

(** X3.  Each route writes to its own collection only: the reference route
    leaves visitors, jobs and users as they are; the three writing job
    routes leave references, visitors and users; registration leaves
    references, visitors and jobs; the visitor counter leaves references,
    jobs and users; and the job listing and the login leave the whole store
    exactly as it was. *)
Theorem routes_write_own_collection
  (bcrypt_hash : string -> nat -> string -> string)
  (bcrypt_compare : string -> string -> bool)
  (env : Env) (req : Request) (db : Db) :
  match req with
  | POST_reference =>
      Visitors (snd (serve bcrypt_hash bcrypt_compare env req db))
      = Visitors db
      /\ Jobs (snd (serve bcrypt_hash bcrypt_compare env req db)) = Jobs db
      /\ Users (snd (serve bcrypt_hash bcrypt_compare env req db)) = Users db
  | POST_jobs _ | PUT_jobs _ _ | DELETE_jobs _ =>
      References (snd (serve bcrypt_hash bcrypt_compare env req db))
      = References db
      /\ Visitors (snd (serve bcrypt_hash bcrypt_compare env req db))
         = Visitors db
      /\ Users (snd (serve bcrypt_hash bcrypt_compare env req db)) = Users db
  | POST_register _ =>
      References (snd (serve bcrypt_hash bcrypt_compare env req db))
      = References db
      /\ Visitors (snd (serve bcrypt_hash bcrypt_compare env req db))
         = Visitors db
      /\ Jobs (snd (serve bcrypt_hash bcrypt_compare env req db)) = Jobs db
  | GET_visitorCount =>
      References (snd (serve bcrypt_hash bcrypt_compare env req db))
      = References db
      /\ Jobs (snd (serve bcrypt_hash bcrypt_compare env req db)) = Jobs db
      /\ Users (snd (serve bcrypt_hash bcrypt_compare env req db)) = Users db
  | GET_jobs | POST_login _ =>
      snd (serve bcrypt_hash bcrypt_compare env req db) = db
  end.
Proof.
  destruct req; unfold_handlers; simpl; split_cases; repeat split.
Qed.

(** ** The user collection over a run of requests *)

Lemma existsb_named_false (name : string) (l : Collection userSchema.t) :
  existsb (named name) l = false ->
  ~ In name (map (fun e => userSchema.username (snd e)) l).
Proof.
  induction l as [| [oid u] l IH]; simpl; intros Hnone; [tauto |].
  apply orb_false_iff in Hnone as [Hu Hl].
  intros [Heq | Hin]; [| exact (IH Hl Hin)].
  unfold named in Hu. simpl in Hu. rewrite Heq, String.eqb_refl in Hu.
  discriminate.
Qed.

Lemma find_app_some {A} (f : A -> bool) (l extra : list A) (x : A) :
  find f l = Some x -> find f (l ++ extra) = Some x.
Proof.
  induction l as [| a l IH]; simpl; [discriminate |].
  destruct (f a); [trivial | exact IH].
Qed.

Section Users.

Variable bcrypt_hash : string -> nat -> string -> string.
Variable bcrypt_compare : string -> string -> bool.

(** A request either leaves the user collection as it is or, when it is a
    registration of a non-empty name nobody carries, appends one user. *)
Lemma serve_Users_cases (env : Env) (req : Request) (db : Db) :
  Users (snd (serve bcrypt_hash bcrypt_compare env req db)) = Users db
  \/ exists body text,
      req = POST_register body
      /\ password body = Some text
      /\ User.nonEmpty (username body) = true
      /\ existsb (named (username body)) (Users db) = false
      /\ Users (snd (serve bcrypt_hash bcrypt_compare env req db))
         = Users db
             ++ [(objectIdCounter db,
                  {| userSchema.username := username body;
                     userSchema.password :=
                       bcrypt_hash text 8 (salt env) |})].
Proof.
  destruct req;
    try (left; unfold_handlers; simpl; split_cases; reflexivity).
  unfold serve, route.
  destruct (post_api_register_run bcrypt_hash env body0 db)
    as (db' & Hrun & _).
  destruct (password body0) as [text |] eqn:Hpass;
    [| destruct Hrun as [Hrun Hsame]; rewrite Hrun; left; exact Hsame].
  simpl in Hrun.
  destruct (User.nonEmpty (username body0)) eqn:Hname; simpl in Hrun;
    [| destruct Hrun as [Hrun Hsame]; rewrite Hrun; left; exact Hsame].
  destruct (User.nonEmpty (bcrypt_hash text 8 (salt env)));
    simpl in Hrun;
    [| destruct Hrun as [Hrun Hsame]; rewrite Hrun; left; exact Hsame].
  destruct (existsb (named (username body0)) (Users db)) eqn:Hfree;
    simpl in Hrun; destruct Hrun as [Hrun Husers]; rewrite Hrun;
    [left; exact Husers |].
  right. exists body0, text. repeat split; assumption.
Qed.

Lemma serveAll_snd_step (env : Env) (req : Request) reqs (db : Db) :
  snd (serveAll bcrypt_hash bcrypt_compare ((env, req) :: reqs) db)
  = snd (serveAll bcrypt_hash bcrypt_compare reqs
           (snd (serve bcrypt_hash bcrypt_compare env req db))).
Proof. rewrite serveAll_cons. reflexivity. Qed.

Lemma serveAll_usernames reqs :
  forall db,
    NoDup (usernames db) /\ Forall (fun name => name <> EmptyString)
                                   (usernames db) ->
    NoDup (usernames (snd (serveAll bcrypt_hash bcrypt_compare reqs db)))
    /\ Forall (fun name => name <> EmptyString)
              (usernames (snd (serveAll bcrypt_hash bcrypt_compare reqs db))).
Proof.
  induction reqs as [| [env req] reqs IH]; intros db Hinv; [exact Hinv |].
  rewrite serveAll_snd_step. apply IH. destruct Hinv as [Hnd Hne].
  unfold usernames in *.
  destruct (serve_Users_cases env req db)
    as [-> | (body & text & _ & _ & Hname & Hfree & ->)];
    [split; assumption |].
  rewrite map_app. simpl. split.
  - apply NoDup_app; [exact Hnd | repeat constructor; intros [] |].
    intros name Hin [<- | []].
    exact (existsb_named_false _ _ Hfree Hin).
  - apply Forall_app. split; [exact Hne |].
    repeat constructor. intros Heq. rewrite Heq in Hname. discriminate.
Qed.

Lemma serveAll_Users_grow reqs :
  forall db,
    exists added,
      Users (snd (serveAll bcrypt_hash bcrypt_compare reqs db))
      = Users db ++ added.
Proof.
  induction reqs as [| [env req] reqs IH]; intros db.
  - exists []. simpl. now rewrite app_nil_r.
  - rewrite serveAll_snd_step.
    destruct (IH (snd (serve bcrypt_hash bcrypt_compare env req db)))
      as (added & ->).
    destruct (serve_Users_cases env req db)
      as [-> | (body & text & _ & _ & _ & _ & ->)].
    + exists added. reflexivity.
    + eexists. rewrite <- app_assoc. reflexivity.
Qed.

End Users.

(** X4.  Over every run of requests from the fresh store the stored
    usernames are pairwise distinct and none is empty; and on any store
    whose usernames are distinct and non-empty, a run keeps them so. *)
Theorem usernames_stay_unique
  (bcrypt_hash : string -> nat -> string -> string)
  (bcrypt_compare : string -> string -> bool)
  (reqs : list (Env * Request)) :
  (NoDup (usernames (snd (serveAll bcrypt_hash bcrypt_compare reqs emptyDb)))
   /\ Forall (fun name => name <> EmptyString)
             (usernames
                (snd (serveAll bcrypt_hash bcrypt_compare reqs emptyDb))))
  /\ (forall db,
         NoDup (usernames db) ->
         Forall (fun name => name <> EmptyString) (usernames db) ->
         NoDup (usernames (snd (serveAll bcrypt_hash bcrypt_compare reqs db)))
         /\ Forall (fun name => name <> EmptyString)
                   (usernames
                      (snd (serveAll bcrypt_hash bcrypt_compare reqs db)))).
Proof.
  split.
  - apply serveAll_usernames. split; constructor.
  - intros db Hnd Hne. apply serveAll_usernames. split; assumption.
Qed.

(** X5.  No request changes or removes a stored user: after any run of
    requests the user collection is the old one with users appended.  So a
    login that succeeds keeps succeeding, with the same response, whatever
    requests are served in between. *)
Theorem users_are_never_changed
  (bcrypt_hash : string -> nat -> string -> string)
  (bcrypt_compare : string -> string -> bool)
  (reqs : list (Env * Request)) (db : Db) :
  (exists added,
      Users (snd (serveAll bcrypt_hash bcrypt_compare reqs db))
      = Users db ++ added)
  /\ (forall body,
         fst (post_api_login bcrypt_compare body db)
         = Resolved (json (loginBody (username body))) ->
         fst (post_api_login bcrypt_compare body
                (snd (serveAll bcrypt_hash bcrypt_compare reqs db)))
         = Resolved (json (loginBody (username body)))).
Proof.
  destruct (serveAll_Users_grow bcrypt_hash bcrypt_compare reqs db)
    as (added & Hgrow).
  split; [exists added; exact Hgrow |].
  intros body. rewrite !post_api_login_run, Hgrow. simpl fst.
  destruct (find (named (username body)) (Users db)) as [[oid user] |] eqn:Hf.
  - rewrite (find_app_some _ _ added _ Hf). trivial.
  - discriminate.
Qed.

Example users_are_never_changed_run :
  fst (serveAll stubHash stubCompare
         [(atInstant 0 1 1970 "s1",
           POST_register {| username := "alice";
                            password := Some "secret"%string |});
          (atInstant 1 1 1970 "s2",
           POST_register {| username := "alice";
                            password := Some "other"%string |});
          (atInstant 2 1 1970 "s3",
           POST_register {| username := "";
                            password := Some "x"%string |});
          (atInstant 3 1 1970 "s4",
           POST_register {| username := "carol"; password := None |});
          (atInstant 4 1 1970 "",
           POST_login {| username := "alice";
                         password := Some "secret"%string |});
          (atInstant 5 1 1970 "",
           POST_login {| username := "alice";
                         password := Some "other"%string |});
          (atInstant 6 1 1970 "",
           POST_login {| username := "alice"; password := None |});
          (atInstant 7 1 1970 "",
           POST_login {| username := "carol"; password := None |})]
         emptyDb)
  = [registrationSuccess; registrationError; registrationError;
     registrationError; json (loginBody "alice"); loginError;
     statusJson 500 (errorBody "Error logging in"); loginError].
Proof. reflexivity. Qed.

(** ** Reference numbers across other traffic *)

Lemma nextCount_serve
      (bcrypt_hash : string -> nat -> string -> string)
      (bcrypt_compare : string -> string -> bool)
      (env : Env) (req : Request) (db : Db) :
  nextCount (snd (serve bcrypt_hash bcrypt_compare env req db))
  = if isReferencePost (env, req) then Js.plus (nextCount db) 1
    else nextCount db.
Proof.
  pose proof (serve_References bcrypt_hash bcrypt_compare env req db) as Hrefs.
  unfold nextCount at 1. rewrite Hrefs.
  destruct (isReferencePost (env, req)).
  - apply nextCount_afterReference.
  - reflexivity.
Qed.

Lemma nextCount_serveAll
      (bcrypt_hash : string -> nat -> string -> string)
      (bcrypt_compare : string -> string -> bool) reqs :
  forall db,
    - 2 ^ 53 <= nextCount db ->
    nextCount db + referencePosts reqs <= 2 ^ 53 ->
    nextCount (snd (serveAll bcrypt_hash bcrypt_compare reqs db))
    = nextCount db + referencePosts reqs.
Proof.
  induction reqs as [| [env req] reqs IH]; intros db Hlow Hup.
  - unfold referencePosts. simpl. lia.
  - pose proof (referencePosts_nonneg reqs) as Hnn.
    rewrite referencePosts_cons in *.
    rewrite serveAll_snd_step.
    pose proof (nextCount_serve bcrypt_hash bcrypt_compare env req db)
      as Hstep.
    destruct (isReferencePost (env, req)).
    + rewrite plus_one_exact in Hstep by lia.
      rewrite IH; rewrite Hstep; lia.
    + rewrite IH; rewrite Hstep; lia.
Qed.

(** X6.  Reference numbers never repeat, whatever else the server does in
    between, while the counts stay within the integers a Number holds
    exactly.  On a store whose next count is not negative, take two
    reference requests with any run of requests between them, the second
    count being at most 2^53: the second number's count portion is the
    first's plus 1 plus the number of reference requests served in between,
    so it is strictly larger and the two strings differ. *)
Theorem reference_numbers_never_repeat
  (bcrypt_hash : string -> nat -> string -> string)
  (bcrypt_compare : string -> string -> bool)
  (db : Db) (env1 env2 : Env) (between : list (Env * Request)) :
  0 <= nextCount db ->
  nextCount db + 1 + referencePosts between <= 2 ^ 53 ->
  exists ref1 ref2,
    fst (serve bcrypt_hash bcrypt_compare env1 POST_reference db)
    = {| status := 200;
         body := JObject [("reference_number"%string, JString ref1)] |}
    /\ fst (serve bcrypt_hash bcrypt_compare env2 POST_reference
              (snd (serveAll bcrypt_hash bcrypt_compare between
                      (snd (serve bcrypt_hash bcrypt_compare env1
                              POST_reference db)))))
       = {| status := 200;
            body := JObject [("reference_number"%string, JString ref2)] |}
    /\ countPortion ref1 = nextCount db
    /\ countPortion ref2 = countPortion ref1 + 1 + referencePosts between
    /\ countPortion ref1 < countPortion ref2
    /\ ref1 <> ref2.
Proof.
  intros Hc Hup.
  pose proof (referencePosts_nonneg between) as Hnn.
  rewrite !serve_reference. simpl fst. simpl snd.
  assert (Hnext : nextCount (afterReference db) = nextCount db + 1)
    by (apply nextCount_afterReference_exact; lia).
  rewrite nextCount_serveAll by (rewrite Hnext; lia).
  rewrite Hnext.
  do 2 eexists. split; [reflexivity |]. split; [reflexivity |].
  rewrite !countPortion_formatReference by lia.
  repeat split; try lia.
  intros Heq. apply (f_equal countPortion) in Heq.
  rewrite !countPortion_formatReference in Heq by lia. lia.
Qed.

Lemma reference_numbers_never_repeat_witness :
  0 <= nextCount emptyDb
  /\ nextCount emptyDb + 1
     + referencePosts [(atInstant 1 11 2026 "", GET_jobs);
                       (atInstant 2 11 2026 "", POST_reference);
                       (atInstant 3 11 2026 "", GET_visitorCount)]
     <= 2 ^ 53
  /\ exists ref1 ref2,
      fst (serve stubHash stubCompare (atInstant 0 11 2026 "")
             POST_reference emptyDb)
      = {| status := 200;
           body := JObject [("reference_number"%string, JString ref1)] |}
      /\ fst (serve stubHash stubCompare (atInstant 9 12 2026 "")
                POST_reference
                (snd (serveAll stubHash stubCompare
                        [(atInstant 1 11 2026 "", GET_jobs);
                         (atInstant 2 11 2026 "", POST_reference);
                         (atInstant 3 11 2026 "", GET_visitorCount)]
                        (snd (serve stubHash stubCompare
                                (atInstant 0 11 2026 "")
                                POST_reference emptyDb)))))
         = {| status := 200;
              body := JObject [("reference_number"%string, JString ref2)] |}
      /\ countPortion ref1 = nextCount emptyDb
      /\ countPortion ref2
         = countPortion ref1 + 1
           + referencePosts [(atInstant 1 11 2026 "", GET_jobs);
                             (atInstant 2 11 2026 "", POST_reference);
                             (atInstant 3 11 2026 "", GET_visitorCount)]
      /\ countPortion ref1 < countPortion ref2
      /\ ref1 <> ref2.
Proof.
  split; [vm_compute; discriminate |].
  split; [vm_compute; discriminate |].
  apply (reference_numbers_never_repeat stubHash stubCompare emptyDb);
    vm_compute; discriminate.
Defined.

(** ** Reading a reference number back *)

Lemma afterSlash_digits (s rest : string) :
  Js.allDigits s = true ->
  afterSlash (s ++ String "/" rest)%string = rest.
Proof.
  induction s as [| c s IH]; simpl; intros Hs.
  - reflexivity.
  - apply andb_true_iff in Hs as [Hc Hs].
    rewrite (isDigit_not_slash c Hc). apply IH. exact Hs.
Qed.

Lemma parseDigits_padStart (target : nat) (n : Z) :
  0 <= n -> parseDigits (Js.padStart target "0" (Js.digits n)) 0 = n.
Proof.
  intros Hn. unfold Js.padStart.
  rewrite parseDigits_app, parseDigits_fill_zero.
  apply parseDigits_digits. exact Hn.
Qed.

(** X7.  The format loses nothing: from the string the generator builds for
    a count, month and year from 0 to 2^53, the three numbers can be read
    back, so two reference numbers built from such numbers are equal only
    if they were built from the same count, month and year. *)
Theorem reference_number_decodes (count month year : Z) :
  0 <= count <= 2 ^ 53 -> 0 <= month <= 2 ^ 53 -> 0 <= year <= 2 ^ 53 ->
  countPortion (formatReference count month year) = count
  /\ monthPortion (formatReference count month year) = month
  /\ yearPortion (formatReference count month year) = year
  /\ (forall count' month' year',
         0 <= count' <= 2 ^ 53 -> 0 <= month' <= 2 ^ 53 ->
         0 <= year' <= 2 ^ 53 ->
         formatReference count month year
         = formatReference count' month' year' ->
         count = count' /\ month = month' /\ year = year').
Proof.
  assert (Hdecode : forall c m y,
             0 <= c <= 2 ^ 53 -> 0 <= m <= 2 ^ 53 -> 0 <= y <= 2 ^ 53 ->
             countPortion (formatReference c m y) = c
             /\ monthPortion (formatReference c m y) = m
             /\ yearPortion (formatReference c m y) = y).
  { intros c m y Hc Hm Hy.
    split; [apply countPortion_formatReference; exact Hc |].
    unfold monthPortion, yearPortion, formatReference.
    rewrite !String_nonneg by assumption.
    cbn [String.append].
    rewrite afterSlash_digits
      by (apply padStart_allDigits, digits_allDigits; lia).
    rewrite beforeSlash_digits, afterSlash_digits
      by (apply padStart_allDigits, digits_allDigits; lia).
    split; [apply parseDigits_padStart; lia |].
    apply parseDigits_digits; lia. }
  intros Hc Hm Hy.
  destruct (Hdecode count month year Hc Hm Hy) as (H1 & H2 & H3).
  split; [exact H1 |]. split; [exact H2 |]. split; [exact H3 |].
  intros c' m' y' Hc' Hm' Hy' Heq.
  destruct (Hdecode c' m' y' Hc' Hm' Hy') as (H1' & H2' & H3').
  split; [| split].
  - rewrite <- H1, <- H1', Heq. reflexivity.
  - rewrite <- H2, <- H2', Heq. reflexivity.
  - rewrite <- H3, <- H3', Heq. reflexivity.
Qed.

Lemma reference_number_decodes_witness :
  0 <= 1234 <= 2 ^ 53 /\ 0 <= 3 <= 2 ^ 53 /\ 0 <= 2027 <= 2 ^ 53
  /\ countPortion (formatReference 1234 3 2027) = 1234
  /\ monthPortion (formatReference 1234 3 2027) = 3
  /\ yearPortion (formatReference 1234 3 2027) = 2027.
Proof.
  assert (H0 : 0 <= 1234 <= 2 ^ 53) by (vm_compute; split; discriminate).
  assert (H1 : 0 <= 3 <= 2 ^ 53) by (vm_compute; split; discriminate).
  assert (H2 : 0 <= 2027 <= 2 ^ 53) by (vm_compute; split; discriminate).
  destruct (reference_number_decodes 1234 3 2027 H0 H1 H2)
    as (Hc & Hm & Hy & _).
  repeat split; assumption || (vm_compute; discriminate).
Defined.

(** ** Repeating and emptying job requests *)

Lemma orElse_idem {A} (x y : option A) : orElse x (orElse x y) = orElse x y.
Proof. destruct x; reflexivity. Qed.

Lemma applyUpdate_idem (body old : jobSchema.t) :
  Job.applyUpdate body (Job.applyUpdate body old) = Job.applyUpdate body old.
Proof.
  unfold Job.applyUpdate. simpl. now rewrite !orElse_idem.
Qed.

Lemma applyUpdate_noPaths (old : jobSchema.t) :
  Job.applyUpdate noPaths old = old.
Proof. destruct old; reflexivity. Qed.

Lemma lookupById_replaceById {A} (oid : ObjectId) (a old : A)
      (c : Collection A) :
  lookupById oid c = Some old ->
  lookupById oid (replaceById oid a c) = Some a.
Proof.
  induction c as [| [j x] c IH]; simpl; [discriminate |].
  destruct (N.eqb j oid) eqn:Hj; simpl; rewrite Hj; [reflexivity | exact IH].
Qed.

Lemma replaceById_twice {A} (oid : ObjectId) (a b : A) (c : Collection A) :
  replaceById oid a (replaceById oid b c) = replaceById oid a c.
Proof.
  induction c as [| [j x] c IH]; simpl; [reflexivity |].
  destruct (N.eqb j oid) eqn:Hj; simpl; rewrite Hj;
    [reflexivity | now rewrite IH].
Qed.

Lemma replaceById_same {A} (oid : ObjectId) (old : A) (c : Collection A) :
  lookupById oid c = Some old -> replaceById oid old c = c.
Proof.
  induction c as [| [j x] c IH]; simpl; [reflexivity |].
  destruct (N.eqb_spec j oid) as [-> | Hne]; intros Hfound.
  - injection Hfound as ->. reflexivity.
  - now rewrite IH.
Qed.

(** X8.  PUT is idempotent: sending the same update to the same path twice
    gives the same response both times, and the second request leaves the
    store exactly as the first left it.  This holds for every identifier
    and payload, whether the identifier casts and matches or not. *)
Theorem put_is_idempotent (id : string) (body : jobSchema.t) (db : Db) :
  exists res db1,
    put_api_jobs id body db = (Resolved res, db1)
    /\ put_api_jobs id body db1 = (Resolved res, db1).
Proof.
  rewrite put_api_jobs_run.
  destruct (castObjectId id) as [oid |] eqn:Hcast.
  - destruct (lookupById oid (Jobs db)) as [old |] eqn:Hfound.
    + do 2 eexists. split; [reflexivity |].
      rewrite put_api_jobs_run, Hcast. cbn [Jobs].
      rewrite (lookupById_replaceById oid _ old _ Hfound).
      rewrite applyUpdate_idem, replaceById_twice. reflexivity.
    + do 2 eexists. split; [reflexivity |].
      rewrite put_api_jobs_run, Hcast, Hfound. reflexivity.
  - do 2 eexists. split; [reflexivity |].
    rewrite put_api_jobs_run, Hcast. reflexivity.
Qed.

(** X9.  An update that supplies no path changes nothing: on the identifier
    of a stored job, PUT with the empty payload answers 200 with the
    document as stored and leaves the store exactly as it was. *)
Theorem empty_update_changes_nothing
  (id : string) (db : Db) (oid : ObjectId) (old : jobSchema.t) :
  castObjectId id = Some oid ->
  lookupById oid (Jobs db) = Some old ->
  put_api_jobs id noPaths db
  = (Resolved (json (jobJson {| _id := oid; isNew := false;
                                fields := old |})), db).
Proof.
  intros Hcast Hfound.
  rewrite put_api_jobs_run, Hcast, Hfound, applyUpdate_noPaths.
  rewrite (replaceById_same oid old _ Hfound).
  destruct db; reflexivity.
Qed.

Lemma empty_update_changes_nothing_witness :
  castObjectId "000000000000000000000000" = Some 0%N
  /\ put_api_jobs "000000000000000000000000" noPaths
       (snd (post_api_jobs (atInstant 1000 1 1970 "")
               {| jobSchema.title := Some "Engineer"%string;
                  jobSchema.description := None;
                  jobSchema.location := Some "Pune"%string;
                  jobSchema.datePosted := None;
                  jobSchema.icon := None |} emptyDb))
     = (Resolved
          (json (jobJson
                   {| _id := 0%N; isNew := false;
                      fields :=
                        {| jobSchema.title := Some "Engineer"%string;
                           jobSchema.description := None;
                           jobSchema.location := Some "Pune"%string;
                           jobSchema.datePosted := Some 1000;
                           jobSchema.icon := None |} |})),
        snd (post_api_jobs (atInstant 1000 1 1970 "")
               {| jobSchema.title := Some "Engineer"%string;
                  jobSchema.description := None;
                  jobSchema.location := Some "Pune"%string;
                  jobSchema.datePosted := None;
                  jobSchema.icon := None |} emptyDb)).
Proof.
  split; [reflexivity |].
  apply (empty_update_changes_nothing "000000000000000000000000" _ 0%N);
    reflexivity.
Defined.

(** X10.  DELETE on the identifier of a stored job answers 200 with
    message: Job deleted and removes that one document: the documents
    before and after it stay, in order, every other id still leads to the
    document it led to, and the other collections and the id counter are
    untouched.  When the stored ids are distinct, repeating the request
    gets the same answer and changes nothing more. *)
Theorem delete_removes_one
  (id : string) (db : Db) (oid : ObjectId) (old : jobSchema.t) :
  castObjectId id = Some oid ->
  lookupById oid (Jobs db) = Some old ->
  exists db' before after,
    delete_api_jobs id db = (Resolved (json (messageBody "Job deleted")), db')
    /\ Jobs db = before ++ (oid, old) :: after
    /\ Jobs db' = before ++ after
    /\ (forall oid', oid' <> oid ->
                     lookupById oid' (Jobs db') = lookupById oid' (Jobs db))
    /\ References db' = References db
    /\ Visitors db' = Visitors db
    /\ Users db' = Users db
    /\ objectIdCounter db' = objectIdCounter db
    /\ (NoDup (ids (Jobs db)) ->
        delete_api_jobs id db'
        = (Resolved (json (messageBody "Job deleted")), db')).
Proof.
  intros Hcast Hfound.
  destruct (lookupById_split oid old (Jobs db) Hfound)
    as (before & after & Hjobs & Hnot & _ & Hdel).
  eexists. exists before, after.
  split; [rewrite delete_api_jobs_run, Hcast, Hfound; reflexivity |].
  cbn [Jobs References Visitors Users objectIdCounter].
  split; [exact Hjobs |]. split; [exact Hdel |].
  split.
  { intros oid' Hne. clear Hjobs Hnot Hdel Hfound.
    induction (Jobs db) as [| [j x] c IH]; simpl; [reflexivity |].
    destruct (N.eqb_spec j oid) as [-> | Hj]; simpl.
    - destruct (N.eqb_spec oid oid'); [congruence | reflexivity].
    - now rewrite IH. }
  do 4 (split; [reflexivity |]).
  intros Hnd.
  rewrite delete_api_jobs_run, Hcast. cbn [Jobs].
  rewrite (proj2 (lookupById_None oid _) (deleteById_removes oid _ Hnd)).
  reflexivity.
Qed.

Lemma delete_removes_one_witness :
  castObjectId "000000000000000000000000" = Some 0%N
  /\ exists db' before after,
      delete_api_jobs "000000000000000000000000"
        (snd (post_api_jobs (atInstant 1000 1 1970 "")
                {| jobSchema.title := Some "Engineer"%string;
                   jobSchema.description := None;
                   jobSchema.location := None;
                   jobSchema.datePosted := None;
                   jobSchema.icon := None |} emptyDb))
      = (Resolved (json (messageBody "Job deleted")), db')
      /\ before ++ after = Jobs db'
      /\ Jobs db' = [].
Proof.
  split; [reflexivity |].
  destruct (delete_removes_one "000000000000000000000000"
              (snd (post_api_jobs (atInstant 1000 1 1970 "")
                      {| jobSchema.title := Some "Engineer"%string;
                         jobSchema.description := None;
                         jobSchema.location := None;
                         jobSchema.datePosted := None;
                         jobSchema.icon := None |} emptyDb))
              0%N
              {| jobSchema.title := Some "Engineer"%string;
                 jobSchema.description := None;
                 jobSchema.location := None;
                 jobSchema.datePosted := Some 1000;
                 jobSchema.icon := None |}
              eq_refl eq_refl)
    as (db' & before & after & Hrun & Hjobs & Hjobs' & _).
  exists db', before, after.
  split; [exact Hrun |]. split; [symmetry; exact Hjobs' |].
  rewrite Hjobs'.
  destruct before as [| b before]; [| destruct before; discriminate].
  injection Hjobs as <-. reflexivity.
Defined.

(** ** The visitor counter over a run of requests *)

Section VisitorRuns.

Variable bcrypt_hash : string -> nat -> string -> string.
Variable bcrypt_compare : string -> string -> bool.

Lemma serve_keeps_Visitors (env : Env) (req : Request) (db : Db) :
  req <> GET_visitorCount ->
  Visitors (snd (serve bcrypt_hash bcrypt_compare env req db)) = Visitors db.
Proof.
  intros Hreq.
  destruct req; try congruence; unfold_handlers; simpl;
    split_cases; reflexivity.
Qed.

(** What one request does to the visitor collection. *)
Lemma serve_Visitors (env : Env) (req : Request) (db : Db) :
  Visitors (snd (serve bcrypt_hash bcrypt_compare env req db))
  = if isVisitorRead (env, req) then
      match Visitors db with
      | [] => [(objectIdCounter db, visitorAfter env (visitorAtHand env db))]
      | (oid, v) :: rest => (oid, visitorAfter env v) :: rest
      end
    else Visitors db.
Proof.
  destruct req; try (apply serve_keeps_Visitors; discriminate).
  unfold serve, route.
  destruct (get_api_visitorCount_run env db)
    as (db' & Hrun & _ & _ & _ & Hvis).
  rewrite Hrun. simpl.
  destruct (Visitors db) as [| [oid v] rest]; [exact Hvis | apply Hvis].
Qed.

Lemma visitorReads_cons (env : Env) (req : Request) reqs :
  visitorReads ((env, req) :: reqs)
  = (if isVisitorRead (env, req) then 1 else 0) + visitorReads reqs.
Proof.
  unfold visitorReads. simpl filter.
  destruct (isVisitorRead (env, req)); simpl List.length; lia.
Qed.

Lemma visitorAfter_count (env : Env) (v : visitorSchema.t) :
  - 2 ^ 53 <= visitorSchema.count v <= 2 ^ 53 ->
  visitorSchema.count v <= visitorSchema.count (visitorAfter env v)
                        <= visitorSchema.count v + 1
  /\ visitorSchema.count (visitorAfter env v) <= 2 ^ 53.
Proof.
  intros Hc. unfold visitorAfter.
  destruct (hourPassed env v); cbn [visitorSchema.count]; [| lia].
  apply plus_one_bounds; lia.
Qed.

Lemma run_on_visitor_record reqs :
  forall db oid v,
    - 2 ^ 53 <= visitorSchema.count v <= 2 ^ 53 ->
    Visitors db = [(oid, v)] ->
    exists v',
      Visitors (snd (serveAll bcrypt_hash bcrypt_compare reqs db))
      = [(oid, v')]
      /\ visitorSchema.count v <= visitorSchema.count v'
                               <= visitorSchema.count v + visitorReads reqs
      /\ visitorSchema.count v' <= 2 ^ 53.
Proof.
  induction reqs as [| [env req] reqs IH]; intros db oid v Hc Hv.
  - exists v. split; [exact Hv |]. unfold visitorReads. simpl. lia.
  - rewrite serveAll_snd_step, visitorReads_cons.
    pose proof (serve_Visitors env req db) as Hstep. rewrite Hv in Hstep.
    pose proof (visitorAfter_count env v Hc) as Hcount.
    destruct (isVisitorRead (env, req)).
    + assert (Hc' : - 2 ^ 53 <= visitorSchema.count (visitorAfter env v)
                    <= 2 ^ 53) by lia.
      destruct (IH _ oid _ Hc' Hstep) as (v' & Hrun & Hbound).
      exists v'. split; [exact Hrun | lia].
    + destruct (IH _ oid _ Hc Hstep) as (v' & Hrun & Hbound).
      exists v'. split; [exact Hrun | lia].
Qed.

End VisitorRuns.

(** X11.  Over every run of requests from the fresh store the visitor
    collection is empty as long as no visitor read was served, and from the
    first read on it holds exactly one record, always under the same id,
    whose count is at least 905 and at most 905 plus the number of reads
    served.  On any store whose first record holds a count within
    -2^53 .. 2^53, a request leaves that count where it is or adds exactly
    1, and only a visitor read can add. *)
Theorem visitor_record_is_single
  (bcrypt_hash : string -> nat -> string -> string)
  (bcrypt_compare : string -> string -> bool) :
  (forall reqs,
      (visitorReads reqs = 0
       /\ Visitors (snd (serveAll bcrypt_hash bcrypt_compare reqs emptyDb))
          = [])
      \/ (1 <= visitorReads reqs
          /\ exists oid v,
              Visitors (snd (serveAll bcrypt_hash bcrypt_compare reqs emptyDb))
              = [(oid, v)]
              /\ 905 <= visitorSchema.count v <= 905 + visitorReads reqs))
  /\ (forall env req db oid v rest,
         Visitors db = (oid, v) :: rest ->
         - 2 ^ 53 <= visitorSchema.count v <= 2 ^ 53 ->
         exists v',
           Visitors (snd (serve bcrypt_hash bcrypt_compare env req db))
           = (oid, v') :: rest
           /\ (visitorSchema.count v' = visitorSchema.count v
               \/ (req = GET_visitorCount
                   /\ visitorSchema.count v' = visitorSchema.count v + 1))).
Proof.
  split.
  - intros reqs.
    assert (Hgen : forall reqs db,
               Visitors db = [] ->
               (visitorReads reqs = 0
                /\ Visitors (snd (serveAll bcrypt_hash bcrypt_compare reqs db))
                   = [])
               \/ (1 <= visitorReads reqs
                   /\ exists oid v,
                       Visitors
                         (snd (serveAll bcrypt_hash bcrypt_compare reqs db))
                       = [(oid, v)]
                       /\ 905 <= visitorSchema.count v
                              <= 905 + visitorReads reqs)).
    { clear reqs. induction reqs as [| [env req] reqs IH]; intros db Hv.
      - left. split; [reflexivity | exact Hv].
      - rewrite serveAll_snd_step, visitorReads_cons.
        pose proof (serve_Visitors bcrypt_hash bcrypt_compare env req db)
          as Hstep.
        rewrite Hv in Hstep.
        assert (Hnn : 0 <= visitorReads reqs) by (unfold visitorReads; lia).
        destruct (isVisitorRead (env, req)).
        + right. split; [lia |].
          assert (H905 : - 2 ^ 53 <= visitorSchema.count (visitorAtHand env db)
                         <= 2 ^ 53)
            by (unfold visitorAtHand; rewrite Hv; vm_compute;
                split; discriminate).
          pose proof (visitorAfter_count env (visitorAtHand env db) H905)
            as Hc.
          assert (Hc' : - 2 ^ 53
                        <= visitorSchema.count
                             (visitorAfter env (visitorAtHand env db))
                        <= 2 ^ 53) by lia.
          destruct (run_on_visitor_record bcrypt_hash bcrypt_compare reqs
                      _ _ _ Hc' Hstep) as (v' & Hrun & Hbound).
          exists (objectIdCounter db), v'. split; [exact Hrun |].
          unfold visitorAtHand in Hc, Hbound. rewrite Hv in Hc, Hbound.
          cbn [visitorSchema.count] in Hc. lia.
        + rewrite Z.add_0_l. apply IH. exact Hstep. }
    apply Hgen. reflexivity.
  - intros env req db oid v rest Hv Hc.
    pose proof (serve_Visitors bcrypt_hash bcrypt_compare env req db) as Hstep.
    rewrite Hv in Hstep. rewrite Hstep.
    destruct req; simpl;
      try (exists v; split; [reflexivity | left; reflexivity]).
    exists (visitorAfter env v). split; [reflexivity |].
    unfold visitorAfter. destruct (hourPassed env v);
      cbn [visitorSchema.count]; [| left; reflexivity].
    destruct (Z.eq_dec (visitorSchema.count v) (2 ^ 53)) as [Htop | Htop].
    + left. rewrite Htop. reflexivity.
    + right. split; [reflexivity |]. apply plus_one_exact. lia53.
Qed.

(** ** At most one increment an hour *)

Lemma inProcess_step (since upTo t : Z) (v : InProcess.Vars) :
  t <= upTo ->
  905 <= InProcess.visitorCount v <= 2 ^ 53 ->
  3600000 * (InProcess.visitorCount v - 905)
  <= InProcess.lastIncrementTime v - since ->
  InProcess.lastIncrementTime v <= upTo ->
  let v' := snd (InProcess.get_api_visitorCount t v) in
  fst (InProcess.get_api_visitorCount t v)
  = json (visitorCountBody (InProcess.visitorCount v'))
  /\ 905 <= InProcess.visitorCount v' <= 2 ^ 53
  /\ 3600000 * (InProcess.visitorCount v' - 905)
     <= InProcess.lastIncrementTime v' - since
  /\ InProcess.lastIncrementTime v' <= upTo.
Proof.
  intros Ht Hmin Hrate Hlast. cbv zeta.
  unfold InProcess.get_api_visitorCount.
  pose proof (plus_one_bounds (InProcess.visitorCount v)
                ltac:(lia53) ltac:(lia)) as Hplus.
  destruct (Z.geb_spec (t - InProcess.lastIncrementTime v) 3600000);
    cbn [fst snd InProcess.visitorCount InProcess.lastIncrementTime];
    repeat split; try reflexivity; lia.
Qed.

Lemma inProcessRun_cons (t : Z) (times : list Z) (v : InProcess.Vars) :
  inProcessRun (t :: times) v
  = (fst (InProcess.get_api_visitorCount t v)
       :: fst (inProcessRun times (snd (InProcess.get_api_visitorCount t v))),
     snd (inProcessRun times (snd (InProcess.get_api_visitorCount t v)))).
Proof.
  cbn [inProcessRun].
  destruct (InProcess.get_api_visitorCount t v) as [res v'].
  cbn [fst snd]. destruct (inProcessRun times v'). reflexivity.
Qed.

Lemma inProcessRun_rate (since upTo : Z) (times : list Z) :
  forall v,
    Forall (fun t => t <= upTo) times ->
    905 <= InProcess.visitorCount v <= 2 ^ 53 ->
    3600000 * (InProcess.visitorCount v - 905)
    <= InProcess.lastIncrementTime v - since ->
    InProcess.lastIncrementTime v <= upTo ->
    Forall (countWithinRate since upTo) (fst (inProcessRun times v))
    /\ 905 <= InProcess.visitorCount (snd (inProcessRun times v))
    /\ 3600000 * (InProcess.visitorCount (snd (inProcessRun times v)) - 905)
       <= upTo - since.
Proof.
  induction times as [| t times IH]; intros v Htimes Hmin Hrate Hlast.
  - cbn [inProcessRun fst snd]. split; [apply Forall_nil | lia].
  - inversion Htimes as [| ? ? Ht Htimes']; subst.
    destruct (inProcess_step since upTo t v Ht Hmin Hrate Hlast)
      as (Hres & Hmin' & Hrate' & Hlast').
    destruct (IH _ Htimes' Hmin' Hrate' Hlast') as (Hall & Hend).
    rewrite inProcessRun_cons. cbn [fst snd].
    split; [| exact Hend].
    apply Forall_cons; [| exact Hall].
    eexists. split; [exact Hres |]. lia.
Qed.

(** X12.  The in-process counter goes up at most once an hour.  Start the
    process at [since] and serve reads at any clock readings up to [upTo],
    in any order: every count returned, and the count held at the end, is
    at least 905 and exceeds 905 by at most the number of whole hours
    between [since] and [upTo]. *)
Theorem in_process_counter_rate (since upTo : Z) (times : list Z) :
  since <= upTo ->
  Forall (fun t => t <= upTo) times ->
  Forall (countWithinRate since upTo)
         (fst (inProcessRun times (InProcess.start since)))
  /\ 905 <= InProcess.visitorCount
              (snd (inProcessRun times (InProcess.start since)))
  /\ 3600000
     * (InProcess.visitorCount
          (snd (inProcessRun times (InProcess.start since))) - 905)
     <= upTo - since.
Proof.
  intros Hspan Htimes.
  apply inProcessRun_rate;
    cbn [InProcess.start InProcess.visitorCount InProcess.lastIncrementTime];
    try assumption; lia53.
Qed.

Lemma in_process_counter_rate_witness :
  0 <= 7200000
  /\ Forall (fun t => t <= 7200000) [10; 3600000; 3600001; 7200000]
  /\ InProcess.visitorCount
       (snd (inProcessRun [10; 3600000; 3600001; 7200000]
               (InProcess.start 0)))
     = 907
  /\ 3600000
     * (InProcess.visitorCount
          (snd (inProcessRun [10; 3600000; 3600001; 7200000]
                  (InProcess.start 0))) - 905)
     <= 7200000 - 0.
Proof.
  assert (Hspan : 0 <= 7200000) by lia.
  assert (Htimes : Forall (fun t => t <= 7200000)
                          [10; 3600000; 3600001; 7200000])
    by (repeat constructor; lia).
  split; [exact Hspan |]. split; [exact Htimes |].
  split; [reflexivity |].
  exact (proj2 (proj2 (in_process_counter_rate 0 7200000 _ Hspan Htimes))).
Defined.

Lemma visitorAfter_rate (since upTo : Z) (env : Env) (v : visitorSchema.t) :
  clockWithin since upTo env ->
  recordWithinRate since upTo v ->
  recordWithinRate since upTo (visitorAfter env v).
Proof.
  intros [Hnow [Hcheck Hreset]] (Hmin & Hrate & Hlast & Hsafe).
  pose proof (plus_one_bounds (visitorSchema.count v)
                ltac:(lia53) Hsafe) as Hplus.
  unfold visitorAfter, hourPassed, recordWithinRate.
  destruct (Z.geb_spec (currentTime env - visitorSchema.lastUpdated v)
              3600000);
    cbn [visitorSchema.count visitorSchema.lastUpdated];
    repeat split; lia.
Qed.

Lemma visitorAtHand_rate (since upTo : Z) (env : Env) (db : Db) :
  clockWithin since upTo env ->
  Visitors db = [] ->
  recordWithinRate since upTo (visitorAtHand env db).
Proof.
  intros [Hnow _] Hv. unfold visitorAtHand, recordWithinRate. rewrite Hv.
  cbn [visitorSchema.count visitorSchema.lastUpdated]. lia53.
Qed.

Lemma serveAll_rate
      (bcrypt_hash : string -> nat -> string -> string)
      (bcrypt_compare : string -> string -> bool)
      (since upTo : Z) reqs :
  forall db,
    Forall (fun r => clockWithin since upTo (fst r)) reqs ->
    (Visitors db = []
     \/ exists oid v, Visitors db = [(oid, v)]
                      /\ recordWithinRate since upTo v) ->
    Visitors (snd (serveAll bcrypt_hash bcrypt_compare reqs db)) = []
    \/ exists oid v,
        Visitors (snd (serveAll bcrypt_hash bcrypt_compare reqs db))
        = [(oid, v)]
        /\ recordWithinRate since upTo v.
Proof.
  induction reqs as [| [env req] reqs IH]; intros db Hclocks Hinv;
    [exact Hinv |].
  inversion Hclocks as [| ? ? Hclock Hclocks']; subst. simpl in Hclock.
  rewrite serveAll_snd_step. apply IH; [exact Hclocks' |].
  pose proof (serve_Visitors bcrypt_hash bcrypt_compare env req db) as Hstep.
  destruct (isVisitorRead (env, req)).
  - right. destruct Hinv as [Hv | (oid & v & Hv & Hrate)];
      rewrite Hv in Hstep; do 2 eexists; (split; [exact Hstep |]);
      apply visitorAfter_rate; try assumption.
    apply visitorAtHand_rate; assumption.
  - rewrite Hstep. exact Hinv.
Qed.

(** X13.  The store-backed counter goes up at most once an hour.  Take a
    run of requests from the fresh store in which every clock reading lies
    between [since] and [upTo] and no request's reset stamp is earlier than
    its check.  Then a visitor read served after the run answers with a
    count that is at least 905 and exceeds 905 by at most the number of
    whole hours between [since] and [upTo], and the same bound holds for
    the record the run leaves in the store. *)
Theorem visitor_counter_rate
  (bcrypt_hash : string -> nat -> string -> string)
  (bcrypt_compare : string -> string -> bool)
  (since upTo : Z) (reqs : list (Env * Request)) (env : Env) :
  Forall (fun r => clockWithin since upTo (fst r)) reqs ->
  clockWithin since upTo env ->
  countWithinRate since upTo
    (fst (serve bcrypt_hash bcrypt_compare env GET_visitorCount
            (snd (serveAll bcrypt_hash bcrypt_compare reqs emptyDb))))
  /\ (Visitors (snd (serveAll bcrypt_hash bcrypt_compare reqs emptyDb)) = []
      \/ exists oid v,
          Visitors (snd (serveAll bcrypt_hash bcrypt_compare reqs emptyDb))
          = [(oid, v)]
          /\ 905 <= visitorSchema.count v
          /\ 3600000 * (visitorSchema.count v - 905) <= upTo - since).
Proof.
  intros Hclocks Hclock.
  pose proof (serveAll_rate bcrypt_hash bcrypt_compare since upTo reqs emptyDb
                Hclocks (or_introl eq_refl)) as Hinv.
  set (db := snd (serveAll bcrypt_hash bcrypt_compare reqs emptyDb)) in *.
  split.
  - unfold serve, route.
    destruct (get_api_visitorCount_run env db) as (db' & Hrun & _).
    rewrite Hrun. cbn [fst].
    assert (Hrate : recordWithinRate since upTo
                      (visitorAfter env (visitorAtHand env db))).
    { apply visitorAfter_rate; [exact Hclock |].
      destruct Hinv as [Hv | (oid & v & Hv & Hrate)].
      - apply visitorAtHand_rate; assumption.
      - unfold visitorAtHand. rewrite Hv. exact Hrate. }
    destruct Hrate as (Hmin & Hrate & Hlast & _).
    eexists. split; [reflexivity |]. split; [exact Hmin | lia].
  - destruct Hinv as [Hv | (oid & v & Hv & Hmin & Hrate & Hlast & _)];
      [left; exact Hv | right].
    exists oid, v. split; [exact Hv |]. split; [exact Hmin | lia].
Qed.

Lemma visitor_counter_rate_witness :
  Forall (fun r => clockWithin 0 7200000 (fst r))
         (visitorRequests [atInstant 10 1 1970 ""; atInstant 3600010 1 1970 "";
                           atInstant 3600011 1 1970 ""])
  /\ clockWithin 0 7200000 (atInstant 7200000 1 1970 "")
  /\ countWithinRate 0 7200000
       (fst (serve stubHash stubCompare (atInstant 7200000 1 1970 "")
               GET_visitorCount
               (snd (serveAll stubHash stubCompare
                       (visitorRequests
                          [atInstant 10 1 1970 "";
                           atInstant 3600010 1 1970 "";
                           atInstant 3600011 1 1970 ""])
                       emptyDb)))).
Proof.
  assert (Hclocks :
           Forall (fun r => clockWithin 0 7200000 (fst r))
                  (visitorRequests
                     [atInstant 10 1 1970 ""; atInstant 3600010 1 1970 "";
                      atInstant 3600011 1 1970 ""]))
    by (repeat constructor; simpl; lia).
  assert (Hclock : clockWithin 0 7200000 (atInstant 7200000 1 1970 ""))
    by (repeat split; simpl; lia).
  split; [exact Hclocks |]. split; [exact Hclock |].
  exact (proj1 (visitor_counter_rate stubHash stubCompare 0 7200000 _ _
                  Hclocks Hclock)).
Defined.

(** ** The two visitor counters over a run *)

Section Variants.

Variable bcrypt_hash : string -> nat -> string -> string.
Variable bcrypt_compare : string -> string -> bool.
Variables (month year : Z) (entropy : string).

Let reads (times : list Z) : list (Env * Request) :=
  visitorRequests (map (fun t => atInstant t month year entropy) times).

Lemma reads_on_record (times : list Z) :
  forall v db oid rest,
    Visitors db = (oid, asVisitor v) :: rest ->
    fst (serveAll bcrypt_hash bcrypt_compare (reads times) db)
    = fst (inProcessRun times v)
    /\ Visitors (snd (serveAll bcrypt_hash bcrypt_compare (reads times) db))
       = (oid, asVisitor (snd (inProcessRun times v))) :: rest.
Proof.
  induction times as [| t times IH]; intros v db oid rest Hv.
  - split; [reflexivity | exact Hv].
  - unfold reads in *. cbn [map visitorRequests].
    rewrite serveAll_cons, inProcessRun_cons. cbn [fst snd].
    destruct (visitor_variants_agree t month year entropy v db oid rest Hv)
      as (db' & Hrun & Hv').
    assert (Hserve :
             serve bcrypt_hash bcrypt_compare
               (atInstant t month year entropy) GET_visitorCount db
             = (fst (InProcess.get_api_visitorCount t v), db'))
      by (unfold serve, route; rewrite Hrun; reflexivity).
    rewrite Hserve. cbn [fst snd].
    destruct (IH _ _ _ _ Hv') as (Hres & Hend).
    unfold visitorRequests in *. rewrite Hres, Hend. split; reflexivity.
Qed.

Lemma first_read_creates (t : Z) (db : Db) :
  Visitors db = [] ->
  exists db',
    serve bcrypt_hash bcrypt_compare (atInstant t month year entropy)
      GET_visitorCount db
    = (fst (InProcess.get_api_visitorCount t (InProcess.start t)), db')
    /\ Visitors db'
       = [(objectIdCounter db,
           asVisitor (snd (InProcess.get_api_visitorCount
                             t (InProcess.start t))))].
Proof.
  intros Hv. unfold serve, route.
  destruct (get_api_visitorCount_run (atInstant t month year entropy) db)
    as (db' & Hrun & _ & _ & _ & Hvis).
  rewrite Hv in Hvis. exists db'. rewrite Hrun, Hvis.
  unfold visitorAtHand, visitorAfter, hourPassed, asVisitor,
    InProcess.get_api_visitorCount, InProcess.start.
  rewrite Hv. cbn [visitorSchema.lastUpdated dateNow currentTime atInstant
                     InProcess.lastIncrementTime].
  rewrite Z.sub_diag. split; reflexivity.
Qed.

End Variants.

(** X14.  The two source files agree on the visitor counter.  When every
    request reads the clock once, a run of reads of the store-backed
    counter on a store holding a record answers exactly as the in-process
    counter does from the matching pair of variables, and leaves the
    matching record; and from a store without a record it answers as the
    in-process counter of a process started at the time of the first
    read. *)
Theorem visitor_counters_agree
  (bcrypt_hash : string -> nat -> string -> string)
  (bcrypt_compare : string -> string -> bool)
  (month year : Z) (entropy : string) (times : list Z) :
  (forall v db oid rest,
      Visitors db = (oid, asVisitor v) :: rest ->
      fst (serveAll bcrypt_hash bcrypt_compare
             (visitorRequests
                (map (fun t => atInstant t month year entropy) times)) db)
      = fst (inProcessRun times v)
      /\ Visitors
           (snd (serveAll bcrypt_hash bcrypt_compare
                   (visitorRequests
                      (map (fun t => atInstant t month year entropy) times))
                   db))
         = (oid, asVisitor (snd (inProcessRun times v))) :: rest)
  /\ (forall first db,
         Visitors db = [] ->
         fst (serveAll bcrypt_hash bcrypt_compare
                (visitorRequests
                   (map (fun t => atInstant t month year entropy)
                        (first :: times))) db)
         = fst (inProcessRun (first :: times) (InProcess.start first))).
Proof.
  split.
  - intros v db oid rest Hv.
    apply (reads_on_record bcrypt_hash bcrypt_compare month year entropy
             times v db oid rest Hv).
  - intros first db Hv. cbn [map visitorRequests].
    rewrite serveAll_cons, inProcessRun_cons. cbn [fst snd].
    destruct (first_read_creates bcrypt_hash bcrypt_compare month year entropy
                first db Hv) as (db' & Hserve & Hv').
    rewrite Hserve. cbn [fst snd].
    destruct (reads_on_record bcrypt_hash bcrypt_compare month year entropy
                times _ db' _ [] Hv') as (Hres & _).
    unfold visitorRequests in *. rewrite Hres. reflexivity.
Qed.

(** ** Jobs nobody asked to change *)

Lemma lookupById_app_some {A} (oid : ObjectId) (a : A)
      (c extra : Collection A) :
  lookupById oid c = Some a -> lookupById oid (c ++ extra) = Some a.
Proof.
  induction c as [| [j x] c IH]; simpl; [discriminate |].
  destruct (N.eqb j oid); [trivial | exact IH].
Qed.

Lemma lookupById_deleteById_other {A} (oid oid' : ObjectId)
      (c : Collection A) :
  oid' <> oid ->
  lookupById oid' (deleteById oid c) = lookupById oid' c.
Proof.
  intros Hne. induction c as [| [j x] c IH]; simpl; [reflexivity |].
  destruct (N.eqb_spec j oid) as [-> | Hj]; simpl.
  - destruct (N.eqb_spec oid oid'); [congruence | reflexivity].
  - now rewrite IH.
Qed.

Lemma serve_keeps_job
      (bcrypt_hash : string -> nat -> string -> string)
      (bcrypt_compare : string -> string -> bool)
      (env : Env) (req : Request) (db : Db)
      (oid : ObjectId) (job : jobSchema.t) :
  targets oid req = false ->
  lookupById oid (Jobs db) = Some job ->
  lookupById oid (Jobs (snd (serve bcrypt_hash bcrypt_compare env req db)))
  = Some job.
Proof.
  intros Htarget Hfound.
  destruct req as [| payload | | id payload | id | creds | creds |];
    try (match goal with
         | |- context [serve _ _ _ ?r _] =>
             rewrite (serve_keeps_Jobs bcrypt_hash bcrypt_compare env r db I)
         end; exact Hfound).
  - rewrite (serve_post_jobs bcrypt_hash bcrypt_compare env payload db).
    cbn [snd Jobs]. apply lookupById_app_some. exact Hfound.
  - unfold serve, route. rewrite put_api_jobs_run.
    simpl in Htarget.
    destruct (castObjectId id) as [oid' |]; [| exact Hfound].
    destruct (lookupById oid' (Jobs db)); [| exact Hfound].
    cbn [snd Jobs]. rewrite lookupById_other; [exact Hfound |].
    intros ->. rewrite N.eqb_refl in Htarget. discriminate.
  - unfold serve, route. rewrite delete_api_jobs_run.
    simpl in Htarget.
    destruct (castObjectId id) as [oid' |]; [| exact Hfound].
    destruct (lookupById oid' (Jobs db)); [| exact Hfound].
    cbn [snd Jobs]. rewrite lookupById_deleteById_other; [exact Hfound |].
    intros ->. rewrite N.eqb_refl in Htarget. discriminate.
Qed.

(** X15.  A stored job stays as it is unless a request names it: through
    any run of requests none of which is a PUT or DELETE on its identifier,
    the job is still stored under its id with the same fields, and a
    listing served after the run contains it. *)
Theorem job_survives_other_requests
  (bcrypt_hash : string -> nat -> string -> string)
  (bcrypt_compare : string -> string -> bool)
  (reqs : list (Env * Request)) (db : Db)
  (oid : ObjectId) (job : jobSchema.t) (env : Env) :
  lookupById oid (Jobs db) = Some job ->
  forallb (fun r => negb (targets oid (snd r))) reqs = true ->
  lookupById oid (Jobs (snd (serveAll bcrypt_hash bcrypt_compare reqs db)))
  = Some job
  /\ exists items,
      fst (serve bcrypt_hash bcrypt_compare env GET_jobs
             (snd (serveAll bcrypt_hash bcrypt_compare reqs db)))
      = json (JArray items)
      /\ In (jobJson {| _id := oid; isNew := false; fields := job |}) items.
Proof.
  intros Hfound Hquiet.
  assert (Hkept :
           lookupById oid
             (Jobs (snd (serveAll bcrypt_hash bcrypt_compare reqs db)))
           = Some job).
  { revert db Hfound.
    induction reqs as [| [e req] reqs IH]; intros db Hfound;
      [exact Hfound |].
    simpl in Hquiet. apply andb_true_iff in Hquiet as [Hreq Hrest].
    rewrite serveAll_snd_step. apply IH; [exact Hrest |].
    apply serve_keeps_job; [| exact Hfound].
    now apply negb_true_iff in Hreq. }
  split; [exact Hkept |].
  eexists. split; [reflexivity |].
  destruct (lookupById_split oid job _ Hkept) as (before & after & -> & _).
  rewrite !map_app. apply in_or_app. right. left. reflexivity.
Qed.

Lemma job_survives_other_requests_witness :
  lookupById 0%N
    (Jobs (snd (post_api_jobs (atInstant 1000 1 1970 "")
                  {| jobSchema.title := Some "Engineer"%string;
                     jobSchema.description := None;
                     jobSchema.location := None;
                     jobSchema.datePosted := None;
                     jobSchema.icon := None |} emptyDb)))
  = Some {| jobSchema.title := Some "Engineer"%string;
            jobSchema.description := None;
            jobSchema.location := None;
            jobSchema.datePosted := Some 1000;
            jobSchema.icon := None |}
  /\ lookupById 0%N
       (Jobs (snd (serveAll stubHash stubCompare
                     [(atInstant 2000 1 1970 "", POST_jobs noPaths);
                      (atInstant 3000 1 1970 "",
                       DELETE_jobs "000000000000000000000001");
                      (atInstant 4000 1 1970 "",
                       PUT_jobs "not-an-id" noPaths);
                      (atInstant 5000 1 1970 "", POST_reference)]
                     (snd (post_api_jobs (atInstant 1000 1 1970 "")
                             {| jobSchema.title := Some "Engineer"%string;
                                jobSchema.description := None;
                                jobSchema.location := None;
                                jobSchema.datePosted := None;
                                jobSchema.icon := None |} emptyDb)))))
     = Some {| jobSchema.title := Some "Engineer"%string;
               jobSchema.description := None;
               jobSchema.location := None;
               jobSchema.datePosted := Some 1000;
               jobSchema.icon := None |}.
Proof.
  split; [reflexivity |].
  exact (proj1 (job_survives_other_requests stubHash stubCompare
                  [(atInstant 2000 1 1970 "", POST_jobs noPaths);
                   (atInstant 3000 1 1970 "",
                    DELETE_jobs "000000000000000000000001");
                   (atInstant 4000 1 1970 "", PUT_jobs "not-an-id" noPaths);
                   (atInstant 5000 1 1970 "", POST_reference)]
                  (snd (post_api_jobs (atInstant 1000 1 1970 "")
                          {| jobSchema.title := Some "Engineer"%string;
                             jobSchema.description := None;
                             jobSchema.location := None;
                             jobSchema.datePosted := None;
                             jobSchema.icon := None |} emptyDb))
                  0%N
                  {| jobSchema.title := Some "Engineer"%string;
                     jobSchema.description := None;
                     jobSchema.location := None;
                     jobSchema.datePosted := Some 1000;
                     jobSchema.icon := None |}
                  (atInstant 6000 1 1970 "") eq_refl eq_refl)).
Defined.

(** ** Visitor counts never go down *)

Lemma run_on_visitor_head
      (bcrypt_hash : string -> nat -> string -> string)
      (bcrypt_compare : string -> string -> bool) reqs :
  forall db oid v rest,
    - 2 ^ 53 <= visitorSchema.count v <= 2 ^ 53 ->
    Visitors db = (oid, v) :: rest ->
    exists v',
      Visitors (snd (serveAll bcrypt_hash bcrypt_compare reqs db))
      = (oid, v') :: rest
      /\ visitorSchema.count v <= visitorSchema.count v'
                               <= visitorSchema.count v + visitorReads reqs
      /\ visitorSchema.count v' <= 2 ^ 53.
Proof.
  induction reqs as [| [env req] reqs IH]; intros db oid v rest Hc Hv.
  - exists v. split; [exact Hv |]. unfold visitorReads. simpl. lia.
  - rewrite serveAll_snd_step, visitorReads_cons.
    pose proof (serve_Visitors bcrypt_hash bcrypt_compare env req db) as Hstep.
    rewrite Hv in Hstep.
    pose proof (visitorAfter_count env v Hc) as Hcount.
    destruct (isVisitorRead (env, req)).
    + assert (Hc' : - 2 ^ 53 <= visitorSchema.count (visitorAfter env v)
                    <= 2 ^ 53) by lia.
      destruct (IH _ oid _ rest Hc' Hstep) as (v' & Hrun & Hbound).
      exists v'. split; [exact Hrun | lia].
    + destruct (IH _ oid _ rest Hc Hstep) as (v' & Hrun & Hbound).
      exists v'. split; [exact Hrun | lia].
Qed.

Lemma serve_visitor_read
      (bcrypt_hash : string -> nat -> string -> string)
      (bcrypt_compare : string -> string -> bool)
      (env : Env) (db : Db) :
  exists db' oid rest,
    serve bcrypt_hash bcrypt_compare env GET_visitorCount db
    = (json (visitorCountBody
               (visitorSchema.count
                  (visitorAfter env (visitorAtHand env db)))), db')
    /\ Visitors db'
       = (oid, visitorAfter env (visitorAtHand env db)) :: rest.
Proof.
  unfold serve, route.
  destruct (get_api_visitorCount_run env db)
    as (db' & Hrun & _ & _ & _ & Hvis).
  rewrite Hrun. exists db'. unfold visitorAtHand in *.
  destruct (Visitors db) as [| [oid v] rest].
  - do 2 eexists. split; [reflexivity | exact Hvis].
  - do 2 eexists. split; [reflexivity | apply Hvis].
Qed.

(** X16.  The counts the visitor route answers never go down.  Of two reads
    with any run of requests between them, on any store whose visitor
    record, if it has one, holds a count within -2^53 .. 2^53, the second
    answers at least what the first answered and at most that plus one for
    itself and one for every visitor read served in between. *)
Theorem visitor_counts_never_go_down
  (bcrypt_hash : string -> nat -> string -> string)
  (bcrypt_compare : string -> string -> bool)
  (db : Db) (env1 env2 : Env) (between : list (Env * Request)) :
  - 2 ^ 53 <= visitorSchema.count (visitorAtHand env1 db) <= 2 ^ 53 ->
  exists c1 c2,
    fst (serve bcrypt_hash bcrypt_compare env1 GET_visitorCount db)
    = json (visitorCountBody c1)
    /\ fst (serve bcrypt_hash bcrypt_compare env2 GET_visitorCount
              (snd (serveAll bcrypt_hash bcrypt_compare between
                      (snd (serve bcrypt_hash bcrypt_compare env1
                              GET_visitorCount db)))))
       = json (visitorCountBody c2)
    /\ c1 <= c2 <= c1 + 1 + visitorReads between.
Proof.
  intros Hsafe.
  destruct (serve_visitor_read bcrypt_hash bcrypt_compare env1 db)
    as (db1 & oid & rest & Hrun1 & Hhead).
  rewrite Hrun1. cbn [fst snd].
  pose proof (visitorAfter_count env1 _ Hsafe) as Hfirst.
  assert (Hsafe1 : - 2 ^ 53
                   <= visitorSchema.count
                        (visitorAfter env1 (visitorAtHand env1 db))
                   <= 2 ^ 53) by lia.
  destruct (run_on_visitor_head bcrypt_hash bcrypt_compare between
              db1 oid _ rest Hsafe1 Hhead) as (v2 & Hend & Hbound).
  destruct (serve_visitor_read bcrypt_hash bcrypt_compare env2
              (snd (serveAll bcrypt_hash bcrypt_compare between db1)))
    as (db3 & oid3 & rest3 & Hrun2 & _).
  rewrite Hrun2. cbn [fst].
  do 2 eexists. split; [reflexivity |]. split; [reflexivity |].
  assert (Hat : visitorAtHand env2
                  (snd (serveAll bcrypt_hash bcrypt_compare between db1))
                = v2)
    by (unfold visitorAtHand; rewrite Hend; reflexivity).
  rewrite Hat.
  assert (Hsafe2 : - 2 ^ 53 <= visitorSchema.count v2 <= 2 ^ 53) by lia.
  pose proof (visitorAfter_count env2 v2 Hsafe2). lia.
Qed.

Lemma visitor_counts_never_go_down_witness :
  - 2 ^ 53
  <= visitorSchema.count (visitorAtHand (atInstant 0 1 1970 "") emptyDb)
  <= 2 ^ 53
  /\ exists c1 c2,
      fst (serve stubHash stubCompare (atInstant 0 1 1970 "")
             GET_visitorCount emptyDb)
      = json (visitorCountBody c1)
      /\ fst (serve stubHash stubCompare (atInstant 7200000 1 1970 "")
                GET_visitorCount
                (snd (serveAll stubHash stubCompare
                        [(atInstant 10 1 1970 "", GET_jobs);
                         (atInstant 3600000 1 1970 "", GET_visitorCount)]
                        (snd (serve stubHash stubCompare
                                (atInstant 0 1 1970 "")
                                GET_visitorCount emptyDb)))))
         = json (visitorCountBody c2)
      /\ c1 <= c2
            <= c1 + 1
               + visitorReads
                   [(atInstant 10 1 1970 "", GET_jobs);
                    (atInstant 3600000 1 1970 "", GET_visitorCount)].
Proof.
  assert (Hsafe : - 2 ^ 53
                  <= visitorSchema.count
                       (visitorAtHand (atInstant 0 1 1970 "") emptyDb)
                  <= 2 ^ 53)
    by (vm_compute; split; discriminate).
  split; [exact Hsafe |].
  exact (visitor_counts_never_go_down stubHash stubCompare emptyDb
           (atInstant 0 1 1970 "") (atInstant 7200000 1 1970 "")
           [(atInstant 10 1 1970 "", GET_jobs);
            (atInstant 3600000 1 1970 "", GET_visitorCount)]
           Hsafe).
Defined.

(** Beyond 2^53 the bound no longer holds: on a record that holds
    2^53 + 2, a read within the hour answers 2^53 + 2 and a read an hour
    later answers 2^53 + 4. *)
Example visitor_counts_beyond_exact_range :
  map body
    (fst (serveAll stubHash stubCompare
            (visitorRequests
               [atInstant 0 1 1970 ""; atInstant 3600000 1 1970 ""])
            {| objectIdCounter := 1%N; References := [];
               Visitors := [(0%N, {| visitorSchema.count := 2 ^ 53 + 2;
                                     visitorSchema.lastUpdated := 0 |})];
               Jobs := []; Users := [] |}))
  = [JObject [("visitorCount"%string, JNumber (2 ^ 53 + 2))];
     JObject [("visitorCount"%string, JNumber (2 ^ 53 + 4))]].
Proof. vm_compute. reflexivity. Qed.
